(** * Friday: the permission gate and its audit trail

    A shallow embedding of [core/logger.py] and [core/permission_manager.py],
    and of their callers in [modules/os_operator/file_ops.py] and the text
    handling of [core/ollama_client.py].

    Text is carried by [string]: a sequence of 8-bit characters, read as the
    UTF-8 bytes of the Python [str].  On ASCII text the operations below
    ([lower], [strip], [fnmatch], the JSON codec) are the Python ones;
    bytes above 127 are passed through unchanged.  The host is taken to be
    POSIX: [os.path.normcase] is the identity and files are written without
    newline translation.

    The log file is held as the text that its bytes decode to.  The
    readers open it with [encoding="utf-8"]: on bytes that are not UTF-8
    they raise [UnicodeDecodeError], which is outside what is modelled, and
    a property that lets foreign text into the log takes [Reading.decodes],
    that the file is UTF-8 text, as a hypothesis.

    What the program does to its surroundings is kept in one order, the
    [history] of the [World]: a write to the log, a line printed or read
    and a call of the approval callback each add an event to it. *)

From Stdlib Require Import List String Ascii ZArith Bool Arith Lia.
From Stdlib Require Import Numbers.DecimalString.
From Stdlib Require Numbers.DecimalPos Numbers.DecimalFacts.
Import ListNotations.

Open Scope list_scope.
Open Scope string_scope.

(** ** Python text primitives *)

Module PyStr.

Definition code (c : ascii) : nat := nat_of_ascii c.

(** [c.lower()] on one ASCII character. *)
Definition lower_char (c : ascii) : ascii :=
  if (65 <=? code c)%nat && (code c <=? 90)%nat
  then ascii_of_nat (code c + 32) else c.

(** [s.lower()]. *)
Fixpoint lower (s : string) : string :=
  match s with
  | EmptyString => EmptyString
  | String c r => String (lower_char c) (lower r)
  end.

(** [s.startswith(p)]. *)
Fixpoint startswith (s p : string) : bool :=
  match p, s with
  | EmptyString, _ => true
  | String _ _, EmptyString => false
  | String a p', String b s' => Ascii.eqb a b && startswith s' p'
  end.

(** [needle in hay]. *)
Fixpoint contains (hay needle : string) : bool :=
  startswith hay needle ||
  match hay with
  | EmptyString => false
  | String _ r => contains r needle
  end.

(** [str.isspace] on one ASCII character: TAB, LF, VT, FF, CR, the
    separators 0x1c-0x1f and the space. *)
Definition isspace (c : ascii) : bool :=
  let n := code c in
  ((9 <=? n)%nat && (n <=? 13)%nat) || ((28 <=? n)%nat && (n <=? 32)%nat).

Fixpoint lstrip (s : string) : string :=
  match s with
  | EmptyString => EmptyString
  | String c r => if isspace c then lstrip r else s
  end.

Fixpoint rstrip (s : string) : string :=
  match s with
  | EmptyString => EmptyString
  | String c r =>
      match rstrip r with
      | EmptyString => if isspace c then EmptyString else String c EmptyString
      | r' => String c r'
      end
  end.

(** [s.strip()]. *)
Definition strip (s : string) : string := rstrip (lstrip s).

(** Truth value of a string: the empty string is falsy. *)
Definition truthy (s : string) : bool :=
  match s with EmptyString => false | _ => true end.

(** [c * n] for a one-character string. *)
Fixpoint repeat_char (c : ascii) (n : nat) : string :=
  match n with O => EmptyString | S k => String c (repeat_char c k) end.

(** [sep.join(parts)]. *)
Fixpoint join (sep : string) (parts : list string) : string :=
  match parts with
  | [] => EmptyString
  | [p] => p
  | p :: rest => p ++ sep ++ join sep rest
  end.

(** [str(n)] for an integer. *)
Definition of_int (n : Z) : string := NilZero.string_of_int (Z.to_int n).

End PyStr.

(** ** UTF-8

    The byte strings that Python's [utf-8] codec decodes in its strict
    mode, which is the mode of [open(path, encoding="utf-8")]: characters
    of one to four bytes, none in an overlong form, no surrogate and
    nothing above U+10FFFF. *)

Module Utf8.

Definition between (lo hi : nat) (c : ascii) : bool :=
  (lo <=? PyStr.code c)%nat && (PyStr.code c <=? hi)%nat.

(** A byte that continues a character. *)
Definition continuation (c : ascii) : bool := between 128 191 c.

(** [c1] starts a character of three bytes and [c2] may follow it: after
    0xE0 nothing below 0xA0, which would be an overlong form, and after
    0xED nothing above 0x9F, which would be a surrogate. *)
Definition three (c1 c2 : ascii) : bool :=
  (between 224 224 c1 && between 160 191 c2) ||
  (between 225 236 c1 && continuation c2) ||
  (between 237 237 c1 && between 128 159 c2) ||
  (between 238 239 c1 && continuation c2).

(** [c1] starts a character of four bytes and [c2] may follow it: after
    0xF0 nothing below 0x90, which would be an overlong form, and after
    0xF4 nothing above 0x8F, which would be beyond U+10FFFF. *)
Definition four (c1 c2 : ascii) : bool :=
  (between 240 240 c1 && between 144 191 c2) ||
  (between 241 243 c1 && continuation c2) ||
  (between 244 244 c1 && between 128 143 c2).

(** [bytes.decode("utf-8")] does not raise [UnicodeDecodeError]. *)
Fixpoint valid (s : string) : bool :=
  match s with
  | EmptyString => true
  | String c1 r1 =>
      if (PyStr.code c1 <? 128)%nat then valid r1
      else
        match r1 with
        | EmptyString => false
        | String c2 r2 =>
            if between 194 223 c1 then continuation c2 && valid r2
            else
              match r2 with
              | EmptyString => false
              | String c3 r3 =>
                  if three c1 c2 then continuation c3 && valid r3
                  else
                    match r3 with
                    | EmptyString => false
                    | String c4 r4 =>
                        four c1 c2 && continuation c3 && continuation c4 && valid r4
                    end
              end
        end
  end.

(** A byte that is a character by itself. *)
Definition single (c : ascii) : bool := (PyStr.code c <? 128)%nat.

(** [s.isascii()]. *)
Fixpoint isascii (s : string) : bool :=
  match s with
  | EmptyString => true
  | String c r => single c && isascii r
  end.

End Utf8.

(** ** [fnmatch.fnmatch]

    Shell-style matching as the [fnmatch] module documents it: [*] matches
    everything, [?] any single character, [[seq]] any character in [seq],
    [[!seq]] any character not in [seq]; a [[] with no closing bracket is a
    literal.  Inside a bracket [lo-hi] is a range and every other character
    stands for itself; a range whose bounds are reversed is empty. *)

Module Fnmatch.

Inductive item : Type :=
| Star
| AnyChar
| Lit (c : ascii)
| Class (negated : bool) (ranges : list (ascii * ascii)).

(** The members of a bracket expression, left to right. *)
Fixpoint ranges_of (stuff : list ascii) : list (ascii * ascii) :=
  match stuff with
  | [] => []
  | lo :: rest =>
      match rest with
      | dash :: hi :: rest' =>
          if Ascii.eqb dash "-" then (lo, hi) :: ranges_of rest'
          else (lo, lo) :: ranges_of rest
      | _ => (lo, lo) :: ranges_of rest
      end
  end.

Definition class_of (stuff : list ascii) : item :=
  match stuff with
  | c :: members =>
      if Ascii.eqb c "!" then Class true (ranges_of members)
      else Class false (ranges_of stuff)
  | [] => Class false []
  end.

(** Scan to the first closing bracket: the text before it and the text
    after it. *)
Fixpoint upto_close (l : list ascii) : option (list ascii * list ascii) :=
  match l with
  | [] => None
  | c :: r =>
      if Ascii.eqb c "]" then Some ([], r)
      else match upto_close r with
           | Some (stuff, after) => Some (c :: stuff, after)
           | None => None
           end
  end.

(** The bracket expression opening at [rest] (the text after the opening
    bracket), if it is closed: a leading [!] and then a leading []] belong
    to the expression. *)
Definition split_bracket (rest : list ascii) : option (list ascii * list ascii) :=
  let '(bang, r1) :=
    match rest with
    | c :: r => if Ascii.eqb c "!" then ([c], r) else ([], rest)
    | [] => ([], rest)
    end in
  let '(close, r2) :=
    match r1 with
    | c :: r => if Ascii.eqb c "]" then ([c], r) else ([], r1)
    | [] => ([], r1)
    end in
  match upto_close r2 with
  | Some (stuff, after) => Some ((bang ++ close ++ stuff)%list, after)
  | None => None
  end.

(** [fnmatch.translate], to items instead of a regular expression.  The
    fuel bounds the number of pattern characters still to read. *)
Fixpoint translate_fuel (fuel : nat) (pat : list ascii) : list item :=
  match fuel, pat with
  | O, _ => []
  | _, [] => []
  | S fuel', c :: rest =>
      if Ascii.eqb c "*" then Star :: translate_fuel fuel' rest
      else if Ascii.eqb c "?" then AnyChar :: translate_fuel fuel' rest
      else if Ascii.eqb c "[" then
        match split_bracket rest with
        | Some (stuff, after) => class_of stuff :: translate_fuel fuel' after
        | None => Lit c :: translate_fuel fuel' rest
        end
      else Lit c :: translate_fuel fuel' rest
  end.

Definition translate (pat : string) : list item :=
  let p := list_ascii_of_string pat in
  translate_fuel (List.length p) p.

Definition in_range (c : ascii) (r : ascii * ascii) : bool :=
  (PyStr.code (fst r) <=? PyStr.code c)%nat && (PyStr.code c <=? PyStr.code (snd r))%nat.

Definition accepts (it : item) (c : ascii) : bool :=
  match it with
  | Star | AnyChar => true
  | Lit d => Ascii.eqb d c
  | Class negated ranges => xorb negated (existsb (in_range c) ranges)
  end.

(** Whole-name match of an item list. *)
Fixpoint matches (items : list item) (name : list ascii) : bool :=
  match items with
  | [] => match name with [] => true | _ => false end
  | Star :: items' =>
      (fix star (n : list ascii) : bool :=
         matches items' n ||
         match n with [] => false | _ :: n' => star n' end) name
  | it :: items' =>
      match name with
      | [] => false
      | c :: name' => accepts it c && matches items' name'
      end
  end.

(** [fnmatch.fnmatch(name, pat)]. *)
Definition fnmatch (name pat : string) : bool :=
  matches (translate pat) (list_ascii_of_string name).

End Fnmatch.

(** ** Python dictionaries

    A [dict] keeps its keys unique and in insertion order; assigning to a
    key that is present keeps the key's place. *)

Module PyDict.

Definition dict (V : Type) : Type := list (string * V).

(** [d[k] = v]. *)
Fixpoint set {V : Type} (d : dict V) (k : string) (v : V) : dict V :=
  match d with
  | [] => [(k, v)]
  | (k', v') :: r =>
      if String.eqb k' k then (k', v) :: r else (k', v') :: set r k v
  end.

(** [d.get(k)]. *)
Fixpoint get {V : Type} (d : dict V) (k : string) : option V :=
  match d with
  | [] => None
  | (k', v') :: r => if String.eqb k' k then Some v' else get r k
  end.

(** [dict(pairs)]: later pairs overwrite earlier ones. *)
Definition of_pairs {V : Type} (pairs : list (string * V)) : dict V :=
  fold_left (fun d kv => set d (fst kv) (snd kv)) pairs [].

Definition keys {V : Type} (d : dict V) : list string := map fst d.

End PyDict.

(** ** The [json] module

    [dumps] with [ensure_ascii=False] and the default separators, and
    [loads] in its default strict mode.  A Python float is kept as the text
    that denotes it; the audit trail itself never writes one. *)

Module Json.

#[local] Unset Elimination Schemes.

Inductive value : Type :=
| Null
| Bool (b : bool)
| Int (n : Z)
| Float (lexeme : string)
| Str (s : string)
| Arr (items : list value)
| Obj (members : PyDict.dict value).

#[local] Set Elimination Schemes.

Definition dquote : ascii := ascii_of_nat 34.
Definition backslash : ascii := ascii_of_nat 92.

Definition char_is (c : ascii) (n : nat) : bool := (PyStr.code c =? n)%nat.

(** *** Encoding *)

Definition hex_digit (n : nat) : ascii :=
  nth n (list_ascii_of_string "0123456789abcdef") "0"%char.

(** One character of a string literal: [ESCAPE_DCT] of [json.encoder]. *)
Definition escape_char (c : ascii) : string :=
  let n := PyStr.code c in
  if char_is c 34 then String backslash (String dquote "")
  else if char_is c 92 then String backslash (String backslash "")
  else if char_is c 10 then String backslash "n"
  else if char_is c 13 then String backslash "r"
  else if char_is c 9 then String backslash "t"
  else if char_is c 8 then String backslash "b"
  else if char_is c 12 then String backslash "f"
  else if (n <? 32)%nat then
    String backslash ("u00" ++ String (hex_digit (n / 16)) (String (hex_digit (n mod 16)) ""))
  else String c "".

Fixpoint escape (s : string) : string :=
  match s with
  | EmptyString => EmptyString
  | String c r => escape_char c ++ escape r
  end.

(** [encode_basestring]. *)
Definition encode_string (s : string) : string :=
  String dquote (escape s ++ String dquote "").

(** [json.dumps(v, ensure_ascii=False)]. *)
Fixpoint dumps (v : value) : string :=
  match v with
  | Null => "null"
  | Bool true => "true"
  | Bool false => "false"
  | Int n => PyStr.of_int n
  | Float lexeme => lexeme
  | Str s => encode_string s
  | Arr items => "[" ++ PyStr.join ", " (map dumps items) ++ "]"
  | Obj members =>
      "{" ++ PyStr.join ", "
               (map (fun kv => let '(k, x) := kv in encode_string k ++ ": " ++ dumps x)
                    members) ++ "}"
  end.

(** *** Decoding *)

Definition is_ws (c : ascii) : bool := char_is c 32 || char_is c 9 || char_is c 10 || char_is c 13.

Fixpoint skip_ws (s : list ascii) : list ascii :=
  match s with
  | c :: r => if is_ws c then skip_ws r else s
  | [] => []
  end.

Definition is_digit (c : ascii) : bool :=
  (48 <=? PyStr.code c)%nat && (PyStr.code c <=? 57)%nat.

Definition hex_val (c : ascii) : option N :=
  let n := N_of_ascii c in
  if is_digit c then Some (n - 48)%N
  else if (97 <=? n)%N && (n <=? 102)%N then Some (n - 87)%N
  else if (65 <=? n)%N && (n <=? 70)%N then Some (n - 55)%N
  else None.

(** The four hexadecimal digits of a [\uXXXX] escape. *)
Definition hex4 (s : list ascii) : option (N * list ascii) :=
  match s with
  | a :: b :: c :: d :: r =>
      match hex_val a, hex_val b, hex_val c, hex_val d with
      | Some x, Some y, Some z, Some w => Some ((((x * 16 + y) * 16 + z) * 16 + w)%N, r)
      | _, _, _, _ => None
      end
  | _ => None
  end.

(** The UTF-8 bytes of a code point. *)
Definition utf8 (cp : N) : list ascii :=
  (if cp <? 128 then [ascii_of_N cp]
   else if cp <? 2048 then
     [ascii_of_N (192 + cp / 64); ascii_of_N (128 + cp mod 64)]
   else if cp <? 65536 then
     [ascii_of_N (224 + cp / 4096); ascii_of_N (128 + (cp / 64) mod 64);
      ascii_of_N (128 + cp mod 64)]
   else
     [ascii_of_N (240 + cp / 262144); ascii_of_N (128 + (cp / 4096) mod 64);
      ascii_of_N (128 + (cp / 64) mod 64); ascii_of_N (128 + cp mod 64)])%N.

(** The character a one-letter escape stands for. *)
Definition simple_escape (e : ascii) : option ascii :=
  if char_is e 34 then Some dquote
  else if char_is e 92 then Some backslash
  else if char_is e 47 then Some "/"%char
  else if char_is e 98 then Some (ascii_of_nat 8)
  else if char_is e 102 then Some (ascii_of_nat 12)
  else if char_is e 110 then Some (ascii_of_nat 10)
  else if char_is e 114 then Some (ascii_of_nat 13)
  else if char_is e 116 then Some (ascii_of_nat 9)
  else None.

Definition prepend (cs : list ascii) (r : option (string * list ascii))
  : option (string * list ascii) :=
  match r with
  | Some (s, rest) => Some (string_of_list_ascii cs ++ s, rest)
  | None => None
  end.

(** [scanstring]: the text after the opening quote, up to and including
    the closing quote.  [None] is [JSONDecodeError]. *)
Fixpoint scan_string (fuel : nat) (s : list ascii) : option (string * list ascii) :=
  match fuel, s with
  | O, _ | _, [] => None
  | S f, c :: r =>
      if char_is c 34 then Some (EmptyString, r)
      else if char_is c 92 then
        match r with
        | [] => None
        | e :: r1 =>
            if char_is e 117 then
              match hex4 r1 with
              | None => None
              | Some (u1, r2) =>
                  if (55296 <=? u1)%N && (u1 <=? 56319)%N then
                    match r2 with
                    | b :: u :: r3 =>
                        if char_is b 92 && char_is u 117 then
                          match hex4 r3 with
                          | None => None
                          | Some (u2, r4) =>
                              if (56320 <=? u2)%N && (u2 <=? 57343)%N
                              then prepend (utf8 (65536 + (u1 - 55296) * 1024 + (u2 - 56320))%N)
                                           (scan_string f r4)
                              else prepend (utf8 u1) (scan_string f r2)
                          end
                        else prepend (utf8 u1) (scan_string f r2)
                    | _ => prepend (utf8 u1) (scan_string f r2)
                    end
                  else prepend (utf8 u1) (scan_string f r2)
              end
            else
              match simple_escape e with
              | Some ch => prepend [ch] (scan_string f r1)
              | None => None
              end
        end
      else if (PyStr.code c <? 32)%nat then None
      else prepend [c] (scan_string f r)
  end.

Fixpoint span_digits (s : list ascii) : list ascii * list ascii :=
  match s with
  | c :: r =>
      if is_digit c then let '(ds, rest) := span_digits r in (c :: ds, rest)
      else ([], s)
  | [] => ([], [])
  end.

Definition digit_step (acc : Z) (d : ascii) : Z :=
  (acc * 10 + Z.of_nat (PyStr.code d - 48))%Z.

Definition digits_value (ds : list ascii) : Z := fold_left digit_step ds 0%Z.

(** [NUMBER_RE]: an optional minus sign; a zero, or a non-zero digit and
    more digits; optionally a dot and digits; optionally an exponent mark,
    a sign and digits.  Without fraction and exponent the number is an
    [int], with either it is a [float]. *)
Definition scan_number (s : list ascii) : option (value * list ascii) :=
  let '(neg, s1) :=
    match s with
    | c :: r => if char_is c 45 then (true, r) else (false, s)
    | [] => (false, s)
    end in
  let int_part :=
    match s1 with
    | c :: r =>
        if char_is c 48 then Some ([c], r)
        else if is_digit c then Some (span_digits s1)
        else None
    | [] => None
    end in
  match int_part with
  | None => None
  | Some (ds, s2) =>
      let '(frac, s3) :=
        match s2 with
        | dot :: r =>
            if char_is dot 46 then
              match span_digits r with
              | ([], _) => ([], s2)
              | (fs, rest) => (dot :: fs, rest)
              end
            else ([], s2)
        | [] => ([], s2)
        end in
      let '(exp, s4) :=
        match s3 with
        | e :: r =>
            if char_is e 101 || char_is e 69 then
              let '(sign, r') :=
                match r with
                | sg :: r0 => if char_is sg 43 || char_is sg 45 then ([sg], r0) else ([], r)
                | [] => ([], r)
                end in
              match span_digits r' with
              | ([], _) => ([], s3)
              | (es, rest) => ((e :: sign ++ es)%list, rest)
              end
            else ([], s3)
        | [] => ([], s3)
        end in
      match frac, exp with
      | [], [] =>
          Some (Int (if neg then - digits_value ds else digits_value ds)%Z, s4)
      | _, _ =>
          Some (Float (string_of_list_ascii
                         ((if neg then ["-"%char] else []) ++ ds ++ frac ++ exp)%list), s4)
      end
  end.

(** [s] starts with the literal [lit]: the rest of [s]. *)
Fixpoint after_literal (lit : list ascii) (s : list ascii) : option (list ascii) :=
  match lit, s with
  | [], _ => Some s
  | a :: lit', b :: s' => if Ascii.eqb a b then after_literal lit' s' else None
  | _ :: _, [] => None
  end.

Definition scan_literal (lit : string) (v : value) (s : list ascii)
  : option (value * list ascii) :=
  match after_literal (list_ascii_of_string lit) s with
  | Some rest => Some (v, rest)
  | None => None
  end.

Definition or_else {A : Type} (x y : option A) : option A :=
  match x with Some _ => x | None => y end.

(** [scan_once], [JSONObject] and [JSONArray] of [json.scanner] and
    [json.decoder].  Every call consumes at least one character, so the
    length of the text is enough fuel. *)
Fixpoint scan_once (fuel : nat) (s : list ascii) {struct fuel}
  : option (value * list ascii) :=
  match fuel, s with
  | O, _ | _, [] => None
  | S f, c :: r =>
      if char_is c 34 then
        match scan_string (List.length r) r with
        | Some (str, rest) => Some (Str str, rest)
        | None => None
        end
      else if char_is c 123 then
        match skip_ws r with
        | c1 :: r1 =>
            if char_is c1 125 then Some (Obj [], r1) else scan_members f [] (c1 :: r1)
        | [] => None
        end
      else if char_is c 91 then
        match skip_ws r with
        | c1 :: r1 =>
            if char_is c1 93 then Some (Arr [], r1) else scan_items f [] (c1 :: r1)
        | [] => None
        end
      else
        or_else (scan_literal "null" Null s)
       (or_else (scan_literal "true" (Bool true) s)
       (or_else (scan_literal "false" (Bool false) s)
       (or_else (scan_number s)
       (or_else (scan_literal "NaN" (Float "NaN") s)
       (or_else (scan_literal "Infinity" (Float "Infinity") s)
                (scan_literal "-Infinity" (Float "-Infinity") s))))))
  end

with scan_members (fuel : nat) (acc : PyDict.dict value) (s : list ascii) {struct fuel}
  : option (value * list ascii) :=
  match fuel, s with
  | O, _ | _, [] => None
  | S f, q :: r =>
      if char_is q 34 then
        match scan_string (List.length r) r with
        | None => None
        | Some (key, r1) =>
            match skip_ws r1 with
            | colon :: r2 =>
                if char_is colon 58 then
                  match scan_once f (skip_ws r2) with
                  | None => None
                  | Some (v, r3) =>
                      let acc' := PyDict.set acc key v in
                      match skip_ws r3 with
                      | d :: r4 =>
                          if char_is d 125 then Some (Obj acc', r4)
                          else if char_is d 44 then scan_members f acc' (skip_ws r4)
                          else None
                      | [] => None
                      end
                  end
                else None
            | [] => None
            end
        end
      else None
  end

with scan_items (fuel : nat) (acc : list value) (s : list ascii) {struct fuel}
  : option (value * list ascii) :=
  match fuel with
  | O => None
  | S f =>
      match scan_once f s with
      | None => None
      | Some (v, r1) =>
          match skip_ws r1 with
          | d :: r2 =>
              if char_is d 93 then Some (Arr (acc ++ [v])%list, r2)
              else if char_is d 44 then scan_items f (acc ++ [v])%list (skip_ws r2)
              else None
          | [] => None
          end
      end
  end.

(** [json.loads(text)]; [None] is [json.JSONDecodeError]. *)
Definition loads (text : string) : option value :=
  let s := skip_ws (list_ascii_of_string text) in
  match scan_once (2 * List.length s + 1) s with
  | Some (v, rest) =>
      match skip_ws rest with
      | [] => Some v
      | _ :: _ => None
      end
  | None => None
  end.

(** *** Values that survive the round trip *)

(** No string occurs twice in [l]. *)
Fixpoint unique (l : list string) : bool :=
  match l with
  | [] => true
  | k :: r => negb (existsb (String.eqb k) r) && unique r
  end.

(** The values that [dumps] writes without loss: every value but a float,
    which is kept as text only, and a dictionary that holds a key twice,
    which Python cannot build. *)
Fixpoint is_plain (v : value) : bool :=
  match v with
  | Null | Bool _ | Int _ | Str _ => true
  | Float _ => false
  | Arr items => forallb is_plain items
  | Obj members =>
      unique (map fst members) &&
      forallb (fun kv => let '(_, x) := kv in is_plain x) members
  end.

(** The text of one member of a dictionary. *)
Definition member_text (kv : string * value) : string :=
  let '(k, x) := kv in encode_string k ++ ": " ++ dumps x.

(** What may follow a value inside a document: nothing, a comma, or a
    closing bracket or brace. *)
Definition delimited (rest : list ascii) : Prop :=
  rest = [] \/
  exists c r, rest = c :: r /\ (c = ","%char \/ c = "]"%char \/ c = "}"%char).

End Json.

(** ** Results of Python calls *)

Inductive exception : Type :=
| JSONDecodeError
| TypeError
| AttributeError.

(** A call returns a value or raises. *)
Inductive outcome (A : Type) : Type :=
| Return (a : A)
| Raise (e : exception).

Arguments Return {A} a.
Arguments Raise {A} e.

(** [l[start:]] for a Python list. *)
Definition slice_from {A : Type} (l : list A) (start : Z) : list A :=
  let n := Z.of_nat (List.length l) in
  let i := if (start <? 0)%Z then Z.max 0 (n + start) else Z.min start n in
  skipn (Z.to_nat i) l.

(** ** A state monad for code that acts on its surroundings *)

Definition M (S A : Type) : Type := S -> A * S.

Definition ret {S A : Type} (a : A) : M S A := fun s => (a, s).

Definition bind {S A B : Type} (c : M S A) (k : A -> M S B) : M S B :=
  fun s => let '(a, s') := c s in k a s'.

Definition gets {S A : Type} (f : S -> A) : M S A := fun s => (f s, s).

Definition modify {S : Type} (f : S -> S) : M S unit := fun s => (tt, f s).

Declare Scope monad_scope.
Delimit Scope monad_scope with monad.
Notation "x <- c ;; k" := (bind c (fun x => k))
  (at level 61, c at next level, right associativity) : monad_scope.
Notation "c ;; k" := (bind c (fun _ => k))
  (at level 61, right associativity) : monad_scope.
Open Scope monad_scope.

(** ** core/logger.py *)

Module ActionType.

Inductive t : Type := READ | WRITE | DELETE | EXECUTE | SYSTEM | PERMISSION.

Definition value (a : t) : string :=
  match a with
  | READ => "read"
  | WRITE => "write"
  | DELETE => "delete"
  | EXECUTE => "execute"
  | SYSTEM => "system"
  | PERMISSION => "permission"
  end.

End ActionType.

Module ActionStatus.

Inductive t : Type := PENDING | APPROVED | DENIED | EXECUTED | FAILED | DRY_RUN.

Definition value (s : t) : string :=
  match s with
  | PENDING => "pending"
  | APPROVED => "approved"
  | DENIED => "denied"
  | EXECUTED => "executed"
  | FAILED => "failed"
  | DRY_RUN => "dry_run"
  end.

End ActionStatus.

Module AuditEntry.

(** The dataclass does not check the types of its fields, so an entry
    read back from the log holds whatever JSON values the line had. *)
Record t : Type := {
  timestamp : Json.value;
  action_type : Json.value;
  action_description : Json.value;
  permission_level : Json.value;
  user_approved : Json.value;
  status : Json.value;
  result : Json.value;
  metadata : Json.value
}.

Definition of_option_bool (b : option bool) : Json.value :=
  match b with Some x => Json.Bool x | None => Json.Null end.

Definition of_option_str (s : option string) : Json.value :=
  match s with Some x => Json.Str x | None => Json.Null end.

(** [AuditEntry.create]; [now] is [datetime.now().isoformat()].  An absent
    or empty [metadata] becomes the empty dictionary. *)
Definition create (now : string) (action_type : ActionType.t)
    (action_description : string) (permission_level : Z)
    (user_approved : option bool) (status : ActionStatus.t)
    (result : option string) (metadata : option (PyDict.dict Json.value)) : t :=
  {| timestamp := Json.Str now;
     action_type := Json.Str (ActionType.value action_type);
     action_description := Json.Str action_description;
     permission_level := Json.Int permission_level;
     user_approved := of_option_bool user_approved;
     status := Json.Str (ActionStatus.value status);
     result := of_option_str result;
     metadata := Json.Obj match metadata with Some d => d | None => [] end |}.

(** [dataclasses.asdict]. *)
Definition asdict (e : t) : Json.value :=
  Json.Obj [("timestamp", timestamp e);
            ("action_type", action_type e);
            ("action_description", action_description e);
            ("permission_level", permission_level e);
            ("user_approved", user_approved e);
            ("status", status e);
            ("result", result e);
            ("metadata", metadata e)].

(** [AuditEntry.to_json]. *)
Definition to_json (e : t) : string := Json.dumps (asdict e).

(** [cls] called with [data] as its keyword arguments: the call needs a
    mapping with exactly the eight field names as keys, and raises
    [TypeError] for anything else. *)
Definition of_data (data : Json.value) : outcome t :=
  match data with
  | Json.Obj d =>
      match PyDict.get d "timestamp", PyDict.get d "action_type",
            PyDict.get d "action_description", PyDict.get d "permission_level",
            PyDict.get d "user_approved", PyDict.get d "status",
            PyDict.get d "result", PyDict.get d "metadata" with
      | Some ts, Some ty, Some de, Some le, Some ua, Some st, Some re, Some me =>
          if (List.length d =? 8)%nat
          then Return {| timestamp := ts; action_type := ty; action_description := de;
                         permission_level := le; user_approved := ua; status := st;
                         result := re; metadata := me |}
          else Raise TypeError
      | _, _, _, _, _, _, _, _ => Raise TypeError
      end
  | _ => Raise TypeError
  end.

(** [AuditEntry.from_json]. *)
Definition from_json (json_str : string) : outcome t :=
  match Json.loads json_str with
  | None => Raise JSONDecodeError
  | Some data => of_data data
  end.

End AuditEntry.

(** What the program does to what surrounds it: a write to the log file,
    a text written to the terminal, a line read from it, a call of the
    approval callback. *)
Inductive event : Type :=
| Wrote (text : string)
    (* [f.write(text)] on the log file *)
| Printed (text : string)
    (* [print(text)], or the prompt that [input] writes *)
| Answered (line : option string)
    (* [input] read [line]; [None] is the [EOFError] of an exhausted input *)
| Called (description preview : string).
    (* the approval callback was called with these arguments *)

(** What surrounds the program: the log file, the clock, the terminal and
    the record of the calls made to the approval callback; and the one
    order in which the program got at them. *)
Record World : Type := {
  log_file : option string;
    (* the text of the file at [log_path]; [None] while there is no file *)
  clock : nat -> string;
    (* [clock n] is the n-th reading of [datetime.now().isoformat()] *)
  clock_reads : nat;
  stdin : list string;
    (* the lines [input] has still to read; none left is end of input *)
  stdout : list string;
    (* what [print] and [input] have written, oldest first *)
  callback_calls : list (string * string);
    (* the arguments of each call of the approval callback, oldest first *)
  history : list event
    (* every write to the log, text printed, line read and call of the
       callback, in the order they happened, oldest first *)
}.

Module AuditLogger.

Definition LF : ascii := ascii_of_nat 10.
Definition CR : ascii := ascii_of_nat 13.
Definition newline : string := String LF "".

(** [f.readlines()] of a file opened in text mode, on the text that the
    bytes of the file decode to: lines keep their terminator, and a line
    end written as CR or CR LF reads as LF. *)
Fixpoint readlines (text : string) : list string :=
  match text with
  | EmptyString => []
  | String c r =>
      if Ascii.eqb c LF then newline :: readlines r
      else if Ascii.eqb c CR then
        match r with
        | String c2 r2 =>
            if Ascii.eqb c2 LF then newline :: readlines r2
            else newline :: readlines r
        | EmptyString => [newline]
        end
      else
        match readlines r with
        | [] => [String c ""]
        | l :: ls => String c l :: ls
        end
  end.

(** [f.write(text)] on the log file opened for appending, which creates
    the file when it is missing. *)
Definition append_text (f : option string) (text : string) : option string :=
  match f with
  | Some old => Some (old ++ text)
  | None => Some text
  end.

(** [AuditLogger.log]. *)
Definition log (entry : AuditEntry.t) : M World unit :=
  modify (fun w =>
    {| log_file := append_text (log_file w) (AuditEntry.to_json entry ++ newline);
       clock := clock w; clock_reads := clock_reads w;
       stdin := stdin w; stdout := stdout w;
       callback_calls := callback_calls w;
       history := (history w ++ [Wrote (AuditEntry.to_json entry ++ newline)])%list |}).

(** [datetime.now().isoformat()]. *)
Definition now : M World string :=
  fun w =>
    (clock w (clock_reads w),
     {| log_file := log_file w;
        clock := clock w; clock_reads := S (clock_reads w);
        stdin := stdin w; stdout := stdout w;
        callback_calls := callback_calls w;
        history := history w |}).

(** [AuditLogger.log_action]. *)
Definition log_action (action_type : ActionType.t) (description : string)
    (permission_level : Z) (user_approved : option bool)
    (status : ActionStatus.t) (result : option string)
    (metadata : option (PyDict.dict Json.value)) : M World AuditEntry.t :=
  ts <- now ;;
  let entry := AuditEntry.create ts action_type description permission_level
                                 user_approved status result metadata in
  log entry ;;
  ret entry.

(** The loop of [get_recent]: keep the entry of a line that is not
    blank, pass over a line that [json] cannot decode. *)
Fixpoint collect (lines : list string) (entries : list AuditEntry.t)
  : outcome (list AuditEntry.t) :=
  match lines with
  | [] => Return entries
  | line :: rest =>
      let line := PyStr.strip line in
      if PyStr.truthy line then
        match AuditEntry.from_json line with
        | Return e => collect rest (entries ++ [e])%list
        | Raise JSONDecodeError => collect rest entries
        | Raise ex => Raise ex
        end
      else collect rest entries
  end.

(** [AuditLogger.get_recent]. *)
Definition get_recent (f : option string) (limit : Z) : outcome (list AuditEntry.t) :=
  match f with
  | None => Return []
  | Some text =>
      let lines := readlines text in
      collect (rev (slice_from lines (- limit))) []
  end.

(** [entry.timestamp.startswith(date_str)]: only a [str] has the
    method. *)
Definition timestamp_startswith (e : AuditEntry.t) (date_str : string) : outcome bool :=
  match AuditEntry.timestamp e with
  | Json.Str ts => Return (PyStr.startswith ts date_str)
  | _ => Raise AttributeError
  end.

(** The loop of [get_by_date]. *)
Fixpoint scan_date (date_str : string) (lines : list string)
    (entries : list AuditEntry.t) : outcome (list AuditEntry.t) :=
  match lines with
  | [] => Return entries
  | line :: rest =>
      let line := PyStr.strip line in
      if PyStr.truthy line && PyStr.contains line date_str then
        match AuditEntry.from_json line with
        | Return e =>
            match timestamp_startswith e date_str with
            | Return true => scan_date date_str rest (entries ++ [e])%list
            | Return false => scan_date date_str rest entries
            | Raise ex => Raise ex
            end
        | Raise JSONDecodeError => scan_date date_str rest entries
        | Raise ex => Raise ex
        end
      else scan_date date_str rest entries
  end.

(** [AuditLogger.get_by_date]; [date_str] is [date.strftime("%Y-%m-%d")]. *)
Definition get_by_date (f : option string) (date_str : string)
  : outcome (list AuditEntry.t) :=
  match f with
  | None => Return []
  | Some text => scan_date date_str (readlines text) []
  end.

(** [x == s] for a string [s]: only an equal [str] compares equal. *)
Definition eq_str (x : Json.value) (s : string) : bool :=
  match x with
  | Json.Str y => String.eqb y s
  | _ => false
  end.

(** The loop shared by [get_by_action_type] and [get_denied_actions]:
    stop once [limit] entries are held, keep the entries that [keep]
    selects. *)
Fixpoint scan_filter (keep : AuditEntry.t -> bool) (limit : Z) (lines : list string)
    (entries : list AuditEntry.t) : outcome (list AuditEntry.t) :=
  match lines with
  | [] => Return entries
  | line :: rest =>
      if (Z.of_nat (List.length entries) >=? limit)%Z then Return entries
      else
        let line := PyStr.strip line in
        if PyStr.truthy line then
          match AuditEntry.from_json line with
          | Return e =>
              scan_filter keep limit rest
                (if keep e then (entries ++ [e])%list else entries)
          | Raise JSONDecodeError => scan_filter keep limit rest entries
          | Raise ex => Raise ex
          end
        else scan_filter keep limit rest entries
  end.

(** [AuditLogger.get_by_action_type]. *)
Definition get_by_action_type (f : option string) (a : ActionType.t) (limit : Z)
  : outcome (list AuditEntry.t) :=
  match f with
  | None => Return []
  | Some text =>
      scan_filter (fun e => eq_str (AuditEntry.action_type e) (ActionType.value a))
                  limit (readlines text) []
  end.

(** [AuditLogger.get_denied_actions]. *)
Definition get_denied_actions (f : option string) (limit : Z)
  : outcome (list AuditEntry.t) :=
  match f with
  | None => Return []
  | Some text =>
      scan_filter
        (fun e => eq_str (AuditEntry.status e) (ActionStatus.value ActionStatus.DENIED))
        limit (readlines text) []
  end.

End AuditLogger.

(** ** core/permission_manager.py *)

Module PermissionLevel.

Inductive t : Type := READ | SUGGEST | SAFE_WRITE | SYSTEM_WRITE | EXECUTE | ADMIN.

Definition value (l : t) : Z :=
  match l with
  | READ => 0
  | SUGGEST => 1
  | SAFE_WRITE => 2
  | SYSTEM_WRITE => 3
  | EXECUTE => 4
  | ADMIN => 5
  end.

Definition name (l : t) : string :=
  match l with
  | READ => "READ"
  | SUGGEST => "SUGGEST"
  | SAFE_WRITE => "SAFE_WRITE"
  | SYSTEM_WRITE => "SYSTEM_WRITE"
  | EXECUTE => "EXECUTE"
  | ADMIN => "ADMIN"
  end.

Definition eqb (a b : t) : bool := (value a =? value b)%Z.

End PermissionLevel.

Module ActionRequest.

(** The values of [parameters] are only ever formatted into the preview:
    each is held as its [str] rendering. *)
Record t : Type := {
  action_type : string;
  description : string;
  target : option string;
  parameters : option (PyDict.dict string);
  required_level : PermissionLevel.t
}.

(** [ActionRequest.matches_pattern]. *)
Definition matches_pattern (self : t) (pattern : string) : bool :=
  Fnmatch.fnmatch (action_type self) pattern.

End ActionRequest.

Module ActionResult.

Record t : Type := {
  success : bool;
  status : string;
  message : option string;
  data : option Json.value;
  dry_run : bool
}.

End ActionResult.

Module PermissionManager.

Import ActionRequest.

Record t : Type := {
  whitelist : PyDict.dict PermissionLevel.t;
  blacklist : list string;
  auto_approve : list string;
  _approval_callback : option (string -> string -> bool)
}.

(** The lists of [_default_config]. *)
Definition default_auto_approve : list string :=
  ["list_files"; "read_file"; "get_system_info"; "get_time"].

Definition default_blacklist : list string :=
  ["format_disk"; "rm -rf /"; "rm -rf /*"; "del /f /s /q *"; "format c:"].

(** [__init__] and [_apply_config] on the two lists of the configuration:
    every auto-approve pattern enters the whitelist at [READ], and no
    callback is set. *)
Definition _apply_config (auto_approve blacklist : list string) : t :=
  {| whitelist :=
       fold_left (fun wl pattern => PyDict.set wl pattern PermissionLevel.READ)
                 auto_approve [];
     blacklist := blacklist;
     auto_approve := auto_approve;
     _approval_callback := None |}.

(** The manager and what surrounds it. *)
Definition state : Type := (t * World)%type.

(** An action of the logger, run from the manager. *)
Definition logger {A : Type} (c : M World A) : M state A :=
  fun s => let '(a, w) := c (snd s) in (a, (fst s, w)).

Definition self : M state t := gets fst.

Definition set_blacklist (b : list string) : M state unit :=
  modify (fun s : state =>
    ({| whitelist := whitelist (fst s); blacklist := b;
        auto_approve := auto_approve (fst s);
        _approval_callback := _approval_callback (fst s) |}, snd s)).

Definition set_whitelist (wl : PyDict.dict PermissionLevel.t) : M state unit :=
  modify (fun s : state =>
    ({| whitelist := wl; blacklist := blacklist (fst s);
        auto_approve := auto_approve (fst s);
        _approval_callback := _approval_callback (fst s) |}, snd s)).

(** [PermissionManager.set_approval_callback]. *)
Definition set_approval_callback (callback : string -> string -> bool) : M state unit :=
  modify (fun s : state =>
    ({| whitelist := whitelist (fst s); blacklist := blacklist (fst s);
        auto_approve := auto_approve (fst s);
        _approval_callback := Some callback |}, snd s)).

(** [print(text)]. *)
Definition print (text : string) : M state unit :=
  modify (fun s : state =>
    (fst s,
     {| log_file := log_file (snd s);
        clock := clock (snd s); clock_reads := clock_reads (snd s);
        stdin := stdin (snd s); stdout := (stdout (snd s) ++ [text])%list;
        callback_calls := callback_calls (snd s);
        history := (history (snd s) ++ [Printed text])%list |})).

(** [input(prompt)]: the prompt is written, then a line is read; [None]
    stands for the [EOFError] of an exhausted input. *)
Definition input (prompt : string) : M state (option string) :=
  fun s =>
    let w := snd s in
    (hd_error (stdin w),
     (fst s,
      {| log_file := log_file w;
         clock := clock w; clock_reads := clock_reads w;
         stdin := tl (stdin w); stdout := (stdout w ++ [prompt])%list;
         callback_calls := callback_calls w;
         history := (history w ++ [Printed prompt; Answered (hd_error (stdin w))])%list |})).

(** A call of the approval callback, which is taken to be a function of
    its two arguments. *)
Definition call_callback (callback : string -> string -> bool)
    (description preview : string) : M state bool :=
  fun s =>
    let w := snd s in
    (callback description preview,
     (fst s,
      {| log_file := log_file w;
         clock := clock w; clock_reads := clock_reads w;
         stdin := stdin w; stdout := stdout w;
         callback_calls := (callback_calls w ++ [(description, preview)])%list;
         history := (history w ++ [Called description preview])%list |})).

(** The loop of [_is_blacklisted]. *)
Fixpoint blacklisted_by (patterns : list string) (action : ActionRequest.t) : bool :=
  match patterns with
  | [] => false
  | pattern :: rest =>
      if matches_pattern action pattern then true
      else if match target action with
              | Some tg => PyStr.truthy tg &&
                           PyStr.contains (PyStr.lower tg) (PyStr.lower pattern)
              | None => false
              end then true
      else if PyStr.contains (PyStr.lower (description action)) (PyStr.lower pattern)
      then true
      else blacklisted_by rest action
  end.

(** [PermissionManager._is_blacklisted]. *)
Definition _is_blacklisted (self : t) (action : ActionRequest.t) : bool :=
  blacklisted_by (blacklist self) action.

(** The loop of [_is_auto_approved]. *)
Fixpoint approved_by (patterns : list string) (action : ActionRequest.t) : bool :=
  match patterns with
  | [] => false
  | pattern :: rest =>
      if matches_pattern action pattern then true else approved_by rest action
  end.

(** [PermissionManager._is_auto_approved]. *)
Definition _is_auto_approved (self : t) (action : ActionRequest.t) : bool :=
  approved_by (auto_approve self) action.

(** [str(x)] for an optional string. *)
Definition str_of_target (x : option string) : string :=
  match x with Some s => s | None => "None" end.

(** [PermissionManager._generate_preview]. *)
Definition _generate_preview (action : ActionRequest.t) : string :=
  let head :=
    if PyStr.startswith (action_type action) "delete"
    then "âš ï¸  This will DELETE: " ++ str_of_target (target action)
    else if PyStr.startswith (action_type action) "write"
    then "ðŸ“ This will WRITE to: " ++ str_of_target (target action)
    else if PyStr.startswith (action_type action) "execute"
    then "ðŸ–¥ï¸  This will EXECUTE: " ++ str_of_target (target action)
    else if PyStr.startswith (action_type action) "move"
    then "ðŸ“¦ This will MOVE: " ++ str_of_target (target action)
    else "ðŸ”§ This will perform: " ++ description action in
  let params :=
    match parameters action with
    | Some ((_ :: _) as ps) =>
        (AuditLogger.newline ++ "Parameters:")
          :: map (fun kv => "  - " ++ fst kv ++ ": " ++ snd kv) ps
    | _ => []
    end in
  PyStr.join AuditLogger.newline (head :: params).

Definition level_value (action : ActionRequest.t) : Z :=
  PermissionLevel.value (required_level action).

(** [PermissionManager.add_to_whitelist]. *)
Definition add_to_whitelist (pattern : string) (level : PermissionLevel.t)
  : M state unit :=
  me <- self ;;
  set_whitelist (PyDict.set (whitelist me) pattern level) ;;
  logger (AuditLogger.log_action ActionType.PERMISSION
            ("Added to whitelist: " ++ pattern) (PermissionLevel.value level)
            None ActionStatus.EXECUTED None None) ;;
  ret tt.

(** [pattern in self.blacklist]. *)
Definition mem (pattern : string) (l : list string) : bool :=
  existsb (String.eqb pattern) l.

(** [l.remove(x)]: the first occurrence goes. *)
Fixpoint remove_first (x : string) (l : list string) : list string :=
  match l with
  | [] => []
  | y :: r => if String.eqb y x then r else y :: remove_first x r
  end.

(** [PermissionManager.add_to_blacklist]. *)
Definition add_to_blacklist (pattern : string) : M state unit :=
  me <- self ;;
  if negb (mem pattern (blacklist me)) then
    set_blacklist (blacklist me ++ [pattern])%list ;;
    logger (AuditLogger.log_action ActionType.PERMISSION
              ("Added to blacklist: " ++ pattern)
              (PermissionLevel.value PermissionLevel.ADMIN)
              None ActionStatus.EXECUTED None None) ;;
    ret tt
  else ret tt.

(** [PermissionManager.remove_from_blacklist]. *)
Definition remove_from_blacklist (pattern : string) : M state bool :=
  me <- self ;;
  if mem pattern (blacklist me) then
    set_blacklist (remove_first pattern (blacklist me)) ;;
    logger (AuditLogger.log_action ActionType.PERMISSION
              ("Removed from blacklist: " ++ pattern)
              (PermissionLevel.value PermissionLevel.ADMIN)
              None ActionStatus.EXECUTED None None) ;;
    ret true
  else ret false.

Definition when (b : bool) (c : M state unit) : M state unit :=
  if b then c else ret tt.

Definition rule (c : ascii) : string := PyStr.repeat_char c 60.

Definition request_title : string := "ðŸ”’ PERMISSION REQUEST".

(** [PermissionManager._cli_approval]. *)
Definition _cli_approval (action : ActionRequest.t) (dry_run : bool)
  : M state ActionResult.t :=
  print (AuditLogger.newline ++ rule "=") ;;
  print request_title ;;
  print (rule "=") ;;
  print (AuditLogger.newline ++ "Action: " ++ description action) ;;
  print ("Type: " ++ action_type action) ;;
  print ("Permission Level: " ++ PermissionLevel.name (required_level action)) ;;
  when (match target action with Some tg => PyStr.truthy tg | None => false end)
       (print ("Target: " ++ str_of_target (target action))) ;;
  let preview := _generate_preview action in
  when (PyStr.truthy preview)
       (print (AuditLogger.newline ++ "Preview:" ++ AuditLogger.newline ++ preview)) ;;
  print (AuditLogger.newline ++ rule "-") ;;
  line <- input "Approve this action? [y/N/never]: " ;;
  let response :=
    match line with
    | Some text => PyStr.lower (PyStr.strip text)
    | None => "n"
    end in
  if String.eqb response "never" then
    add_to_blacklist (action_type action) ;;
    ret {| ActionResult.success := false;
           ActionResult.status := "BLACKLISTED";
           ActionResult.message := Some "Action added to blacklist.";
           ActionResult.data := None;
           ActionResult.dry_run := dry_run |}
  else
    let approved := String.eqb response "y" || String.eqb response "yes" in
    let status := if approved then ActionStatus.APPROVED else ActionStatus.DENIED in
    logger (AuditLogger.log_action ActionType.PERMISSION
              ("CLI " ++ (if approved then "approved" else "denied") ++ ": "
                      ++ description action)
              (level_value action) (Some approved) status None None) ;;
    ret {| ActionResult.success := approved;
           ActionResult.status := ActionStatus.value status;
           ActionResult.message :=
             Some (if approved then "Action approved." else "Action denied.");
           ActionResult.data := None;
           ActionResult.dry_run := dry_run |}.

(** [PermissionManager._request_approval]. *)
Definition _request_approval (action : ActionRequest.t) (dry_run : bool)
  : M state ActionResult.t :=
  me <- self ;;
  match _approval_callback me with
  | None => _cli_approval action dry_run
  | Some callback =>
      let preview := _generate_preview action in
      approved <- call_callback callback (description action) preview ;;
      let status := if approved then ActionStatus.APPROVED else ActionStatus.DENIED in
      logger (AuditLogger.log_action ActionType.PERMISSION
                ("User " ++ (if approved then "approved" else "denied") ++ ": "
                         ++ description action)
                (level_value action) (Some approved) status None
                (Some [("preview", Json.Str preview)])) ;;
      ret {| ActionResult.success := approved;
             ActionResult.status := ActionStatus.value status;
             ActionResult.message :=
               Some (if approved then "Action approved by user."
                     else "Action denied by user.");
             ActionResult.data := None;
             ActionResult.dry_run := dry_run |}
  end.

(** [PermissionManager.check_permission]. *)
Definition check_permission (action : ActionRequest.t) (dry_run : bool)
  : M state ActionResult.t :=
  logger (AuditLogger.log_action ActionType.PERMISSION
            ("Permission check: " ++ description action)
            (level_value action) None ActionStatus.PENDING None
            (Some [("action_type", Json.Str (action_type action));
                   ("target", AuditEntry.of_option_str (target action))])) ;;
  me <- self ;;
  if _is_blacklisted me action then
    logger (AuditLogger.log_action ActionType.PERMISSION
              ("BLOCKED: " ++ description action)
              (level_value action) (Some false) ActionStatus.DENIED
              (Some "Blacklisted action") None) ;;
    ret {| ActionResult.success := false;
           ActionResult.status := "DENIED";
           ActionResult.message :=
             Some "This action is blacklisted and cannot be executed.";
           ActionResult.data := None;
           ActionResult.dry_run := dry_run |}
  else if _is_auto_approved me action then
    logger (AuditLogger.log_action ActionType.PERMISSION
              ("Auto-approved: " ++ description action)
              (level_value action) (Some true) ActionStatus.APPROVED
              (Some "Auto-approved action") None) ;;
    ret {| ActionResult.success := true;
           ActionResult.status := "APPROVED";
           ActionResult.message := Some "Action is auto-approved.";
           ActionResult.data := None;
           ActionResult.dry_run := dry_run |}
  else if PermissionLevel.eqb (required_level action) PermissionLevel.READ then
    ret {| ActionResult.success := true;
           ActionResult.status := "APPROVED";
           ActionResult.message := Some "Read operations are always permitted.";
           ActionResult.data := None;
           ActionResult.dry_run := dry_run |}
  else if PermissionLevel.eqb (required_level action) PermissionLevel.SUGGEST || dry_run then
    ret {| ActionResult.success := true;
           ActionResult.status := "DRY_RUN";
           ActionResult.message := Some "Dry-run mode - action will be previewed only.";
           ActionResult.data := None;
           ActionResult.dry_run := true |}
  else _request_approval action dry_run.

(** [PermissionManager.get_audit_log]. *)
Definition get_audit_log (limit : Z) : M state (outcome (list AuditEntry.t)) :=
  gets (fun s : state => AuditLogger.get_recent (log_file (snd s)) limit).

End PermissionManager.

(** ** The gate, step by step

    The worlds and entries that the runs of the gate go through, named so
    that the properties below can speak of them. *)

Module Gate.

Import PermissionManager.

(** The reading the clock gives next. *)
Definition now_of (w : World) : string := clock w (clock_reads w).

(** The line [AuditLogger.log] writes for an entry. *)
Definition line_of (entry : AuditEntry.t) : string :=
  AuditEntry.to_json entry ++ AuditLogger.newline.

(** The world once [entry] is logged by [log_action]: the clock is read
    once and one line is written. *)
Definition logged (w : World) (entry : AuditEntry.t) : World :=
  {| log_file := AuditLogger.append_text (log_file w) (line_of entry);
     clock := clock w; clock_reads := S (clock_reads w);
     stdin := stdin w; stdout := stdout w;
     callback_calls := callback_calls w;
     history := (history w ++ [Wrote (line_of entry)])%list |}.

(** The log file after the lines of [entries] are written in turn. *)
Definition write_all (f : option string) (entries : list AuditEntry.t) : option string :=
  fold_left (fun f e => AuditLogger.append_text f (line_of e)) entries f.

(** The entry that opens a check of [a] in world [w]. *)
Definition pending_entry (w : World) (a : ActionRequest.t) : AuditEntry.t :=
  AuditEntry.create (now_of w) ActionType.PERMISSION
    ("Permission check: " ++ ActionRequest.description a) (level_value a)
    None ActionStatus.PENDING None
    (Some [("action_type", Json.Str (ActionRequest.action_type a));
           ("target", AuditEntry.of_option_str (ActionRequest.target a))]).

Definition blocked_entry (w : World) (a : ActionRequest.t) : AuditEntry.t :=
  AuditEntry.create (now_of w) ActionType.PERMISSION
    ("BLOCKED: " ++ ActionRequest.description a) (level_value a)
    (Some false) ActionStatus.DENIED (Some "Blacklisted action") None.

Definition auto_entry (w : World) (a : ActionRequest.t) : AuditEntry.t :=
  AuditEntry.create (now_of w) ActionType.PERMISSION
    ("Auto-approved: " ++ ActionRequest.description a) (level_value a)
    (Some true) ActionStatus.APPROVED (Some "Auto-approved action") None.

(** The entry of a mutation of the policy. *)
Definition policy_entry (w : World) (what : string) (level : Z) : AuditEntry.t :=
  AuditEntry.create (now_of w) ActionType.PERMISSION what level
    None ActionStatus.EXECUTED None None.

(** What the terminal and the callback have seen so far. *)
Definition interaction (w : World) : list string * list string * list (string * string) :=
  (stdin w, stdout w, callback_calls w).

(** Of a run of events: the texts written to the log, the texts written
    to the terminal, the lines read from it and the calls of the callback,
    each in the order of the run. *)
Definition written (events : list event) : list string :=
  flat_map (fun e => match e with Wrote text => [text] | _ => [] end) events.

Definition shown (events : list event) : list string :=
  flat_map (fun e => match e with Printed text => [text] | _ => [] end) events.

Definition answers (events : list event) : list (option string) :=
  flat_map (fun e => match e with Answered line => [line] | _ => [] end) events.

Definition calls (events : list event) : list (string * string) :=
  flat_map (fun e => match e with
                     | Called description preview => [(description, preview)]
                     | _ => []
                     end) events.

(** The answer [_cli_approval] works with: the next line of input,
    stripped and in lower case, or [n] at the end of input. *)
Definition response_of (w : World) : string :=
  match hd_error (stdin w) with
  | Some text => PyStr.lower (PyStr.strip text)
  | None => "n"
  end.

(** [needle] occurs in [hay]. *)
Definition substring (needle hay : string) : Prop :=
  exists before after, hay = before ++ needle ++ after.

(** What one pattern of the deny-list catches: the action type by shell
    matching, the target or the description by containing the pattern,
    letter case aside. *)
Definition caught_by (pattern : string) (a : ActionRequest.t) : Prop :=
  Fnmatch.fnmatch (ActionRequest.action_type a) pattern = true \/
  (exists tg, ActionRequest.target a = Some tg /\
              substring (PyStr.lower pattern) (PyStr.lower tg)) \/
  substring (PyStr.lower pattern) (PyStr.lower (ActionRequest.description a)).

(** The world once [print] has written [text]. *)
Definition printed (w : World) (text : string) : World :=
  {| log_file := log_file w;
     clock := clock w; clock_reads := clock_reads w;
     stdin := stdin w; stdout := (stdout w ++ [text])%list;
     callback_calls := callback_calls w;
     history := (history w ++ [Printed text])%list |}.

(** The lines [_cli_approval] writes before it reads the answer. *)
Definition banner (a : ActionRequest.t) : list string :=
  let head :=
    [AuditLogger.newline ++ rule "=";
     request_title;
     rule "=";
     AuditLogger.newline ++ "Action: " ++ ActionRequest.description a;
     "Type: " ++ ActionRequest.action_type a;
     "Permission Level: " ++ PermissionLevel.name (ActionRequest.required_level a)] in
  let tgt :=
    if match ActionRequest.target a with Some tg => PyStr.truthy tg | None => false end
    then ["Target: " ++ str_of_target (ActionRequest.target a)] else [] in
  let pre :=
    if PyStr.truthy (_generate_preview a)
    then [AuditLogger.newline ++ "Preview:" ++ AuditLogger.newline ++ _generate_preview a]
    else [] in
  let tail := [AuditLogger.newline ++ rule "-"; "Approve this action? [y/N/never]: "] in
  (head ++ tgt ++ pre ++ tail)%list.

(** The world once [_cli_approval] has asked and read the answer. *)
Definition asked (w : World) (a : ActionRequest.t) : World :=
  {| log_file := log_file w;
     clock := clock w; clock_reads := clock_reads w;
     stdin := tl (stdin w); stdout := (stdout w ++ banner a)%list;
     callback_calls := callback_calls w;
     history :=
       (history w ++ map Printed (banner a) ++ [Answered (hd_error (stdin w))])%list |}.

(** The world once the approval callback has been called for [a]. *)
Definition called (w : World) (a : ActionRequest.t) : World :=
  {| log_file := log_file w;
     clock := clock w; clock_reads := clock_reads w;
     stdin := stdin w; stdout := stdout w;
     callback_calls :=
       (callback_calls w ++ [(ActionRequest.description a, _generate_preview a)])%list;
     history :=
       (history w ++ [Called (ActionRequest.description a) (_generate_preview a)])%list |}.

(** The entry that closes an approval: [who] is [CLI] or [User]. *)
Definition verdict_entry (w : World) (who : string) (a : ActionRequest.t)
    (approved : bool) (meta : option (PyDict.dict Json.value)) : AuditEntry.t :=
  AuditEntry.create (now_of w) ActionType.PERMISSION
    (who ++ " " ++ (if approved then "approved" else "denied") ++ ": "
         ++ ActionRequest.description a)
    (level_value a) (Some approved)
    (if approved then ActionStatus.APPROVED else ActionStatus.DENIED) None meta.

(** The manager with another deny-list. *)
Definition with_blacklist (m : t) (b : list string) : t :=
  {| whitelist := whitelist m; blacklist := b;
     auto_approve := auto_approve m;
     _approval_callback := _approval_callback m |}.

(** The manager with another whitelist. *)
Definition with_whitelist (m : t) (wl : PyDict.dict PermissionLevel.t) : t :=
  {| whitelist := wl; blacklist := blacklist m;
     auto_approve := auto_approve m;
     _approval_callback := _approval_callback m |}.

(** The answer of an approval that was put to the user. *)
Definition verdict (approved dry_run : bool) (yes no : string) : ActionResult.t :=
  {| ActionResult.success := approved;
     ActionResult.status :=
       ActionStatus.value (if approved then ActionStatus.APPROVED else ActionStatus.DENIED);
     ActionResult.message := Some (if approved then yes else no);
     ActionResult.data := None;
     ActionResult.dry_run := dry_run |}.

Definition blacklisted_result (dry_run : bool) : ActionResult.t :=
  {| ActionResult.success := false;
     ActionResult.status := "BLACKLISTED";
     ActionResult.message := Some "Action added to blacklist.";
     ActionResult.data := None;
     ActionResult.dry_run := dry_run |}.

(** The item a pattern character stands for outside brackets. *)
Definition item_of (c : ascii) : Fnmatch.item :=
  if Ascii.eqb c "*" then Fnmatch.Star
  else if Ascii.eqb c "?" then Fnmatch.AnyChar
  else Fnmatch.Lit c.

(** A text in which no bracket opens. *)
Definition bracket_free (s : string) : Prop :=
  ~ In "["%char (list_ascii_of_string s).

End Gate.

(** ** The trail, line by line *)

Module Trail.

(** A line the readers pass over: blank once stripped, or text that
    [json] cannot decode. *)
Definition passed_over (line : string) : Prop :=
  PyStr.strip line = "" \/
  AuditEntry.from_json (PyStr.strip line) = Raise JSONDecodeError.

(** A line that holds the entry [e]. *)
Definition holds (line : string) (e : AuditEntry.t) : Prop :=
  PyStr.truthy (PyStr.strip line) = true /\
  AuditEntry.from_json (PyStr.strip line) = Return e.

(** A character that does not end a line. *)
Definition inline_char (c : ascii) : bool :=
  negb (Ascii.eqb c AuditLogger.LF || Ascii.eqb c AuditLogger.CR).

(** A text that stays on one line. *)
Fixpoint inline (s : string) : bool :=
  match s with
  | EmptyString => true
  | String c r => inline_char c && inline r
  end.

(** The text of the lines of [entries], one after the other. *)
Fixpoint lines_text (entries : list AuditEntry.t) : string :=
  match entries with
  | [] => ""
  | e :: es => (AuditEntry.to_json e ++ AuditLogger.newline) ++ lines_text es
  end.

(** A line whose text [json] decodes but that is not a record. *)
Definition misshapen (line : string) : Prop :=
  PyStr.truthy (PyStr.strip line) = true /\
  AuditEntry.from_json (PyStr.strip line) = Raise TypeError.

(** An entry whose fields are all plain values. *)
Definition plain_entry (e : AuditEntry.t) : Prop :=
  Json.is_plain (AuditEntry.asdict e) = true.

End Trail.

(** ** Concrete managers, worlds and requests *)

Module Sample.

Import PermissionManager.

(** Six digits of microseconds. *)
Definition micros (n : nat) : string :=
  match PyStr.of_int (1000000 + Z.of_nat n) with
  | String _ digits => digits
  | EmptyString => EmptyString
  end.

(** A world with an empty log, a clock and the lines [answers] waiting on
    the terminal. *)
Definition world (answers : list string) : World :=
  {| log_file := Some "";
     clock := fun n => "2026-11-03T10:00:00." ++ micros n;
     clock_reads := 0;
     stdin := answers;
     stdout := [];
     callback_calls := [];
     history := [] |}.

(** The manager of the default configuration. *)
Definition manager : t := _apply_config default_auto_approve default_blacklist.

(** A manager whose two lists share a pattern. *)
Definition torn_manager : t :=
  _apply_config ["read_file"; "format_*"] ["format_*"; "rm -rf /"].

Definition request (action_type description : string) (level : PermissionLevel.t)
  : ActionRequest.t :=
  {| ActionRequest.action_type := action_type;
     ActionRequest.description := description;
     ActionRequest.target := None;
     ActionRequest.parameters := None;
     ActionRequest.required_level := level |}.

Definition format_disk : ActionRequest.t :=
  request "format_disk" "Format the disk" PermissionLevel.ADMIN.

Definition read_file : ActionRequest.t :=
  request "read_file" "Read a file" PermissionLevel.ADMIN.

Definition write_file : ActionRequest.t :=
  request "write_file" "Write to file" PermissionLevel.SAFE_WRITE.

Definition suggest_edit : ActionRequest.t :=
  request "edit_file" "Propose an edit" PermissionLevel.SUGGEST.

(** An action type that reads as a bracket expression. *)
Definition delete_tmp : ActionRequest.t :=
  request "delete_[tmp]" "Delete temporary files" PermissionLevel.SAFE_WRITE.

(** The default manager with a callback that approves everything. *)
Definition asking_manager : t :=
  {| whitelist := whitelist manager; blacklist := blacklist manager;
     auto_approve := auto_approve manager;
     _approval_callback := Some (fun _ _ => true) |}.

(** [log_action] called [n] times, as in the tests of the logger: the
    actions [Action i], [Action (i+1)], ... at level 0.  The entries it
    returned, oldest first. *)
Fixpoint log_actions (n i : nat) : M World (list AuditEntry.t) :=
  match n with
  | O => ret []
  | S k =>
      e <- AuditLogger.log_action ActionType.READ
             ("Action " ++ PyStr.of_int (Z.of_nat i)) 0
             None ActionStatus.PENDING None None ;;
      es <- log_actions k (S i) ;;
      ret (e :: es)
  end.

(** A well-formed JSON line that is not a record of the trail: an object
    with a timestamp and nothing else. *)
Definition foreign_line : string :=
  Json.dumps (Json.Obj [("timestamp", Json.Str "2026-11-03T10:00:09.000000")])
    ++ AuditLogger.newline.

(** A line cut short while it was written. *)
Definition truncated_line : string := "{" ++ String Json.dquote "timestamp" ++ String Json.dquote ": ".

(** The world after one denied action is logged. *)
Definition one_denied : World :=
  snd (AuditLogger.log_action ActionType.EXECUTE "Denied action" 4
         (Some false) ActionStatus.DENIED None None (world [])).

End Sample.

(** ** The policy, pattern by pattern *)

Module Policy.

Import PermissionManager.

(** A character that [fnmatch] gives a meaning of its own. *)
Definition special (c : ascii) : bool :=
  Ascii.eqb c "*" || Ascii.eqb c "?" || Ascii.eqb c "[".

(** A pattern without such a character. *)
Definition literal (pattern : string) : bool :=
  forallb (fun c => negb (special c)) (list_ascii_of_string pattern).

(** The answers [check_permission] gives, by their status. *)
Definition statuses : list string :=
  ["DENIED"; "APPROVED"; "DRY_RUN"; "BLACKLISTED"; "approved"; "denied"].

Definition granting : list string := ["APPROVED"; "DRY_RUN"; "approved"].

(** The request is put to the user: neither list catches it, it is above
    [SUGGEST] and no dry run is asked for. *)
Definition asks (m : t) (a : ActionRequest.t) (dry_run : bool) : bool :=
  negb (_is_blacklisted m a) && negb (_is_auto_approved m a) &&
  negb (PermissionLevel.eqb (ActionRequest.required_level a) PermissionLevel.READ) &&
  negb (PermissionLevel.eqb (ActionRequest.required_level a) PermissionLevel.SUGGEST) &&
  negb dry_run.

End Policy.

(** ** The trail, reader by reader *)

Module Reading.

(** The file is missing, is empty, or ends with a line feed: the next
    write starts a line. *)
Definition complete (f : option string) : Prop :=
  match f with
  | None => True
  | Some text => text = "" \/ exists body, text = body ++ AuditLogger.newline
  end.

(** The bytes of the file are UTF-8 text: a reader, which opens the file
    with [encoding="utf-8"], reads it without a [UnicodeDecodeError].  A
    file that is missing is not opened. *)
Definition decodes (f : option string) : Prop :=
  match f with
  | None => True
  | Some bytes => Utf8.valid bytes = true
  end.

(** The strings that the value holds are UTF-8 text, as every Python
    [str] is once encoded. *)
Fixpoint text (v : Json.value) : bool :=
  match v with
  | Json.Null | Json.Bool _ | Json.Int _ => true
  | Json.Float lexeme => Utf8.valid lexeme
  | Json.Str s => Utf8.valid s
  | Json.Arr items => forallb text items
  | Json.Obj members =>
      forallb (fun kv => let '(k, x) := kv in Utf8.valid k && text x) members
  end.

(** An entry whose fields hold text. *)
Definition text_entry (e : AuditEntry.t) : Prop := text (AuditEntry.asdict e) = true.

(** The timestamp of the entry is a text that starts with [date_str]. *)
Definition dated (date_str : string) (e : AuditEntry.t) : bool :=
  match AuditEntry.timestamp e with
  | Json.Str ts => PyStr.startswith ts date_str
  | _ => false
  end.

(** The timestamp of the entry is a text. *)
Definition stamped (e : AuditEntry.t) : Prop :=
  exists ts, AuditEntry.timestamp e = Json.Str ts.

(** The test of [get_by_action_type]. *)
Definition of_type (a : ActionType.t) (e : AuditEntry.t) : bool :=
  AuditLogger.eq_str (AuditEntry.action_type e) (ActionType.value a).

(** The test of [get_denied_actions]. *)
Definition denied (e : AuditEntry.t) : bool :=
  AuditLogger.eq_str (AuditEntry.status e) (ActionStatus.value ActionStatus.DENIED).

(** A text of digits and dashes, as [strftime("%Y-%m-%d")] gives. *)
Definition date_text (s : string) : bool :=
  forallb (fun c => Json.is_digit c || Ascii.eqb c "-") (list_ascii_of_string s).

End Reading.

(** ** More of [str] *)

Module PyText.

(** [s.split(sep)] for a separator of one character. *)
Fixpoint split (sep : ascii) (s : string) : list string :=
  match s with
  | EmptyString => [EmptyString]
  | String c r =>
      if Ascii.eqb c sep then EmptyString :: split sep r
      else match split sep r with
           | part :: parts => String c part :: parts
           | [] => [String c EmptyString]
           end
  end.

(** [s.split()]: the words between runs of white space. *)
Fixpoint fields (s : string) : list string :=
  match s with
  | EmptyString => []
  | String c r =>
      if PyStr.isspace c then fields r
      else match r with
           | EmptyString => [String c EmptyString]
           | String c2 _ =>
               if PyStr.isspace c2 then String c EmptyString :: fields r
               else match fields r with
                    | word :: words => String c word :: words
                    | [] => [String c EmptyString]
                    end
           end
  end.

(** A byte that continues a character of several bytes. *)
Definition continuation (c : ascii) : bool :=
  (128 <=? PyStr.code c)%nat && (PyStr.code c <=? 191)%nat.

(** [len(s)]: the number of characters, each of one to four bytes. *)
Fixpoint len (s : string) : Z :=
  match s with
  | EmptyString => 0
  | String c r => if continuation c then len r else 1 + len r
  end.

(** [c.upper()] on one ASCII character. *)
Definition upper_char (c : ascii) : ascii :=
  if (97 <=? PyStr.code c)%nat && (PyStr.code c <=? 122)%nat
  then ascii_of_nat (PyStr.code c - 32) else c.

(** [s.capitalize()]: the first character in upper case, the others in
    lower case. *)
Definition capitalize (s : string) : string :=
  match s with
  | EmptyString => EmptyString
  | String c r => String (upper_char c) (PyStr.lower r)
  end.

End PyText.

(** ** modules/os_operator/file_ops.py

    The operator works on a file system through [pathlib] and [shutil].
    What these answer is not part of the program: it is given by a record
    of functions on a type [FS] of file systems.  The files of the audit
    loggers are kept apart from [FS]: the paths operated on are taken not
    to be those files. *)

Module FileOperator.

Import PermissionManager.

(** An exception raised by a call to the operating system, as the code
    tells them apart: a [FileNotFoundError], or any other exception; the
    text is what [str(e)] gives. *)
Inductive os_error : Type :=
| NotFound (text : string)
| OtherError (text : string).

Definition str_of_error (e : os_error) : string :=
  match e with NotFound text | OtherError text => text end.

(** A call to the operating system returns or raises. *)
Inductive answer (A : Type) : Type :=
| Ok (a : A)
| Err (e : os_error).

Arguments Ok {A} a.
Arguments Err {A} e.

Record OS (FS : Type) : Type := {
  home : string;
    (* [str(Path.home())] *)
  resolve : FS -> string -> answer string;
    (* [str(Path(path).resolve())] *)
  path_exists : FS -> string -> answer bool;
    (* [Path(path).exists()] *)
  is_file : FS -> string -> answer bool;
    (* [Path(path).is_file()] *)
  st_size : FS -> string -> answer Z;
    (* [Path(path).stat().st_size] *)
  read_text : FS -> string -> string -> answer string;
    (* [Path(path).read_text(encoding=encoding)] *)
  write_text : FS -> string -> string -> FS * option os_error;
    (* [Path(path).write_text(content, encoding='utf-8')]: the file system
       afterwards, and the exception if one was raised *)
  unlink : FS -> string -> FS * option os_error;
    (* [Path(path).unlink()] *)
  copy2 : FS -> string -> string -> FS * option os_error;
    (* [shutil.copy2(src, dst)] *)
  move : FS -> string -> string -> FS * option os_error
    (* [shutil.move(src, dst)] *)
}.

Arguments home {FS} _.
Arguments resolve {FS} _ _ _.
Arguments path_exists {FS} _ _ _.
Arguments is_file {FS} _ _ _.
Arguments st_size {FS} _ _ _.
Arguments read_text {FS} _ _ _ _.
Arguments write_text {FS} _ _ _ _.
Arguments unlink {FS} _ _ _.
Arguments copy2 {FS} _ _ _ _.
Arguments move {FS} _ _ _ _.

(** What a method of the operator raises. *)
Inductive error : Type :=
| PermissionError (msg : string)
| FileNotFoundError (msg : string)
| FileExistsError (msg : string)
| IOError (msg : string)
| Uncaught (e : os_error).
    (* an exception of the operating system raised outside every [try] *)

Inductive result (A : Type) : Type :=
| Returns (a : A)
| Raises (e : error).

Arguments Returns {A} a.
Arguments Raises {A} e.

(** Where [self.logger] writes: to the file of the manager's logger, when
    both loggers have the same path, or to a file of its own. *)
Inductive trail : Type :=
| Shared
| Own (f : option string).

(** The manager and its world, the trail of the operator's logger, and
    the file system. *)
Record host (FS : Type) : Type := {
  gate : PermissionManager.state;
  own_trail : trail;
  disk : FS
}.

Arguments gate {FS} _.
Arguments own_trail {FS} _.
Arguments disk {FS} _.

(** The text [s] ends with the character [c]. *)
Fixpoint ends_with (c : ascii) (s : string) : bool :=
  match s with
  | EmptyString => false
  | String x EmptyString => Ascii.eqb x c
  | String _ r => ends_with c r
  end.

(** [str(Path(h) / name)] for the text [h] of a path, as [str(Path(...))]
    gives it, and a plain name: the current directory is dropped, and a
    root brings its own separator. *)
Definition joinpath (h name : string) : string :=
  if String.eqb h "." then name
  else if ends_with "/" h then h ++ name
  else h ++ "/" ++ name.

Section Operator.

Context {FS : Type} (os : OS FS).

(** [self.safe_paths], as [__init__] sets it. *)
Definition safe_paths : list string :=
  [home os;
   joinpath (home os) "Documents";
   joinpath (home os) "Downloads";
   joinpath (home os) "Desktop";
   joinpath (home os) "Music";
   joinpath (home os) "Pictures";
   joinpath (home os) "Videos"].

(** The loop of [_is_safe_path]. *)
Fixpoint starts_with_any (real_path : string) (paths : list string) : bool :=
  match paths with
  | [] => false
  | safe_path :: rest =>
      if PyStr.startswith real_path safe_path then true
      else starts_with_any real_path rest
  end.

(** [FileOperator._is_safe_path]. *)
Definition _is_safe_path (fs : FS) (path : string) : bool :=
  match resolve os fs path with
  | Ok real_path => starts_with_any real_path safe_paths
  | Err _ => false
  end.

(** [FileOperator._get_write_level]. *)
Definition _get_write_level (fs : FS) (path : string) : PermissionLevel.t :=
  if _is_safe_path fs path then PermissionLevel.SAFE_WRITE
  else PermissionLevel.SYSTEM_WRITE.

(** A method of the manager, called through [self.pm]. *)
Definition gated {A : Type} (c : M PermissionManager.state A) : M (host FS) A :=
  fun h =>
    let '(a, s) := c (gate h) in
    (a, {| gate := s; own_trail := own_trail h; disk := disk h |}).

(** [self.logger.log_action]: the clock is read and the line of the entry
    is written to the trail of the operator's logger. *)
Definition log_action (action_type : ActionType.t) (description : string)
    (permission_level : Z) (user_approved : option bool)
    (status : ActionStatus.t) (result : option string)
    (metadata : option (PyDict.dict Json.value)) : M (host FS) AuditEntry.t :=
  fun h =>
    match own_trail h with
    | Shared =>
        let '(entry, w) :=
          AuditLogger.log_action action_type description permission_level
                                 user_approved status result metadata (snd (gate h)) in
        (entry, {| gate := (fst (gate h), w); own_trail := Shared; disk := disk h |})
    | Own f =>
        let '(ts, w) := AuditLogger.now (snd (gate h)) in
        let entry := AuditEntry.create ts action_type description permission_level
                                       user_approved status result metadata in
        (entry,
         {| gate := (fst (gate h), w);
            own_trail :=
              Own (AuditLogger.append_text f (AuditEntry.to_json entry ++ AuditLogger.newline));
            disk := disk h |})
    end.

Definition set_disk (fs : FS) : M (host FS) unit :=
  modify (fun h => {| gate := gate h; own_trail := own_trail h; disk := fs |}).

(** The request [read_file] submits. *)
Definition read_request (path : string) : ActionRequest.t :=
  {| ActionRequest.action_type := "read_file";
     ActionRequest.description := "Read file: " ++ path;
     ActionRequest.target := Some path;
     ActionRequest.parameters := None;
     ActionRequest.required_level := PermissionLevel.READ |}.

(** [FileOperator.read_file]. *)
Definition read_file (path encoding : string) : M (host FS) (result string) :=
  r <- gated (check_permission (read_request path) false) ;;
  if negb (ActionResult.success r) then
    ret (Raises (PermissionError
                   ("Permission denied: " ++ str_of_target (ActionResult.message r))))
  else
    fs <- gets disk ;;
    match read_text os fs path encoding with
    | Ok text => ret (Returns text)
    | Err (NotFound _) => ret (Raises (FileNotFoundError ("File not found: " ++ path)))
    | Err (OtherError text) => ret (Raises (IOError ("Error reading file: " ++ text)))
    end.

(** The request [create_file] submits. *)
Definition create_request (level : PermissionLevel.t) (path content : string)
  : ActionRequest.t :=
  {| ActionRequest.action_type := "create_file";
     ActionRequest.description := "Create file: " ++ path;
     ActionRequest.target := Some path;
     ActionRequest.parameters :=
       Some [("content_length", PyStr.of_int (PyText.len content));
             ("encoding", "utf-8")];
     ActionRequest.required_level := level |}.

(** [FileOperator.create_file]. *)
Definition create_file (path content : string) (dry_run : bool)
  : M (host FS) (result bool) :=
  fs0 <- gets disk ;;
  let level := _get_write_level fs0 path in
  r <- gated (check_permission (create_request level path content) dry_run) ;;
  if negb (ActionResult.success r) then
    log_action ActionType.WRITE ("Permission denied: Create " ++ path)
               (PermissionLevel.value level) (Some false) ActionStatus.DENIED None None ;;
    ret (Returns false)
  else
    fs <- gets disk ;;
    match path_exists os fs path with
    | Err e => ret (Raises (Uncaught e))
    | Ok true => ret (Raises (FileExistsError ("File already exists: " ++ path)))
    | Ok false =>
        if dry_run then
          log_action ActionType.WRITE ("DRY-RUN: Would create " ++ path)
                     (PermissionLevel.value level) None ActionStatus.DRY_RUN None
                     (Some [("content_length", Json.Int (PyText.len content));
                            ("path", Json.Str path)]) ;;
          ret (Returns true)
        else
          let '(fs', failure) := write_text os fs path content in
          set_disk fs' ;;
          match failure with
          | None =>
              log_action ActionType.WRITE ("Created file: " ++ path)
                         (PermissionLevel.value level) None ActionStatus.EXECUTED
                         (Some ("File created (" ++ PyStr.of_int (PyText.len content)
                                                 ++ " bytes)")) None ;;
              ret (Returns true)
          | Some e =>
              log_action ActionType.WRITE ("Failed to create " ++ path)
                         (PermissionLevel.value level) None ActionStatus.DENIED
                         (Some ("Error: " ++ str_of_error e)) None ;;
              ret (Raises (IOError ("Error creating file: " ++ str_of_error e)))
          end
    end.

(** The request [delete_file] submits. *)
Definition delete_request (path : string) : ActionRequest.t :=
  {| ActionRequest.action_type := "delete_file";
     ActionRequest.description := "Delete file: " ++ path;
     ActionRequest.target := Some path;
     ActionRequest.parameters := None;
     ActionRequest.required_level := PermissionLevel.SYSTEM_WRITE |}.

(** [FileOperator.delete_file]. *)
Definition delete_file (path : string) (dry_run : bool) : M (host FS) (result bool) :=
  let level := PermissionLevel.SYSTEM_WRITE in
  r <- gated (check_permission (delete_request path) dry_run) ;;
  if negb (ActionResult.success r) then
    log_action ActionType.WRITE ("Permission denied: Delete " ++ path)
               (PermissionLevel.value level) (Some false) ActionStatus.DENIED None None ;;
    ret (Returns false)
  else
    fs <- gets disk ;;
    match path_exists os fs path with
    | Err e => ret (Raises (Uncaught e))
    | Ok false => ret (Raises (FileNotFoundError ("File not found: " ++ path)))
    | Ok true =>
        match
          match is_file os fs path with
          | Err e => Err e
          | Ok true => st_size os fs path
          | Ok false => Ok 0%Z
          end
        with
        | Err e => ret (Raises (Uncaught e))
        | Ok file_size =>
            if dry_run then
              log_action ActionType.WRITE
                         ("DRY-RUN: Would delete " ++ path ++ " ("
                            ++ PyStr.of_int file_size ++ " bytes)")
                         (PermissionLevel.value level) None ActionStatus.DRY_RUN None
                         (Some [("file_size", Json.Int file_size)]) ;;
              ret (Returns true)
            else
              let '(fs', failure) := unlink os fs path in
              set_disk fs' ;;
              match failure with
              | None =>
                  log_action ActionType.WRITE ("Deleted file: " ++ path)
                             (PermissionLevel.value level) None ActionStatus.EXECUTED
                             (Some ("File deleted (" ++ PyStr.of_int file_size ++ " bytes)"))
                             None ;;
                  ret (Returns true)
              | Some e =>
                  log_action ActionType.WRITE ("Failed to delete " ++ path)
                             (PermissionLevel.value level) None ActionStatus.DENIED
                             (Some ("Error: " ++ str_of_error e)) None ;;
                  ret (Raises (IOError ("Error deleting file: " ++ str_of_error e)))
              end
        end
    end.

(** The request [copy_file] submits. *)
Definition copy_request (level : PermissionLevel.t) (src dst : string) : ActionRequest.t :=
  {| ActionRequest.action_type := "copy_file";
     ActionRequest.description := "Copy " ++ src ++ " to " ++ dst;
     ActionRequest.target := Some dst;
     ActionRequest.parameters := Some [("source", src)];
     ActionRequest.required_level := level |}.

(** [FileOperator.copy_file]. *)
Definition copy_file (src dst : string) (dry_run : bool) : M (host FS) (result bool) :=
  fs0 <- gets disk ;;
  let level := _get_write_level fs0 dst in
  r <- gated (check_permission (copy_request level src dst) dry_run) ;;
  if negb (ActionResult.success r) then
    log_action ActionType.WRITE ("Permission denied: Copy " ++ src ++ " to " ++ dst)
               (PermissionLevel.value level) (Some false) ActionStatus.DENIED None None ;;
    ret (Returns false)
  else
    fs <- gets disk ;;
    match path_exists os fs src with
    | Err e => ret (Raises (Uncaught e))
    | Ok false => ret (Raises (FileNotFoundError ("Source file not found: " ++ src)))
    | Ok true =>
        match path_exists os fs dst with
        | Err e => ret (Raises (Uncaught e))
        | Ok true => ret (Raises (FileExistsError ("Destination already exists: " ++ dst)))
        | Ok false =>
            match st_size os fs src with
            | Err e => ret (Raises (Uncaught e))
            | Ok file_size =>
                if dry_run then
                  log_action ActionType.WRITE
                             ("DRY-RUN: Would copy " ++ src ++ " to " ++ dst ++ " ("
                                ++ PyStr.of_int file_size ++ " bytes)")
                             (PermissionLevel.value level) None ActionStatus.DRY_RUN None
                             (Some [("source", Json.Str src); ("destination", Json.Str dst);
                                    ("size", Json.Int file_size)]) ;;
                  ret (Returns true)
                else
                  let '(fs', failure) := copy2 os fs src dst in
                  set_disk fs' ;;
                  match failure with
                  | None =>
                      log_action ActionType.WRITE ("Copied " ++ src ++ " to " ++ dst)
                                 (PermissionLevel.value level) None ActionStatus.EXECUTED
                                 (Some ("File copied (" ++ PyStr.of_int file_size ++ " bytes)"))
                                 None ;;
                      ret (Returns true)
                  | Some e =>
                      log_action ActionType.WRITE ("Failed to copy " ++ src ++ " to " ++ dst)
                                 (PermissionLevel.value level) None ActionStatus.DENIED
                                 (Some ("Error: " ++ str_of_error e)) None ;;
                      ret (Raises (IOError ("Error copying file: " ++ str_of_error e)))
                  end
            end
        end
    end.

(** [max(src_level, dst_level, key=lambda x: x.value)]: the first of the
    two when their values are equal. *)
Definition max_level (src_level dst_level : PermissionLevel.t) : PermissionLevel.t :=
  if (PermissionLevel.value src_level <? PermissionLevel.value dst_level)%Z
  then dst_level else src_level.

(** The request [move_file] submits. *)
Definition move_request (level : PermissionLevel.t) (src dst : string) : ActionRequest.t :=
  {| ActionRequest.action_type := "move_file";
     ActionRequest.description := "Move " ++ src ++ " to " ++ dst;
     ActionRequest.target := Some dst;
     ActionRequest.parameters := Some [("source", src)];
     ActionRequest.required_level := level |}.

(** [FileOperator.move_file]. *)
Definition move_file (src dst : string) (dry_run : bool) : M (host FS) (result bool) :=
  fs0 <- gets disk ;;
  let src_level := _get_write_level fs0 src in
  let dst_level := _get_write_level fs0 dst in
  let level := max_level src_level dst_level in
  r <- gated (check_permission (move_request level src dst) dry_run) ;;
  if negb (ActionResult.success r) then
    log_action ActionType.WRITE ("Permission denied: Move " ++ src ++ " to " ++ dst)
               (PermissionLevel.value level) (Some false) ActionStatus.DENIED None None ;;
    ret (Returns false)
  else
    fs <- gets disk ;;
    match path_exists os fs src with
    | Err e => ret (Raises (Uncaught e))
    | Ok false => ret (Raises (FileNotFoundError ("Source file not found: " ++ src)))
    | Ok true =>
        match path_exists os fs dst with
        | Err e => ret (Raises (Uncaught e))
        | Ok true => ret (Raises (FileExistsError ("Destination already exists: " ++ dst)))
        | Ok false =>
            match st_size os fs src with
            | Err e => ret (Raises (Uncaught e))
            | Ok file_size =>
                if dry_run then
                  log_action ActionType.WRITE
                             ("DRY-RUN: Would move " ++ src ++ " to " ++ dst ++ " ("
                                ++ PyStr.of_int file_size ++ " bytes)")
                             (PermissionLevel.value level) None ActionStatus.DRY_RUN None
                             (Some [("source", Json.Str src); ("destination", Json.Str dst);
                                    ("size", Json.Int file_size)]) ;;
                  ret (Returns true)
                else
                  let '(fs', failure) := move os fs src dst in
                  set_disk fs' ;;
                  match failure with
                  | None =>
                      log_action ActionType.WRITE ("Moved " ++ src ++ " to " ++ dst)
                                 (PermissionLevel.value level) None ActionStatus.EXECUTED
                                 (Some ("File moved (" ++ PyStr.of_int file_size ++ " bytes)"))
                                 None ;;
                      ret (Returns true)
                  | Some e =>
                      log_action ActionType.WRITE ("Failed to move " ++ src ++ " to " ++ dst)
                                 (PermissionLevel.value level) None ActionStatus.DENIED
                                 (Some ("Error: " ++ str_of_error e)) None ;;
                      ret (Raises (IOError ("Error moving file: " ++ str_of_error e)))
                  end
            end
        end
    end.

(** *** Hosts the operator goes through *)

(** The host once the manager has run a check that left it in state [s]. *)
Definition checked (h : host FS) (s : PermissionManager.state) : host FS :=
  {| gate := s; own_trail := own_trail h; disk := disk h |}.

(** The world once the clock is read. *)
Definition ticked (w : World) : World :=
  {| log_file := log_file w;
     clock := clock w; clock_reads := S (clock_reads w);
     stdin := stdin w; stdout := stdout w;
     callback_calls := callback_calls w;
     history := history w |}.

(** The host once the operator's logger has logged [entry]. *)
Definition logged (h : host FS) (entry : AuditEntry.t) : host FS :=
  match own_trail h with
  | Shared =>
      {| gate := (fst (gate h), Gate.logged (snd (gate h)) entry);
         own_trail := Shared; disk := disk h |}
  | Own f =>
      {| gate := (fst (gate h), ticked (snd (gate h)));
         own_trail := Own (AuditLogger.append_text f (Gate.line_of entry));
         disk := disk h |}
  end.

(** The file the operator's logger writes. *)
Definition trail_file (h : host FS) : option string :=
  match own_trail h with
  | Shared => log_file (snd (gate h))
  | Own f => f
  end.

(** The entry of a refusal. *)
Definition refusal_entry (h : host FS) (what : string) (level : PermissionLevel.t)
  : AuditEntry.t :=
  AuditEntry.create (Gate.now_of (snd (gate h))) ActionType.WRITE
    ("Permission denied: " ++ what) (PermissionLevel.value level)
    (Some false) ActionStatus.DENIED None None.

(** The host [h'] has the file system, the manager and the terminal of
    [h]. *)
Definition untouched (h h' : host FS) : Prop :=
  disk h' = disk h /\
  fst (gate h') = fst (gate h) /\
  Gate.interaction (snd (gate h')) = Gate.interaction (snd (gate h)).

(** What is left of an operation the manager has refused, [h1] being the
    host after the manager's check: the answer [False], the entry of the
    refusal in the operator's trail, and the file system as it was. *)
Definition turned_down (h h1 : host FS) (what : string) (level : PermissionLevel.t)
    (run : result bool * host FS) : Prop :=
  let e := refusal_entry h1 what level in
  fst run = Returns false /\
  snd run = logged h1 e /\
  disk (snd run) = disk h /\
  trail_file (snd run) = AuditLogger.append_text (trail_file h1) (Gate.line_of e).

End Operator.

End FileOperator.

(** ** core/ollama_client.py

    The client talks to Ollama by running the [ollama] command.  What the
    command answers is not part of the program: each method takes the
    result of the [subprocess.run] call it makes. *)

Module OllamaClient.

Module Message.

Record t : Type := {
  role : string;
  content : string
}.

(** [Message.to_dict]. *)
Definition to_dict (self : t) : PyDict.dict string :=
  [("role", role self); ("content", content self)].

End Message.

(** What [subprocess.run(..., capture_output=True, text=True)] gives: a
    completed process with its return code and its output, or one of the
    two exceptions the client catches. *)
Inductive run_result : Type :=
| Completed (returncode : Z) (stdout stderr : string)
| TimeoutExpired
| FileNotFoundError.

Record t : Type := {
  model : string;
  host : string;
  timeout : Z;
  _conversation_history : list Message.t
}.

(** [OllamaClient.is_available]; [listing] is the result of [ollama list]. *)
Definition is_available (listing : run_result) : bool :=
  match listing with
  | Completed returncode _ _ => (returncode =? 0)%Z
  | TimeoutExpired | FileNotFoundError => false
  end.

(** The loop of [list_models]. *)
Fixpoint names_of (lines : list string) : list string :=
  match lines with
  | [] => []
  | line :: rest =>
      if PyStr.truthy (PyStr.strip line) then
        match PyText.fields line with
        | name :: _ => name :: names_of rest
        | [] => names_of rest
        end
      else names_of rest
  end.

(** [OllamaClient.list_models]. *)
Definition list_models (listing : run_result) : list string :=
  match listing with
  | Completed returncode stdout _ =>
      if negb (returncode =? 0)%Z then []
      else
        let lines := PyText.split AuditLogger.LF (PyStr.strip stdout) in
        names_of (tl lines)
  | TimeoutExpired | FileNotFoundError => []
  end.

(** The loop of [model_exists]. *)
Fixpoint any_matches (models : list string) (model : string) : bool :=
  match models with
  | [] => false
  | m :: rest =>
      if String.eqb m model || PyStr.startswith m (hd "" (PyText.split ":" model))
      then true
      else any_matches rest model
  end.

(** [OllamaClient.model_exists]. *)
Definition model_exists (self : t) (listing : run_result) (model_name : option string)
  : bool :=
  let model_ :=
    match model_name with
    | Some name => if PyStr.truthy name then name else model self
    | None => model self
    end in
  any_matches (list_models listing) model_.

(** [OllamaClient.switch_model]. *)
Definition switch_model (listing : run_result) (model_ : string) : M t bool :=
  fun self =>
    if model_exists self listing (Some model_) then
      (true, {| model := model_; host := host self; timeout := timeout self;
                _conversation_history := _conversation_history self |})
    else (false, self).

(** [OllamaClient.add_to_history]. *)
Definition add_to_history (role content : string) : M t unit :=
  modify (fun self =>
    {| model := model self; host := host self; timeout := timeout self;
       _conversation_history :=
         (_conversation_history self
            ++ [{| Message.role := role; Message.content := content |}])%list |}).

(** [OllamaClient.get_history]. *)
Definition get_history (self : t) : list (PyDict.dict string) :=
  map Message.to_dict (_conversation_history self).

(** [OllamaClient.clear_history]. *)
Definition clear_history : M t unit :=
  modify (fun self =>
    {| model := model self; host := host self; timeout := timeout self;
       _conversation_history := [] |}).

(** The two tests of [_filter_reasoning] on a line in lower case. *)
Definition starts_thinking (line_lower : string) : bool :=
  PyStr.contains line_lower "thinking..." || PyStr.contains line_lower "okay, so".

Definition ends_thinking (line_lower : string) : bool :=
  PyStr.contains line_lower "...done thinking." || PyStr.contains line_lower "done thinking".

(** The loop of [_filter_reasoning]. *)
Fixpoint filter_lines (lines : list string) (skip_thinking : bool) : list string :=
  match lines with
  | [] => []
  | line :: rest =>
      let line_lower := PyStr.strip (PyStr.lower line) in
      if starts_thinking line_lower then filter_lines rest true
      else if ends_thinking line_lower then filter_lines rest false
      else if skip_thinking then filter_lines rest skip_thinking
      else if PyStr.truthy (PyStr.strip line) then line :: filter_lines rest skip_thinking
      else filter_lines rest skip_thinking
  end.

(** [OllamaClient._filter_reasoning]. *)
Definition _filter_reasoning (text : string) : string :=
  let lines := PyText.split AuditLogger.LF text in
  let filtered_lines := filter_lines lines false in
  let result := PyStr.strip (PyStr.join AuditLogger.newline filtered_lines) in
  if negb (PyStr.truthy result) then text else result.

Module ChatResponse.

Record t : Type := {
  content : string;
  model : string;
  done : bool;
  total_duration : option Z;
  eval_count : option Z
}.

End ChatResponse.

(** [msg.get(key, default)]. *)
Definition get_or (msg : PyDict.dict string) (key default : string) : string :=
  match PyDict.get msg key with
  | Some v => v
  | None => default
  end.

(** The prompt [chat] builds from the messages. *)
Definition prompt_of (messages : list (PyDict.dict string)) (system_prompt : option string)
  : string :=
  let system_part :=
    match system_prompt with
    | Some text =>
        if PyStr.truthy text then ["System: " ++ text ++ AuditLogger.newline] else []
    | None => []
    end in
  let line_of (msg : PyDict.dict string) : string :=
    PyText.capitalize (get_or msg "role" "user") ++ ": " ++ get_or msg "content" "" in
  let prompt_parts := (system_part ++ map line_of messages)%list in
  PyStr.join AuditLogger.newline prompt_parts ++ AuditLogger.newline ++ "Assistant:".

(** [OllamaClient.chat]; [run] is [subprocess.run] on a command line.  The
    method does not use its [temperature] and [max_tokens], and with
    [capture_output] the output of a completed process is never [None]. *)
Definition chat (self : t) (messages : list (PyDict.dict string))
    (system_prompt : option string) (run : list string -> run_result) : ChatResponse.t :=
  let prompt := prompt_of messages system_prompt in
  match run ["ollama"; "run"; model self; prompt] with
  | Completed returncode stdout stderr =>
      if negb (returncode =? 0)%Z then
        {| ChatResponse.content :=
             "Error: " ++ (if PyStr.truthy stderr then stderr else "Unknown error");
           ChatResponse.model := model self;
           ChatResponse.done := true;
           ChatResponse.total_duration := None;
           ChatResponse.eval_count := None |}
      else
        {| ChatResponse.content := _filter_reasoning (PyStr.strip stdout);
           ChatResponse.model := model self;
           ChatResponse.done := true;
           ChatResponse.total_duration := None;
           ChatResponse.eval_count := None |}
  | TimeoutExpired =>
      {| ChatResponse.content := "Error: Request timed out";
         ChatResponse.model := model self;
         ChatResponse.done := true;
         ChatResponse.total_duration := None;
         ChatResponse.eval_count := None |}
  | FileNotFoundError =>
      {| ChatResponse.content := "Error: Ollama not found. Please install Ollama.";
         ChatResponse.model := model self;
         ChatResponse.done := true;
         ChatResponse.total_duration := None;
         ChatResponse.eval_count := None |}
  end.

(** [OllamaClient.generate]. *)
Definition generate (self : t) (prompt : string) (system_prompt : option string)
    (run : list string -> run_result) : string :=
  let messages := [[("role", "user"); ("content", prompt)]] in
  ChatResponse.content (chat self messages system_prompt run).

(** *** Lines of a model's answer *)

(** A text without a line feed. *)
Definition one_line (s : string) : bool :=
  forallb (fun c => negb (Ascii.eqb c AuditLogger.LF)) (list_ascii_of_string s).

(** A line that neither opens nor closes the model's thinking. *)
Definition quiet (line : string) : bool :=
  negb (starts_thinking (PyStr.strip (PyStr.lower line))) &&
  negb (ends_thinking (PyStr.strip (PyStr.lower line))).

(** A line inside the thinking that does not close it. *)
Definition still_thinking (line : string) : bool :=
  starts_thinking (PyStr.strip (PyStr.lower line)) ||
  negb (ends_thinking (PyStr.strip (PyStr.lower line))).

(** A line that is not blank. *)
Definition nonblank (line : string) : bool := PyStr.truthy (PyStr.strip line).

(** A text without a colon. *)
Definition colon_free (s : string) : bool :=
  forallb (fun c => negb (Ascii.eqb c ":")) (list_ascii_of_string s).

(** A word: a text that is not empty and holds no white space. *)
Definition word (s : string) : bool :=
  PyStr.truthy s && forallb (fun c => negb (PyStr.isspace c)) (list_ascii_of_string s).

(** A text that is empty or starts with white space. *)
Definition headspace (s : string) : bool :=
  match s with
  | EmptyString => true
  | String c _ => PyStr.isspace c
  end.

(** The lines [ollama list] writes after its header: for each model its
    name and then the rest of the line. *)
Fixpoint rows_text (rows : list (string * string)) : string :=
  match rows with
  | [] => ""
  | (name, rest) :: more => (name ++ rest ++ AuditLogger.newline) ++ rows_text more
  end.

End OllamaClient.

(** ** More concrete cases *)

Module Fixture.

Import PermissionManager.

(** A request to list a directory: at [READ], and on neither list of the
    default configuration. *)
Definition list_directory : ActionRequest.t :=
  Sample.request "list_directory" "List directory: /tmp" PermissionLevel.READ.

(** Three entries of the trail: a read, a denied delete and an executed
    write, on two days. *)
Definition read_entry : AuditEntry.t :=
  AuditEntry.create "2026-11-02T09:30:00.000001" ActionType.READ "Read notes" 0
    None ActionStatus.EXECUTED None None.

Definition denied_entry : AuditEntry.t :=
  AuditEntry.create "2026-11-03T10:00:00.000002" ActionType.DELETE "Delete notes" 3
    (Some false) ActionStatus.DENIED None (Some [("path", Json.Str "/tmp/notes")]).

Definition write_entry : AuditEntry.t :=
  AuditEntry.create "2026-11-03T10:05:00.000003" ActionType.WRITE "Write notes" 2
    (Some true) ActionStatus.EXECUTED (Some "done") None.

Definition entries : list AuditEntry.t := [read_entry; denied_entry; write_entry].

(** A file system that is a list of files with their text, every path
    being its own resolved form. *)
Definition files : Type := list (string * string).

Definition find (fs : files) (path : string) : option string :=
  PyDict.get fs path.

Definition without (fs : files) (path : string) : files :=
  filter (fun kv => negb (String.eqb (fst kv) path)) fs.

Definition os : FileOperator.OS files :=
  {| FileOperator.home := "/home/friday";
     FileOperator.resolve := fun _ path => FileOperator.Ok path;
     FileOperator.path_exists := fun fs path =>
       FileOperator.Ok (match find fs path with Some _ => true | None => false end);
     FileOperator.is_file := fun fs path =>
       FileOperator.Ok (match find fs path with Some _ => true | None => false end);
     FileOperator.st_size := fun fs path =>
       match find fs path with
       | Some text => FileOperator.Ok (Z.of_nat (String.length text))
       | None => FileOperator.Err (FileOperator.NotFound path)
       end;
     FileOperator.read_text := fun fs path _ =>
       match find fs path with
       | Some text => FileOperator.Ok text
       | None => FileOperator.Err (FileOperator.NotFound path)
       end;
     FileOperator.write_text := fun fs path content => (PyDict.set fs path content, None);
     FileOperator.unlink := fun fs path =>
       match find fs path with
       | Some _ => (without fs path, None)
       | None => (fs, Some (FileOperator.NotFound path))
       end;
     FileOperator.copy2 := fun fs src dst =>
       match find fs src with
       | Some text => (PyDict.set fs dst text, None)
       | None => (fs, Some (FileOperator.NotFound src))
       end;
     FileOperator.move := fun fs src dst =>
       match find fs src with
       | Some text => (PyDict.set (without fs src) dst text, None)
       | None => (fs, Some (FileOperator.NotFound src))
       end |}.

(** The default manager at a terminal where [answers] wait, the operator
    logging to the manager's trail, and one file on the disk. *)
Definition host (answers : list string) : FileOperator.host files :=
  {| FileOperator.gate := (Sample.manager, (Sample.world answers));
     FileOperator.own_trail := FileOperator.Shared;
     FileOperator.disk := [("/home/friday/notes.txt", "hello")] |}.

(** What [ollama list] prints for two models. *)
Definition table : list (string * string) :=
  [("deepseek-r1:1.5b", "    e0979632db5a    1.1 GB    2 weeks ago");
   ("llama3:latest", "       365c0bd3c000    4.7 GB    3 weeks ago  ")].

Definition listing : OllamaClient.run_result :=
  OllamaClient.Completed 0
    ("NAME                ID              SIZE      MODIFIED" ++ AuditLogger.newline
       ++ OllamaClient.rows_text table) "".

Definition client : OllamaClient.t :=
  {| OllamaClient.model := "deepseek-r1:1.5b";
     OllamaClient.host := "http://localhost:11434";
     OllamaClient.timeout := 120;
     OllamaClient._conversation_history := [] |}.

End Fixture.

(** * Properties *)

Section Monad.

Context {S A B : Type}.

Lemma bind_run (c : M S A) (k : A -> M S B) (s : S) :
  bind c k s = k (fst (c s)) (snd (c s)).
Proof. unfold bind. destruct (c s); reflexivity. Qed.

End Monad.

Module GateFacts.

Import PermissionManager Gate.

Lemma log_action_run (m : t) (w : World) ty de lv ua st re me :
  logger (AuditLogger.log_action ty de lv ua st re me) (m, w) =
  (AuditEntry.create (now_of w) ty de lv ua st re me,
   (m, logged w (AuditEntry.create (now_of w) ty de lv ua st re me))).
Proof. reflexivity. Qed.

(** One run of [check_permission], branch by branch. *)
Lemma check_permission_run (m : t) (w : World) (a : ActionRequest.t) (d : bool) :
  check_permission a d (m, w) =
  let w1 := logged w (pending_entry w a) in
  if _is_blacklisted m a then
    ({| ActionResult.success := false; ActionResult.status := "DENIED";
        ActionResult.message := Some "This action is blacklisted and cannot be executed.";
        ActionResult.data := None; ActionResult.dry_run := d |},
     (m, logged w1 (blocked_entry w1 a)))
  else if _is_auto_approved m a then
    ({| ActionResult.success := true; ActionResult.status := "APPROVED";
        ActionResult.message := Some "Action is auto-approved.";
        ActionResult.data := None; ActionResult.dry_run := d |},
     (m, logged w1 (auto_entry w1 a)))
  else if PermissionLevel.eqb (ActionRequest.required_level a) PermissionLevel.READ then
    ({| ActionResult.success := true; ActionResult.status := "APPROVED";
        ActionResult.message := Some "Read operations are always permitted.";
        ActionResult.data := None; ActionResult.dry_run := d |},
     (m, w1))
  else if PermissionLevel.eqb (ActionRequest.required_level a) PermissionLevel.SUGGEST || d
  then
    ({| ActionResult.success := true; ActionResult.status := "DRY_RUN";
        ActionResult.message := Some "Dry-run mode - action will be previewed only.";
        ActionResult.data := None; ActionResult.dry_run := true |},
     (m, w1))
  else _request_approval a d (m, w1).
Proof.
  unfold check_permission.
  rewrite bind_run, log_action_run. cbn [fst snd].
  rewrite bind_run. cbn [self gets fst snd].
  destruct (_is_blacklisted m a).
  { rewrite bind_run, log_action_run. reflexivity. }
  destruct (_is_auto_approved m a).
  { rewrite bind_run, log_action_run. reflexivity. }
  destruct (PermissionLevel.eqb _ PermissionLevel.READ); [reflexivity|].
  destruct (_ || d); reflexivity.
Qed.

Lemma blacklisted_by_true (patterns : list string) (a : ActionRequest.t) (pattern : string) :
  In pattern patterns ->
  ActionRequest.matches_pattern a pattern = true ->
  blacklisted_by patterns a = true.
Proof.
  induction patterns as [|p ps IH]; intros Hin Hm; [destruct Hin|].
  cbn [blacklisted_by]. destruct Hin as [->|Hin].
  - rewrite Hm. reflexivity.
  - destruct (ActionRequest.matches_pattern a p); [reflexivity|].
    destruct (match ActionRequest.target a with Some _ => _ | None => _ end); [reflexivity|].
    destruct (PyStr.contains _ _); [reflexivity|]. apply IH; assumption.
Qed.

Lemma approved_by_true (patterns : list string) (a : ActionRequest.t) (pattern : string) :
  In pattern patterns ->
  ActionRequest.matches_pattern a pattern = true ->
  approved_by patterns a = true.
Proof.
  induction patterns as [|p ps IH]; intros Hin Hm; [destruct Hin|].
  cbn [approved_by]. destruct Hin as [->|Hin].
  - rewrite Hm. reflexivity.
  - destruct (ActionRequest.matches_pattern a p); [reflexivity|]. apply IH; assumption.
Qed.

Lemma add_to_blacklist_run (m : t) (w : World) (pattern : string) :
  add_to_blacklist pattern (m, w) =
  if mem pattern (blacklist m) then (tt, (m, w))
  else (tt, (with_blacklist m (blacklist m ++ [pattern])%list,
             logged w (policy_entry w ("Added to blacklist: " ++ pattern)
                         (PermissionLevel.value PermissionLevel.ADMIN)))).
Proof.
  unfold add_to_blacklist. rewrite bind_run. cbn [self gets fst snd].
  destruct (mem pattern (blacklist m)); reflexivity.
Qed.

Lemma remove_from_blacklist_run (m : t) (w : World) (pattern : string) :
  remove_from_blacklist pattern (m, w) =
  if mem pattern (blacklist m)
  then (true, (with_blacklist m (remove_first pattern (blacklist m)),
               logged w (policy_entry w ("Removed from blacklist: " ++ pattern)
                           (PermissionLevel.value PermissionLevel.ADMIN))))
  else (false, (m, w)).
Proof.
  unfold remove_from_blacklist. rewrite bind_run. cbn [self gets fst snd].
  destruct (mem pattern (blacklist m)); reflexivity.
Qed.

Lemma add_to_whitelist_run (m : t) (w : World) (pattern : string)
    (level : PermissionLevel.t) :
  add_to_whitelist pattern level (m, w) =
  (tt, (with_whitelist m (PyDict.set (whitelist m) pattern level),
        logged w (policy_entry w ("Added to whitelist: " ++ pattern)
                    (PermissionLevel.value level)))).
Proof. reflexivity. Qed.

Lemma bind_print {B : Type} (text : string) (k : unit -> M state B) (m : t) (w : World) :
  bind (print text) k (m, w) = k tt (m, printed w text).
Proof. reflexivity. Qed.

Lemma bind_when_print {B : Type} (b : bool) (text : string) (k : unit -> M state B)
    (m : t) (w : World) :
  bind (when b (print text)) k (m, w) = k tt (m, if b then printed w text else w).
Proof. destruct b; reflexivity. Qed.

Lemma bind_input {B : Type} (prompt : string) (k : option string -> M state B)
    (m : t) (w : World) :
  bind (input prompt) k (m, w) =
  k (hd_error (stdin w))
    (m, {| log_file := log_file w;
           clock := clock w; clock_reads := clock_reads w;
           stdin := tl (stdin w); stdout := (stdout w ++ [prompt])%list;
           callback_calls := callback_calls w;
           history := (history w ++ [Printed prompt; Answered (hd_error (stdin w))])%list |}).
Proof. reflexivity. Qed.

Lemma stdin_printed (w : World) (text : string) : stdin (printed w text) = stdin w.
Proof. reflexivity. Qed.

Lemma stdin_if_printed (b : bool) (w : World) (text : string) :
  stdin (if b then printed w text else w) = stdin w.
Proof. destruct b; reflexivity. Qed.

(** One run of [_cli_approval]. *)
Lemma cli_approval_run (m : t) (w : World) (a : ActionRequest.t) (d : bool) :
  _cli_approval a d (m, w) =
  let w1 := asked w a in
  if String.eqb (response_of w) "never" then
    (blacklisted_result d, snd (add_to_blacklist (ActionRequest.action_type a) (m, w1)))
  else
    let approved := String.eqb (response_of w) "y" || String.eqb (response_of w) "yes" in
    (verdict approved d "Action approved." "Action denied.",
     (m, logged w1 (verdict_entry w1 "CLI" a approved None))).
Proof.
  unfold _cli_approval.
  rewrite !bind_print, bind_when_print. cbv zeta.
  rewrite bind_when_print, bind_print, bind_input.
  match goal with
  | |- context [ (m, ?W) ] =>
      match W with context [tl] => assert (Hw : W = asked w a) end
  end.
  { destruct (match ActionRequest.target a with Some _ => _ | None => _ end) eqn:Et;
      destruct (PyStr.truthy (_generate_preview a)) eqn:Ep.
    all: lazy beta iota zeta delta
           [asked banner printed log_file clock clock_reads stdin stdout callback_calls
            history].
    all: rewrite ?Et, ?Ep.
    all: rewrite <- ?app_assoc; cbn [map app]; reflexivity. }
  rewrite Hw. clear Hw.
  rewrite ?stdin_printed, ?stdin_if_printed, ?stdin_printed, ?stdin_if_printed,
          ?stdin_printed.
  fold (response_of w).
  destruct (String.eqb (response_of w) "never").
  - rewrite bind_run. reflexivity.
  - rewrite bind_run, log_action_run.
    destruct (String.eqb (response_of w) "y" || String.eqb (response_of w) "yes");
      reflexivity.
Qed.

(** One run of [_request_approval]. *)
Lemma request_approval_run (m : t) (w : World) (a : ActionRequest.t) (d : bool) :
  _request_approval a d (m, w) =
  match _approval_callback m with
  | None => _cli_approval a d (m, w)
  | Some callback =>
      let approved := callback (ActionRequest.description a) (_generate_preview a) in
      let w1 := called w a in
      (verdict approved d "Action approved by user." "Action denied by user.",
       (m, logged w1 (verdict_entry w1 "User" a approved
                        (Some [("preview", Json.Str (_generate_preview a))]))))
  end.
Proof.
  unfold _request_approval. rewrite bind_run. cbn [self gets fst snd].
  destruct (_approval_callback m) as [callback|]; [|reflexivity].
  cbv zeta. rewrite bind_run.
  change (call_callback callback (ActionRequest.description a) (_generate_preview a) (m, w))
    with (callback (ActionRequest.description a) (_generate_preview a), (m, called w a)).
  cbn [fst snd]. rewrite bind_run, log_action_run.
  destruct (callback _ _); reflexivity.
Qed.

(** The answer to a request that the deny-list catches. *)
Lemma blacklisted_is_denied (m : t) (w : World) (a : ActionRequest.t) (d : bool) :
  _is_blacklisted m a = true ->
  fst (check_permission a d (m, w)) =
  {| ActionResult.success := false; ActionResult.status := "DENIED";
     ActionResult.message := Some "This action is blacklisted and cannot be executed.";
     ActionResult.data := None; ActionResult.dry_run := d |}.
Proof. intros H. rewrite check_permission_run. cbv zeta. rewrite H. reflexivity. Qed.

End GateFacts.

(** ** Text *)

Module TextFacts.

Import Gate.

Lemma startswith_iff (s p : string) :
  PyStr.startswith s p = true <-> exists rest, s = p ++ rest.
Proof.
  revert s. induction p as [|a p IH]; intros s; cbn [PyStr.startswith].
  - split; [intros _; exists s; reflexivity | intros _; destruct s; reflexivity].
  - destruct s as [|b s]; cbn [PyStr.startswith].
    + split; [discriminate | intros [rest H]; discriminate].
    + rewrite andb_true_iff, IH. split.
      * intros [Hab [rest ->]]. apply Ascii.eqb_eq in Hab. subst. exists rest. reflexivity.
      * intros [rest H]. cbn in H. injection H as -> ->. split.
        -- apply Ascii.eqb_refl.
        -- exists rest. reflexivity.
Qed.

(** [needle in hay] is the substring relation. *)
Lemma contains_iff (hay needle : string) :
  PyStr.contains hay needle = true <-> substring needle hay.
Proof.
  unfold substring. induction hay as [|c hay IH]; cbn [PyStr.contains].
  - rewrite orb_false_r, startswith_iff. split.
    + intros [rest H]. exists "", rest. exact H.
    + intros [[|x before] [after H]]; [exists after; exact H | discriminate].
  - rewrite orb_true_iff, startswith_iff, IH. split.
    + intros [[rest H] | [before [after H]]].
      * exists "", rest. exact H.
      * exists (String c before), after. cbn. rewrite H. reflexivity.
    + intros [[|x before] [after H]].
      * left. exists after. exact H.
      * right. cbn in H. injection H as -> H. exists before, after. exact H.
Qed.

Lemma contains_empty_needle (hay : string) : PyStr.contains hay "" = true.
Proof. destruct hay; reflexivity. Qed.

Lemma contains_in_empty (needle : string) :
  PyStr.contains "" needle = true -> needle = "".
Proof. destruct needle; [reflexivity | discriminate]. Qed.

Lemma lower_empty (s : string) : PyStr.lower s = "" -> s = "".
Proof. destruct s; [reflexivity | discriminate]. Qed.

Lemma truthy_false (s : string) : PyStr.truthy s = false -> s = "".
Proof. destruct s; [reflexivity | discriminate]. Qed.

Lemma translate_bracket_free (l : list ascii) (fuel : nat) :
  ~ In "["%char l ->
  (List.length l <= fuel)%nat ->
  Fnmatch.translate_fuel fuel l = map item_of l.
Proof.
  revert fuel. induction l as [|c l IH]; intros fuel Hfree Hfuel.
  - destruct fuel; reflexivity.
  - destruct fuel as [|fuel]; [cbn in Hfuel; lia|].
    cbn [Fnmatch.translate_fuel map]. unfold item_of at 1.
    assert (Hc : Ascii.eqb c "[" = false).
    { apply Ascii.eqb_neq. intros ->. apply Hfree. left. reflexivity. }
    rewrite Hc, IH.
    + destruct (Ascii.eqb c "*"); [reflexivity|].
      destruct (Ascii.eqb c "?"); reflexivity.
    + intros H. apply Hfree. right. exact H.
    + cbn in Hfuel. lia.
Qed.

Lemma matches_star (items : list Fnmatch.item) (name : list ascii) :
  Fnmatch.matches (Fnmatch.Star :: items) name =
  Fnmatch.matches items name ||
  match name with
  | [] => false
  | _ :: name' => Fnmatch.matches (Fnmatch.Star :: items) name'
  end.
Proof. destruct name; reflexivity. Qed.

Lemma matches_own_items (l : list ascii) :
  Fnmatch.matches (map item_of l) l = true.
Proof.
  induction l as [|c l IH]; [reflexivity|].
  cbn [map]. unfold item_of at 1.
  destruct (Ascii.eqb c "*").
  - rewrite matches_star, (matches_star _ l), IH. apply orb_true_r.
  - destruct (Ascii.eqb c "?") eqn:Eq.
    + cbn. exact IH.
    + cbn. rewrite Ascii.eqb_refl. exact IH.
Qed.

(** A name in which no bracket opens matches itself as a pattern. *)
Lemma fnmatch_self (s : string) :
  bracket_free s -> Fnmatch.fnmatch s s = true.
Proof.
  intros H. unfold Fnmatch.fnmatch, Fnmatch.translate.
  rewrite translate_bracket_free by (exact H || lia).
  apply matches_own_items.
Qed.

End TextFacts.

(** ** The JSON codec *)

Module JsonFacts.

Import Json Trail.

Lemma la_app (a b : string) : list_ascii_of_string (a ++ b) = (list_ascii_of_string a ++ list_ascii_of_string b)%list.
Proof. induction a as [|c a IH]; [reflexivity|]. cbn. rewrite IH. reflexivity. Qed.

Lemma scan_escape_char (c : ascii) (f : nat) (r : list ascii) :
  scan_string (S f) (list_ascii_of_string (escape_char c) ++ r)%list = prepend [c] (scan_string f r).
Proof.
  destruct c as [[] [] [] [] [] [] [] []]; reflexivity.
Qed.

Lemma escape_char_length (c : ascii) : (1 <= List.length (list_ascii_of_string (escape_char c)))%nat.
Proof. destruct c as [[] [] [] [] [] [] [] []]; vm_compute; lia. Qed.

Lemma scan_string_escape (s : string) (f : nat) (rest : list ascii) :
  (String.length s < f)%nat ->
  scan_string f (list_ascii_of_string (escape s) ++ dquote :: rest)%list = Some (s, rest).
Proof.
  revert f. induction s as [|c s IH]; intros f Hf.
  - destruct f as [|f]; [lia|]. reflexivity.
  - destruct f as [|f]; [cbn in Hf; lia|].
    cbn [escape]. rewrite la_app, <- app_assoc, scan_escape_char, IH by (cbn in Hf; lia).
    reflexivity.
Qed.

Lemma escape_length (s : string) : (String.length s <= List.length (list_ascii_of_string (escape s)))%nat.
Proof.
  induction s as [|c s IH]; [cbn; lia|].
  cbn [escape String.length]. rewrite la_app, length_app.
  pose proof (escape_char_length c). lia.
Qed.

(** Integers. *)

Lemma fold_digits_acc (d : Decimal.uint) (acc : positive) :
  fold_left digit_step (list_ascii_of_string (NilEmpty.string_of_uint d)) (Zpos acc) = Zpos (Pos.of_uint_acc d acc).
Proof.
  revert acc. induction d as [|d IH|d IH|d IH|d IH|d IH|d IH|d IH|d IH|d IH|d IH];
    intros acc; [reflexivity|..];
    cbn [NilEmpty.string_of_uint list_ascii_of_string fold_left Pos.of_uint_acc];
    rewrite <- IH; f_equal; unfold digit_step; vm_compute (Z.of_nat _); lia.
Qed.

Lemma fold_digits (d : Decimal.uint) :
  fold_left digit_step (list_ascii_of_string (NilEmpty.string_of_uint d)) 0%Z = Z.of_N (Pos.of_uint d).
Proof.
  induction d as [|d IH|d IH|d IH|d IH|d IH|d IH|d IH|d IH|d IH|d IH];
    [reflexivity| exact IH |..];
    cbn [NilEmpty.string_of_uint list_ascii_of_string fold_left Pos.of_uint];
    (etransitivity; [|apply fold_digits_acc]); reflexivity.
Qed.

Lemma span_digits_uint (d : Decimal.uint) (rest : list ascii) :
  delimited rest ->
  span_digits (list_ascii_of_string (NilEmpty.string_of_uint d) ++ rest)%list = (list_ascii_of_string (NilEmpty.string_of_uint d), rest).
Proof.
  intros Hrest.
  induction d as [|d IH|d IH|d IH|d IH|d IH|d IH|d IH|d IH|d IH|d IH];
    [| cbn [NilEmpty.string_of_uint list_ascii_of_string app span_digits];
       rewrite IH; reflexivity ..].
  cbn [NilEmpty.string_of_uint list_ascii_of_string app].
  destruct Hrest as [-> | (c & r & -> & [-> | [-> | ->]])]; reflexivity.
Qed.

Lemma to_uint_head (p : positive) :
  exists c cs,
    list_ascii_of_string (NilEmpty.string_of_uint (Pos.to_uint p)) = c :: cs /\
    char_is c 45 = false /\ char_is c 48 = false /\ is_digit c = true.
Proof.
  assert (Hn : Decimal.unorm (Pos.to_uint p) = Pos.to_uint p).
  { rewrite <- (DecimalPos.Unsigned.to_of (Pos.to_uint p)), DecimalPos.Unsigned.of_to.
    reflexivity. }
  pose proof (DecimalPos.Unsigned.to_uint_nonzero p) as Hz.
  destruct (Pos.to_uint p) as [|d|d|d|d|d|d|d|d|d|d] eqn:E;
    try (eexists; eexists; repeat split; fail).
  - discriminate Hn.
  - exfalso. unfold Decimal.unorm in Hn.
    destruct (Decimal.nzhead (Decimal.D0 d)) eqn:En; try discriminate Hn.
    + injection Hn as <-. apply Hz. reflexivity.
    + apply (DecimalFacts.nzhead_nonzero (Decimal.D0 d) d). congruence.
Qed.

Lemma scan_number_digits (c : ascii) (cs rest : list ascii) (sign : bool) :
  char_is c 45 = false -> char_is c 48 = false -> is_digit c = true ->
  span_digits (c :: cs ++ rest)%list = (c :: cs, rest) ->
  delimited rest ->
  scan_number ((if sign then ["-"%char] else []) ++ c :: cs ++ rest)%list =
  Some (Int (if sign then - digits_value (c :: cs) else digits_value (c :: cs))%Z, rest).
Proof.
  intros H45 H48 Hd Hspan Hrest. unfold scan_number.
  destruct sign; cbn [app]; [change (char_is "-" 45) with true | rewrite H45]; cbv iota;
    rewrite H48, Hd, Hspan;
    destruct Hrest as [-> | (x & r & -> & [-> | [-> | ->]])]; reflexivity.
Qed.

Lemma scan_number_zero (rest : list ascii) :
  delimited rest -> scan_number ("0"%char :: rest) = Some (Int 0, rest).
Proof. intros [-> | (x & r & -> & [-> | [-> | ->]])]; reflexivity. Qed.

Lemma of_int_text (n : Z) :
  match n with
  | Z0 => list_ascii_of_string (PyStr.of_int n) = ["0"%char]
  | Zpos p => list_ascii_of_string (PyStr.of_int n) = list_ascii_of_string (NilEmpty.string_of_uint (Pos.to_uint p))
  | Zneg p => list_ascii_of_string (PyStr.of_int n) = "-"%char :: list_ascii_of_string (NilEmpty.string_of_uint (Pos.to_uint p))
  end.
Proof.
  destruct n as [|p|p]; [reflexivity|..];
    unfold PyStr.of_int, NilZero.string_of_int, NilZero.string_of_uint, Z.to_int;
    pose proof (DecimalPos.Unsigned.to_uint_nonnil p);
    destruct (Pos.to_uint p); try reflexivity; contradiction.
Qed.

Lemma digits_value_to_uint (p : positive) :
  digits_value (list_ascii_of_string (NilEmpty.string_of_uint (Pos.to_uint p))) = Zpos p.
Proof.
  unfold digits_value; rewrite fold_digits, DecimalPos.Unsigned.of_to. reflexivity.
Qed.

Lemma scan_number_int (n : Z) (rest : list ascii) :
  delimited rest ->
  scan_number (list_ascii_of_string (PyStr.of_int n) ++ rest)%list = Some (Int n, rest).
Proof.
  intros Hrest. pose proof (of_int_text n) as Ht.
  destruct n as [|p|p]; rewrite Ht.
  - apply scan_number_zero, Hrest.
  - destruct (to_uint_head p) as (c & cs & E & H45 & H48 & Hd).
    pose proof (span_digits_uint (Pos.to_uint p) rest Hrest) as Hs.
    pose proof (digits_value_to_uint p) as Hv.
    rewrite E in *. 
    rewrite <- Hv.
    apply (scan_number_digits c cs rest false); assumption.
  - destruct (to_uint_head p) as (c & cs & E & H45 & H48 & Hd).
    pose proof (span_digits_uint (Pos.to_uint p) rest Hrest) as Hs.
    pose proof (digits_value_to_uint p) as Hv.
    rewrite E in *.
    change (Zneg p) with (- Zpos p)%Z. rewrite <- Hv.
    apply (scan_number_digits c cs rest true); assumption.
Qed.

(** The head of a number sends [scan_once] to [scan_number]. *)
Lemma scan_once_number (f : nat) (c : ascii) (r : list ascii) :
  is_digit c = true \/ char_is c 45 = true ->
  scan_once (S f) (c :: r) =
  or_else (scan_number (c :: r))
    (or_else (scan_literal "NaN" (Float "NaN") (c :: r))
       (or_else (scan_literal "Infinity" (Float "Infinity") (c :: r))
          (scan_literal "-Infinity" (Float "-Infinity") (c :: r)))).
Proof.
  destruct c as [[] [] [] [] [] [] [] []]; intros [H | H]; try discriminate H; reflexivity.
Qed.

Lemma of_int_head (n : Z) :
  exists c t, list_ascii_of_string (PyStr.of_int n) = c :: t /\ (is_digit c = true \/ char_is c 45 = true).
Proof.
  pose proof (of_int_text n) as Ht. destruct n as [|p|p]; rewrite Ht.
  - eexists; eexists; split; [reflexivity | left; reflexivity].
  - destruct (to_uint_head p) as (c & cs & E & _ & _ & Hd). rewrite E.
    eexists; eexists; split; [reflexivity | left; exact Hd].
  - eexists; eexists; split; [reflexivity | right; reflexivity].
Qed.

Lemma scan_once_int (n : Z) (f : nat) (rest : list ascii) :
  delimited rest ->
  scan_once (S f) (list_ascii_of_string (PyStr.of_int n) ++ rest)%list = Some (Int n, rest).
Proof.
  intros Hrest. pose proof (scan_number_int n rest Hrest) as Hn.
  destruct (of_int_head n) as (c & t & E & Hc). rewrite E in *.
  cbn [app] in *. rewrite scan_once_number by exact Hc. rewrite Hn. reflexivity.
Qed.

(** Values. *)

Lemma skip_ws_head (c : ascii) (r : list ascii) :
  is_ws c = false -> skip_ws (c :: r) = c :: r.
Proof. intros H. cbn [skip_ws]. rewrite H. reflexivity. Qed.

Lemma la_join_cons (sep p : string) (l : list string) :
  l <> [] ->
  list_ascii_of_string (PyStr.join sep (p :: l)) = (list_ascii_of_string p ++ list_ascii_of_string sep ++ list_ascii_of_string (PyStr.join sep l))%list.
Proof.
  intros H. destruct l as [|q l]; [contradiction|].
  cbn [PyStr.join]. rewrite !la_app. reflexivity.
Qed.

Lemma la_encode_string (s : string) :
  list_ascii_of_string (encode_string s) = dquote :: (list_ascii_of_string (escape s) ++ [dquote])%list.
Proof. unfold encode_string. cbn [list_ascii_of_string]. rewrite la_app. reflexivity. Qed.

Lemma la_member_text (k : string) (v : value) :
  list_ascii_of_string (member_text (k, v)) =
  dquote :: (list_ascii_of_string (escape k) ++ dquote :: ":"%char :: " "%char :: list_ascii_of_string (dumps v))%list.
Proof.
  unfold member_text. rewrite la_app, la_encode_string. cbn [app].
  rewrite <- app_assoc. reflexivity.
Qed.

(** The first character of the text of a value. *)
Lemma dumps_head (v : value) :
  is_plain v = true ->
  exists c t, list_ascii_of_string (dumps v) = c :: t /\ is_ws c = false /\ char_is c 93 = false.
Proof.
  intros Hp. destruct v as [| [] | n | x | s | items | members]; try discriminate Hp;
    try (eexists; eexists; split; [reflexivity | split; reflexivity]).
  destruct (of_int_head n) as (c & t & E & Hc). exists c, t. split; [exact E|].
  clear E. destruct c as [[] [] [] [] [] [] [] []]; destruct Hc as [H | H];
    try discriminate H; split; reflexivity.
Qed.

Lemma skip_ws_dumps (v : value) (tail : list ascii) :
  is_plain v = true -> skip_ws (list_ascii_of_string (dumps v) ++ tail) = (list_ascii_of_string (dumps v) ++ tail)%list.
Proof.
  intros Hp. destruct (dumps_head v Hp) as (c & t & E & Hw & _). rewrite E.
  apply skip_ws_head, Hw.
Qed.

Lemma set_fresh {V : Type} (acc : PyDict.dict V) (k : string) (v : V) :
  ~ In k (map fst acc) -> PyDict.set acc k v = (acc ++ [(k, v)])%list.
Proof.
  induction acc as [|[k' v'] acc IH]; intros H; [reflexivity|].
  cbn [PyDict.set app]. destruct (String.eqb k' k) eqn:E.
  - apply String.eqb_eq in E. exfalso. apply H. left. exact E.
  - rewrite IH; [reflexivity|]. intros Hin. apply H. right. exact Hin.
Qed.

Lemma unique_NoDup (l : list string) : unique l = true -> NoDup l.
Proof.
  induction l as [|k l IH]; intros H; [constructor|].
  cbn [unique] in H. apply andb_true_iff in H. destruct H as [Hk Hl].
  constructor; [|apply IH, Hl].
  intros Hin. apply negb_true_iff in Hk.
  assert (existsb (String.eqb k) l = true); [|congruence].
  apply existsb_exists. exists k. split; [exact Hin | apply String.eqb_refl].
Qed.

Lemma scan_once_arr (f : nat) (r : list ascii) :
  scan_once (S f) ("["%char :: r) =
  match skip_ws r with
  | c1 :: r1 => if char_is c1 93 then Some (Arr [], r1) else scan_items f [] (c1 :: r1)
  | [] => None
  end.
Proof. reflexivity. Qed.

Lemma scan_once_obj (f : nat) (r : list ascii) :
  scan_once (S f) ("{"%char :: r) =
  match skip_ws r with
  | c1 :: r1 => if char_is c1 125 then Some (Obj [], r1) else scan_members f [] (c1 :: r1)
  | [] => None
  end.
Proof. reflexivity. Qed.

Lemma scan_once_str (f : nat) (r : list ascii) :
  scan_once (S f) (dquote :: r) =
  match scan_string (List.length r) r with
  | Some (str, rest) => Some (Str str, rest)
  | None => None
  end.
Proof. reflexivity. Qed.

Lemma scan_items_step (f : nat) (acc : list value) (s : list ascii) :
  scan_items (S f) acc s =
  match scan_once f s with
  | None => None
  | Some (v, r1) =>
      match skip_ws r1 with
      | d :: r2 =>
          if char_is d 93 then Some (Arr (acc ++ [v])%list, r2)
          else if char_is d 44 then scan_items f (acc ++ [v])%list (skip_ws r2)
          else None
      | [] => None
      end
  end.
Proof. reflexivity. Qed.

Lemma scan_members_step (f : nat) (acc : PyDict.dict value) (r : list ascii) :
  scan_members (S f) acc (dquote :: r) =
  match scan_string (List.length r) r with
  | None => None
  | Some (key, r1) =>
      match skip_ws r1 with
      | colon :: r2 =>
          if char_is colon 58 then
            match scan_once f (skip_ws r2) with
            | None => None
            | Some (v, r3) =>
                let acc' := PyDict.set acc key v in
                match skip_ws r3 with
                | d :: r4 =>
                    if char_is d 125 then Some (Obj acc', r4)
                    else if char_is d 44 then scan_members f acc' (skip_ws r4)
                    else None
                | [] => None
                end
            end
          else None
      | [] => None
      end
  end.
Proof. reflexivity. Qed.

Lemma delimited_comma r : delimited (","%char :: r).
Proof. right. eexists; eexists; split; [reflexivity | left; reflexivity]. Qed.
Lemma delimited_bracket r : delimited ("]"%char :: r).
Proof. right. eexists; eexists; split; [reflexivity | right; left; reflexivity]. Qed.
Lemma delimited_brace r : delimited ("}"%char :: r).
Proof. right. eexists; eexists; split; [reflexivity | right; right; reflexivity]. Qed.

Lemma scan_string_key (k : string) (tail : list ascii) :
  scan_string (List.length (list_ascii_of_string (escape k) ++ dquote :: tail)%list)
              (list_ascii_of_string (escape k) ++ dquote :: tail)%list = Some (k, tail).
Proof.
  apply scan_string_escape. rewrite length_app. cbn [List.length].
  pose proof (escape_length k). lia.
Qed.

Ltac norm_len H :=
  repeat first [ rewrite length_app in H
               | progress cbn [List.length list_ascii_of_string] in H ].

Lemma round_trip_fuel (f : nat) :
  (forall v rest,
      is_plain v = true -> (List.length (list_ascii_of_string (dumps v)) <= f)%nat -> delimited rest ->
      scan_once f (list_ascii_of_string (dumps v) ++ rest)%list = Some (v, rest)) /\
  (forall ms acc rest,
      ms <> [] ->
      forallb (fun kv : string * value => let '(_, x) := kv in is_plain x) ms = true ->
      NoDup (map fst (acc ++ ms)%list) ->
      (List.length (list_ascii_of_string (PyStr.join ", " (map member_text ms))) < f)%nat ->
      scan_members f acc (list_ascii_of_string (PyStr.join ", " (map member_text ms)) ++ "}"%char :: rest)%list =
      Some (Obj (acc ++ ms)%list, rest)) /\
  (forall items acc rest,
      items <> [] ->
      forallb is_plain items = true ->
      (List.length (list_ascii_of_string (PyStr.join ", " (map dumps items))) < f)%nat ->
      scan_items f acc (list_ascii_of_string (PyStr.join ", " (map dumps items)) ++ "]"%char :: rest)%list =
      Some (Arr (acc ++ items)%list, rest)).
Proof.
  induction f as [|f (IHv & IHm & IHi)].
  { split; [|split; intros; lia].
    intros v rest Hp Hlen _. destruct (dumps_head v Hp) as (c & t & E & _).
    rewrite E in Hlen. cbn in Hlen. lia. }
  split; [|split].
  - (* values *)
    intros v rest Hp Hlen Hrest.
    destruct v as [| [] | n | x | s | items | members]; try reflexivity.
    + apply scan_once_int, Hrest.
    + discriminate Hp.
    + cbn [dumps]. rewrite la_encode_string. cbn [app]. rewrite <- app_assoc. cbn [app].
      rewrite scan_once_str, scan_string_key. reflexivity.
    + destruct items as [|v0 items]; [reflexivity|].
      cbn [dumps] in *. cbn [list_ascii_of_string String.append app] in *.
      rewrite la_app in *. rewrite <- app_assoc. cbn [list_ascii_of_string app].
      norm_len Hlen.
      rewrite scan_once_arr.
      cbn [is_plain] in Hp.
      pose proof (IHi (v0 :: items) [] rest ltac:(discriminate) Hp ltac:(lia)) as H.
      cbn [forallb] in Hp. apply andb_true_iff in Hp. destruct Hp as [Hp0 _].
      destruct (dumps_head v0 Hp0) as (c & t & E & Hw & Hb).
      assert (E' : exists t', list_ascii_of_string (PyStr.join ", " (map dumps (v0 :: items))) = c :: t').
      { destruct items as [|v1 items].
        - exists t. exact E.
        - cbn [map]. rewrite la_join_cons by discriminate. rewrite E. eexists. reflexivity. }
      destruct E' as (t' & E'). rewrite E' in *. cbn [app] in *.
      rewrite skip_ws_head by exact Hw. rewrite Hb. exact H.
    + destruct members as [|[k0 v0] members]; [reflexivity|].
      cbn [dumps] in *.
      change (map (fun kv : string * value => let '(k, x) := kv in encode_string k ++ ": " ++ dumps x))
        with (map member_text) in *.
      cbn [list_ascii_of_string String.append app] in *.
      rewrite la_app in *. rewrite <- app_assoc. cbn [list_ascii_of_string app].
      norm_len Hlen.
      rewrite scan_once_obj.
      cbn [is_plain] in Hp. apply andb_true_iff in Hp. destruct Hp as [Hu Hp].
      pose proof (IHm ((k0, v0) :: members) [] rest ltac:(discriminate) Hp
                    (unique_NoDup _ Hu) ltac:(lia)) as H.
      assert (E' : exists t', list_ascii_of_string (PyStr.join ", " (map member_text ((k0, v0) :: members)))
                              = dquote :: t').
      { destruct members as [|m1 members].
        - cbn [map PyStr.join]. rewrite la_member_text. eexists. reflexivity.
        - cbn [map]. rewrite la_join_cons by discriminate. rewrite la_member_text.
          eexists. reflexivity. }
      destruct E' as (t' & E'). rewrite E' in *. cbn [app] in *.
      rewrite skip_ws_head by reflexivity. change (char_is dquote 125) with false.
      cbv iota. exact H.
  - (* members *)
    intros ms acc rest Hne Hp Hnd Hlen.
    destruct ms as [|[k v] ms]; [contradiction|].
    cbn [forallb] in Hp. apply andb_true_iff in Hp. destruct Hp as [Hpv Hp].
    assert (Hfresh : ~ In k (map fst acc)).
    { rewrite map_app in Hnd. cbn [map fst] in Hnd.
      apply NoDup_remove_2 in Hnd. intros Hin. apply Hnd, in_or_app. left. exact Hin. }
    destruct ms as [|m1 ms].
    + cbn [map PyStr.join] in *. rewrite la_member_text in *. cbn [app].
      rewrite <- app_assoc. cbn [app]. rewrite scan_members_step, scan_string_key.
      rewrite skip_ws_head by reflexivity. change (char_is ":" 58) with true. cbv iota.
      change (skip_ws (" "%char :: ?x)) with (skip_ws x).
      norm_len Hlen.
      rewrite skip_ws_dumps by exact Hpv.
      rewrite IHv by (try assumption; try apply delimited_brace; lia).
      cbv zeta. rewrite skip_ws_head by reflexivity. change (char_is "}" 125) with true.
      cbv iota. rewrite set_fresh by exact Hfresh. reflexivity.
    + cbn [map] in *. rewrite la_join_cons in * by discriminate.
      rewrite la_member_text in *. cbn [app list_ascii_of_string] in *.
      rewrite <- !app_assoc. cbn [app].
      rewrite scan_members_step, scan_string_key.
      rewrite skip_ws_head by reflexivity. change (char_is ":" 58) with true. cbv iota.
      norm_len Hlen.
      match goal with
      | |- context [skip_ws (" "%char :: ?x)] =>
          change (skip_ws (" "%char :: x)) with (skip_ws x)
      end.
      rewrite skip_ws_dumps by exact Hpv.
      rewrite IHv by (try assumption; try apply delimited_comma; lia).
      cbv zeta. rewrite skip_ws_head by reflexivity.
      change (char_is "," 125) with false. change (char_is "," 44) with true. cbv iota.
      rewrite set_fresh by exact Hfresh.
      match goal with
      | |- context [skip_ws (" "%char :: ?x)] =>
          change (skip_ws (" "%char :: x)) with (skip_ws x)
      end.
      assert (E' : exists t', list_ascii_of_string (PyStr.join ", " (member_text m1 :: map member_text ms))
                              = dquote :: t').
      { destruct m1 as [k1 v1]. destruct ms as [|m2 ms].
        - cbn [map PyStr.join]. rewrite la_member_text. eexists. reflexivity.
        - cbn [map]. rewrite la_join_cons by discriminate. rewrite la_member_text.
          eexists. reflexivity. }
      destruct E' as (t' & E').
      pose proof (IHm (m1 :: ms) (acc ++ [(k, v)])%list rest ltac:(discriminate) Hp) as H.
      cbn [map] in H. rewrite E' in *. cbn [app] in *.
      rewrite skip_ws_head by reflexivity.
      rewrite H.
      * rewrite <- app_assoc. reflexivity.
      * rewrite <- app_assoc. exact Hnd.
      * cbn [List.length] in *. lia.
  - (* items *)
    intros items acc rest Hne Hp Hlen.
    destruct items as [|v items]; [contradiction|].
    cbn [forallb] in Hp. apply andb_true_iff in Hp. destruct Hp as [Hpv Hp].
    rewrite scan_items_step.
    destruct items as [|v1 items].
    + cbn [map PyStr.join] in *.
      rewrite IHv by (try assumption; try apply delimited_bracket; lia).
      rewrite skip_ws_head by reflexivity. change (char_is "]" 93) with true.
      reflexivity.
    + cbn [map] in *. rewrite la_join_cons in * by discriminate.
      cbn [list_ascii_of_string app] in *.
      norm_len Hlen.
      rewrite <- !app_assoc. cbn [app].
      rewrite IHv by (try assumption; try apply delimited_comma; lia).
      rewrite skip_ws_head by reflexivity.
      change (char_is "," 93) with false. change (char_is "," 44) with true. cbv iota.
      match goal with
      | |- context [skip_ws (" "%char :: ?x)] =>
          change (skip_ws (" "%char :: x)) with (skip_ws x)
      end.
      pose proof (IHi (v1 :: items) (acc ++ [v])%list rest ltac:(discriminate) Hp) as H.
      cbn [map forallb] in H, Hp. apply andb_true_iff in Hp. destruct Hp as [Hp1 _].
      destruct (dumps_head v1 Hp1) as (c & t & E & Hw & _).
      assert (E' : exists t', list_ascii_of_string (PyStr.join ", " (dumps v1 :: map dumps items)) = c :: t').
      { destruct items as [|v2 items].
        - exists t. exact E.
        - cbn [map]. rewrite la_join_cons by discriminate. rewrite E. eexists. reflexivity. }
      destruct E' as (t' & E'). rewrite E' in *. cbn [app] in *.
      rewrite skip_ws_head by exact Hw.
      rewrite H by (cbn [List.length] in *; lia).
      rewrite <- app_assoc. reflexivity.
Qed.

Lemma delimited_nil : delimited [].
Proof. left. reflexivity. Qed.

(** [loads] reads back what [dumps] wrote. *)
Lemma loads_dumps (v : value) : is_plain v = true -> loads (dumps v) = Some v.
Proof.
  intros Hp. unfold loads.
  pose proof (skip_ws_dumps v [] Hp) as Hs. rewrite !app_nil_r in Hs. rewrite Hs.
  destruct (round_trip_fuel (2 * List.length (list_ascii_of_string (dumps v)) + 1)) as (H & _).
  specialize (H v [] Hp ltac:(lia) delimited_nil). rewrite app_nil_r in H.
  rewrite H. reflexivity.
Qed.


Lemma inline_app (a b : string) : inline (a ++ b) = inline a && inline b.
Proof.
  induction a as [|c a IH]; [reflexivity|]. cbn [String.append inline].
  rewrite IH, andb_assoc. reflexivity.
Qed.

Lemma inline_escape_char (c : ascii) : inline (escape_char c) = true.
Proof. destruct c as [[] [] [] [] [] [] [] []]; reflexivity. Qed.

Lemma inline_escape (s : string) : inline (escape s) = true.
Proof.
  induction s as [|c s IH]; [reflexivity|].
  cbn [escape]. rewrite inline_app, inline_escape_char, IH. reflexivity.
Qed.

Lemma inline_encode_string (s : string) : inline (encode_string s) = true.
Proof.
  unfold encode_string. cbn [inline]. rewrite inline_app, inline_escape. reflexivity.
Qed.

Lemma inline_uint (d : Decimal.uint) : inline (DecimalString.NilEmpty.string_of_uint d) = true.
Proof. induction d; cbn [DecimalString.NilEmpty.string_of_uint inline]; rewrite ?IHd; reflexivity. Qed.

Lemma inline_of_int (n : Z) : inline (PyStr.of_int n) = true.
Proof.
  unfold PyStr.of_int, DecimalString.NilZero.string_of_int, DecimalString.NilZero.string_of_uint.
  destruct (Z.to_int n) as [d | d]; destruct d; cbn [inline];
    rewrite ?inline_uint; reflexivity.
Qed.

Lemma inline_join (sep : string) (parts : list string) :
  inline sep = true -> Forall (fun p => inline p = true) parts ->
  inline (PyStr.join sep parts) = true.
Proof.
  intros Hs H. induction H as [|p parts Hp _ IH]; [reflexivity|].
  destruct parts as [|q parts]; [exact Hp|].
  cbn [PyStr.join] in *. rewrite !inline_app, Hp, Hs, IH. reflexivity.
Qed.

(** Induction on a value and, with it, on the values it holds. *)
Lemma value_ind' (P : value -> Prop) :
  P Null -> (forall b, P (Bool b)) -> (forall n, P (Int n)) ->
  (forall x, P (Float x)) -> (forall s, P (Str s)) ->
  (forall items, Forall P items -> P (Arr items)) ->
  (forall members, Forall (fun kv => P (snd kv)) members -> P (Obj members)) ->
  forall v, P v.
Proof.
  intros HN HB HI HF HS HA HO. fix IH 1.
  intros [| b | n | x | s | items | members];
    [exact HN | apply HB | apply HI | apply HF | apply HS | |].
  - apply HA. revert items. fix go 1.
    intros [|v items]; constructor; [apply IH | apply go].
  - apply HO. revert members. fix go 1.
    intros [|[k v] members]; constructor; [apply IH | apply go].
Qed.

(** The text of a plain value stays on one line. *)
Lemma inline_dumps (v : value) : is_plain v = true -> inline (dumps v) = true.
Proof.
  induction v as [| [] | n | x | s | items IH | members IH] using value_ind';
    intros Hp; try reflexivity.
  - apply inline_of_int.
  - discriminate Hp.
  - apply inline_encode_string.
  - cbn [dumps]. cbn [String.append inline]. rewrite inline_app.
    rewrite inline_join; [reflexivity | reflexivity |].
    cbn [is_plain] in Hp. rewrite forallb_forall in Hp.
    apply Forall_map. rewrite Forall_forall in *. intros x Hx. apply IH; auto.
  - cbn [dumps]. cbn [String.append inline]. rewrite inline_app.
    rewrite inline_join; [reflexivity | reflexivity |].
    cbn [is_plain] in Hp. apply andb_true_iff in Hp. destruct Hp as [_ Hp].
    rewrite forallb_forall in Hp.
    apply Forall_map. rewrite Forall_forall in *. intros [k x] Hx.
    rewrite !inline_app, inline_encode_string. cbn [inline andb].
    apply (IH (k, x) Hx). apply (Hp (k, x) Hx).
Qed.

End JsonFacts.

(** ** The permission gate *)

Section GateProperties.

Import PermissionManager Gate GateFacts TextFacts.

(** C1.  A request whose action type matches a pattern of the deny-list
    is refused with status [DENIED], whatever its required level, whatever
    the dry-run flag and whatever the auto-approve list holds: the
    deny-list is consulted first. *)
Theorem deny_list_takes_precedence
    (s : state) (a : ActionRequest.t) (dry_run : bool) (pattern : string) :
  In pattern (blacklist (fst s)) ->
  Fnmatch.fnmatch (ActionRequest.action_type a) pattern = true ->
  let r := fst (check_permission a dry_run s) in
  ActionResult.success r = false /\ ActionResult.status r = "DENIED".
Proof.
  destruct s as [m w]. cbn [fst]. intros Hin Hmatch. cbv zeta.
  rewrite blacklisted_is_denied; [split; reflexivity|].
  apply (blacklisted_by_true _ _ _ Hin Hmatch).
Qed.

(** The pattern [format_*] is in both lists and the request is at
    [ADMIN]. *)
Lemma deny_list_takes_precedence_witness :
  In "format_*" (auto_approve Sample.torn_manager) /\
  ActionRequest.required_level Sample.format_disk = PermissionLevel.ADMIN /\
  let r := fst (check_permission Sample.format_disk false
                  (Sample.torn_manager, Sample.world [])) in
  ActionResult.success r = false /\ ActionResult.status r = "DENIED".
Proof.
  split; [right; left; reflexivity|]. split; [reflexivity|].
  apply (deny_list_takes_precedence (Sample.torn_manager, Sample.world [])
           Sample.format_disk false "format_*").
  - left; reflexivity.
  - reflexivity.
Defined.

(** C2.  A request that the deny-list does not catch and whose action
    type matches an auto-approve pattern is approved with status
    [APPROVED] at every required level; the log receives the pending
    entry and then an entry of status [approved], and neither the
    terminal nor the callback is touched. *)
Theorem allow_list_bypasses_levels
    (s : state) (a : ActionRequest.t) (dry_run : bool) (pattern : string) :
  _is_blacklisted (fst s) a = false ->
  In pattern (auto_approve (fst s)) ->
  Fnmatch.fnmatch (ActionRequest.action_type a) pattern = true ->
  let r := fst (check_permission a dry_run s) in
  let s' := snd (check_permission a dry_run s) in
  let w1 := logged (snd s) (pending_entry (snd s) a) in
  ActionResult.success r = true /\
  ActionResult.status r = "APPROVED" /\
  log_file (snd s') =
    write_all (log_file (snd s)) [pending_entry (snd s) a; auto_entry w1 a] /\
  AuditEntry.status (auto_entry w1 a) = Json.Str "approved" /\
  interaction (snd s') = interaction (snd s).
Proof.
  destruct s as [m w]. cbn [fst snd]. intros Hdeny Hin Hmatch.
  rewrite check_permission_run. cbv zeta. rewrite Hdeny.
  unfold _is_auto_approved. rewrite (approved_by_true _ _ _ Hin Hmatch).
  repeat split; reflexivity.
Qed.

Lemma allow_list_bypasses_levels_witness :
  ActionRequest.required_level Sample.read_file = PermissionLevel.ADMIN /\
  let r := fst (check_permission Sample.read_file false
                  (Sample.manager, Sample.world [])) in
  ActionResult.success r = true /\ ActionResult.status r = "APPROVED".
Proof.
  split; [reflexivity|].
  destruct (allow_list_bypasses_levels (Sample.manager, Sample.world [])
              Sample.read_file false "read_file") as (H1 & H2 & _).
  - reflexivity.
  - right; left; reflexivity.
  - reflexivity.
  - split; [exact H1 | exact H2].
Defined.

Lemma level_eqb_eq (x y : PermissionLevel.t) :
  PermissionLevel.eqb x y = true <-> x = y.
Proof. destruct x, y; cbv; split; intros H; congruence. Qed.

Lemma caught_by_one (pattern : string) (ps : list string) (a : ActionRequest.t) :
  blacklisted_by (pattern :: ps) a = true <->
  caught_by pattern a \/ blacklisted_by ps a = true.
Proof.
  cbn [blacklisted_by]. unfold caught_by, ActionRequest.matches_pattern.
  destruct (Fnmatch.fnmatch (ActionRequest.action_type a) pattern) eqn:Ea.
  { split; [intros _; left; left; reflexivity | reflexivity]. }
  destruct (PyStr.contains (PyStr.lower (ActionRequest.description a))
                           (PyStr.lower pattern)) eqn:Ec.
  { split.
    - intros _. left. right. right. apply contains_iff. exact Ec.
    - intros _. destruct (match ActionRequest.target a with Some _ => _ | None => _ end);
        reflexivity. }
  destruct (ActionRequest.target a) as [tg|] eqn:Et.
  - destruct (PyStr.truthy tg && PyStr.contains (PyStr.lower tg) (PyStr.lower pattern))
      eqn:Eb.
    + split; [|reflexivity]. intros _. left. right. left. exists tg. split; [reflexivity|].
      apply andb_true_iff in Eb. apply contains_iff. apply Eb.
    + split; [intros H; right; exact H|].
      intros [[H | [(tg' & Htg & H) | H]] | H]; [discriminate | | | exact H].
      * injection Htg as <-. apply contains_iff in H.
        apply andb_false_iff in Eb. destruct Eb as [Eb | Eb]; [|congruence].
        apply truthy_false in Eb. subst tg. cbn [PyStr.lower] in H.
        apply contains_in_empty in H. rewrite H, contains_empty_needle in Ec.
        discriminate.
      * apply contains_iff in H. congruence.
  - split; [intros H; right; exact H|].
    intros [[H | [(tg' & Htg & H) | H]] | H]; [discriminate | discriminate | | exact H].
    apply contains_iff in H. congruence.
Qed.

(** C3.  The deny-list catches a request exactly when one of its patterns
    matches the action type as a shell pattern, or is contained, letter
    case aside, in the target (when there is one) or in the
    description. *)
Theorem blacklisted_iff (m : t) (a : ActionRequest.t) :
  _is_blacklisted m a = true <->
  exists pattern, In pattern (blacklist m) /\ caught_by pattern a.
Proof.
  unfold _is_blacklisted. induction (blacklist m) as [|p ps IH].
  - split; [discriminate | intros (pattern & [] & _)].
  - rewrite caught_by_one, IH. split.
    + intros [H | (pattern & Hin & H)].
      * exists p. split; [left; reflexivity | exact H].
      * exists pattern. split; [right; exact Hin | exact H].
    + intros (pattern & [-> | Hin] & H).
      * left. exact H.
      * right. exists pattern. split; assumption.
Qed.

(** C5.  A request that neither list catches and that is not at [READ] is
    answered with status [DRY_RUN] when it is at [SUGGEST] or when a dry
    run is asked for, and then the callback is not called and nothing is
    written to or read from the terminal. *)
Theorem suggest_or_dry_run_never_asks
    (s : state) (a : ActionRequest.t) (dry_run : bool) :
  _is_blacklisted (fst s) a = false ->
  _is_auto_approved (fst s) a = false ->
  ActionRequest.required_level a <> PermissionLevel.READ ->
  ActionRequest.required_level a = PermissionLevel.SUGGEST \/ dry_run = true ->
  let r := fst (check_permission a dry_run s) in
  let s' := snd (check_permission a dry_run s) in
  ActionResult.success r = true /\
  ActionResult.status r = "DRY_RUN" /\
  interaction (snd s') = interaction (snd s).
Proof.
  destruct s as [m w]. cbn [fst snd]. intros Hdeny Hallow Hread Hdry.
  rewrite check_permission_run. cbv zeta. rewrite Hdeny, Hallow.
  destruct (PermissionLevel.eqb _ PermissionLevel.READ) eqn:E.
  { apply level_eqb_eq in E. contradiction. }
  assert (Hb : PermissionLevel.eqb (ActionRequest.required_level a) PermissionLevel.SUGGEST
               || dry_run = true).
  { destruct Hdry as [-> | ->]; [reflexivity | apply orb_true_r]. }
  rewrite Hb. repeat split; reflexivity.
Qed.

(** A callback is registered and a line waits on the terminal; the
    request is at [SAFE_WRITE] with the dry-run flag, then at [SUGGEST]
    without it. *)
Lemma suggest_or_dry_run_never_asks_witness :
  (let s := (Sample.asking_manager, Sample.world ["yes"]) in
   let r := fst (check_permission Sample.write_file true s) in
   let s' := snd (check_permission Sample.write_file true s) in
   ActionResult.success r = true /\ ActionResult.status r = "DRY_RUN" /\
   interaction (snd s') = interaction (snd s)) /\
  (let s := (Sample.asking_manager, Sample.world ["yes"]) in
   let r := fst (check_permission Sample.suggest_edit false s) in
   let s' := snd (check_permission Sample.suggest_edit false s) in
   ActionResult.success r = true /\ ActionResult.status r = "DRY_RUN" /\
   interaction (snd s') = interaction (snd s)).
Proof.
  split.
  - apply (suggest_or_dry_run_never_asks (Sample.asking_manager, Sample.world ["yes"])
             Sample.write_file true);
      [reflexivity | reflexivity | discriminate | right; reflexivity].
  - apply (suggest_or_dry_run_never_asks (Sample.asking_manager, Sample.world ["yes"])
             Sample.suggest_edit false);
      [reflexivity | reflexivity | discriminate | left; reflexivity].
Defined.

Lemma verdict_entry_not_pending (w : World) (who : string) (a : ActionRequest.t)
    (approved : bool) (meta : option (PyDict.dict Json.value)) :
  AuditEntry.status (verdict_entry w who a approved meta) <> Json.Str "pending".
Proof. destruct approved; discriminate. Qed.

Lemma events_of_printed (texts : list string) :
  written (map Printed texts) = [] /\ shown (map Printed texts) = texts /\
  answers (map Printed texts) = [] /\ calls (map Printed texts) = [].
Proof.
  induction texts as [|t ts (Hw & Hs & Ha & Hc)]; [repeat split|].
  cbn [map]. unfold written, shown, answers, calls in *. cbn [flat_map app].
  rewrite Hw, Hs, Ha, Hc. repeat split.
Qed.

Lemma events_of_asked (w : World) (a : ActionRequest.t) (more : list event) :
  let run := (map Printed (banner a) ++ Answered (hd_error (stdin w)) :: more)%list in
  written run = written more /\
  shown run = (banner a ++ shown more)%list /\
  answers run = hd_error (stdin w) :: answers more /\
  calls run = calls more.
Proof.
  cbv zeta. destruct (events_of_printed (banner a)) as (Hw & Hs & Ha & Hc).
  unfold written, shown, answers, calls in *.
  rewrite !flat_map_app, Hw, Hs, Ha, Hc. repeat split.
Qed.

(** C6.  Every run of [check_permission], whatever the request, the lists
    and the level, writes the pending entry of the request to the log
    before it does anything else to the log, to the terminal or to the
    callback: in the history of the world that write is the first event
    of the run.  Whatever the decision leads to comes after it: every
    text the prompt prints, the line it reads, the call of the callback,
    and the one further entry the run may log, which is never a pending
    entry.  The tests of the deny-list and of the auto-approve list touch
    nothing themselves; they show only in what follows the pending
    write. *)
Theorem pending_entry_comes_first (s : state) (a : ActionRequest.t) (dry_run : bool) :
  let w := snd s in
  let w' := snd (snd (check_permission a dry_run s)) in
  let pending := pending_entry w a in
  exists (rest : list AuditEntry.t) (later : list event),
    AuditEntry.status pending = Json.Str "pending" /\
    history w' = (history w ++ Wrote (line_of pending) :: later)%list /\
    log_file w' = write_all (log_file w) (pending :: rest) /\
    (List.length rest <= 1)%nat /\
    Forall (fun e => AuditEntry.status e <> Json.Str "pending") rest /\
    written later = map line_of rest /\
    stdout w' = (stdout w ++ shown later)%list /\
    stdin w' = skipn (List.length (answers later)) (stdin w) /\
    callback_calls w' = (callback_calls w ++ calls later)%list.
Proof.
  destruct s as [m w]. cbn [fst snd].
  rewrite check_permission_run. cbv zeta.
  set (w1 := logged w (pending_entry w a)).
  assert (H1 : history w1 = (history w ++ [Wrote (line_of (pending_entry w a))])%list)
    by reflexivity.
  destruct (_is_blacklisted m a).
  { exists [blocked_entry w1 a], [Wrote (line_of (blocked_entry w1 a))].
    cbn [snd logged history log_file stdout stdin callback_calls]. rewrite H1, <- app_assoc.
    repeat split; auto using app_nil_r.
    constructor; [discriminate | constructor]. }
  destruct (_is_auto_approved m a).
  { exists [auto_entry w1 a], [Wrote (line_of (auto_entry w1 a))].
    cbn [snd logged history log_file stdout stdin callback_calls]. rewrite H1, <- app_assoc.
    repeat split; auto using app_nil_r.
    constructor; [discriminate | constructor]. }
  destruct (PermissionLevel.eqb _ PermissionLevel.READ).
  { exists [], []. cbn [snd]. rewrite H1. repeat split; auto using app_nil_r. }
  destruct (_ || dry_run).
  { exists [], []. cbn [snd]. rewrite H1. repeat split; auto using app_nil_r. }
  rewrite request_approval_run.
  destruct (_approval_callback m) as [callback|].
  { cbv zeta.
    set (v := verdict_entry (called w1 a) "User" a _ _).
    exists [v], [Called (ActionRequest.description a) (_generate_preview a);
                 Wrote (line_of v)].
    cbn [snd logged called history log_file stdout stdin callback_calls].
    rewrite H1, <- !app_assoc.
    repeat split; auto using app_nil_r.
    constructor; [apply verdict_entry_not_pending | constructor]. }
  rewrite cli_approval_run. cbv zeta.
  destruct (String.eqb (response_of w1) "never").
  - rewrite add_to_blacklist_run.
    destruct (mem (ActionRequest.action_type a) (blacklist m)).
    + exists [], (map Printed (banner a) ++ [Answered (hd_error (stdin w1))])%list.
      destruct (events_of_asked w1 a []) as (Hw & Hs & Ha & Hc). cbv zeta in Hw, Hs, Ha, Hc.
      rewrite Hw, Hs, Ha, Hc.
      cbn [written shown answers calls flat_map app]. rewrite ?app_nil_r.
      cbn [snd asked history log_file stdout stdin callback_calls].
      rewrite H1, <- !app_assoc.
      repeat split; auto using app_nil_r.
    + set (e := policy_entry (asked w1 a) _ _).
      exists [e], (map Printed (banner a)
                     ++ [Answered (hd_error (stdin w1)); Wrote (line_of e)])%list.
      destruct (events_of_asked w1 a [Wrote (line_of e)]) as (Hw & Hs & Ha & Hc).
      cbv zeta in Hw, Hs, Ha, Hc. rewrite Hw, Hs, Ha, Hc.
      cbn [written shown answers calls flat_map app]. rewrite ?app_nil_r.
      cbn [snd logged asked history log_file stdout stdin callback_calls].
      rewrite H1, <- !app_assoc.
      repeat split; auto using app_nil_r.
      constructor; [discriminate | constructor].
  - set (v := verdict_entry (asked w1 a) "CLI" a _ _).
    exists [v], (map Printed (banner a)
                   ++ [Answered (hd_error (stdin w1)); Wrote (line_of v)])%list.
    destruct (events_of_asked w1 a [Wrote (line_of v)]) as (Hw & Hs & Ha & Hc).
    cbv zeta in Hw, Hs, Ha, Hc. rewrite Hw, Hs, Ha, Hc.
    cbn [written shown answers calls flat_map app]. rewrite ?app_nil_r.
    cbn [snd logged asked history log_file stdout stdin callback_calls].
    rewrite H1, <- !app_assoc.
    repeat split; auto using app_nil_r.
    constructor; [apply verdict_entry_not_pending | constructor].
Qed.

(** C10.  An answer of status [DRY_RUN] carries the dry-run flag set,
    whatever the caller passed; every other answer carries the flag the
    caller passed. *)
Theorem dry_run_flag_of_result (s : state) (a : ActionRequest.t) (dry_run : bool) :
  let r := fst (check_permission a dry_run s) in
  (ActionResult.status r = "DRY_RUN" -> ActionResult.dry_run r = true) /\
  (ActionResult.status r <> "DRY_RUN" -> ActionResult.dry_run r = dry_run).
Proof.
  destruct s as [m w]. cbv zeta.
  rewrite check_permission_run. cbv zeta.
  set (w1 := logged w (pending_entry w a)).
  destruct (_is_blacklisted m a); [split; [discriminate | reflexivity]|].
  destruct (_is_auto_approved m a); [split; [discriminate | reflexivity]|].
  destruct (PermissionLevel.eqb _ PermissionLevel.READ);
    [split; [discriminate | reflexivity]|].
  destruct (_ || dry_run);
    [split; [reflexivity | intros H; exfalso; apply H; reflexivity]|].
  rewrite request_approval_run.
  destruct (_approval_callback m) as [callback|].
  { cbv zeta. destruct (callback _ _); split; (discriminate || reflexivity). }
  rewrite cli_approval_run. cbv zeta.
  destruct (String.eqb (response_of w1) "never"); [split; [discriminate | reflexivity]|].
  destruct (String.eqb (response_of w1) "y" || String.eqb (response_of w1) "yes");
    split; (discriminate || reflexivity).
Qed.

(** The status [DRY_RUN] that comes from the level [SUGGEST] alone, the
    caller having passed no dry-run flag. *)
Lemma dry_run_flag_of_result_witness :
  let r := fst (check_permission Sample.suggest_edit false
                  (Sample.manager, Sample.world [])) in
  ActionResult.status r = "DRY_RUN" /\ ActionResult.dry_run r = true.
Proof.
  split; [reflexivity|].
  apply (proj1 (dry_run_flag_of_result (Sample.manager, Sample.world [])
                  Sample.suggest_edit false)).
  reflexivity.
Defined.

Lemma mem_iff (pattern : string) (l : list string) : mem pattern l = true <-> In pattern l.
Proof.
  unfold mem. rewrite existsb_exists. split.
  - intros (x & Hin & Heq). apply String.eqb_eq in Heq. subst. exact Hin.
  - intros Hin. exists pattern. split; [exact Hin | apply String.eqb_refl].
Qed.

Lemma mem_app_self (pattern : string) (l : list string) :
  mem pattern (l ++ [pattern]) = true.
Proof. apply mem_iff, in_or_app. right. left. reflexivity. Qed.

(** A request that is not caught by the deny-list has an action type
    that no pattern of the list matches. *)
Lemma not_blacklisted_no_match (m : t) (a : ActionRequest.t) (pattern : string) :
  _is_blacklisted m a = false ->
  In pattern (blacklist m) ->
  Fnmatch.fnmatch (ActionRequest.action_type a) pattern = false.
Proof.
  intros Hdeny Hin.
  destruct (Fnmatch.fnmatch (ActionRequest.action_type a) pattern) eqn:E; [|reflexivity].
  unfold _is_blacklisted in Hdeny.
  rewrite (blacklisted_by_true _ _ _ Hin E) in Hdeny. discriminate.
Qed.

(** For an action type that matches itself as a shell pattern, the answer
    [never] blacklists the type, and every later check of the request is
    denied. *)
Lemma never_blacklists_self_matching_type
    (s : state) (a : ActionRequest.t) :
  _approval_callback (fst s) = None ->
  _is_blacklisted (fst s) a = false ->
  _is_auto_approved (fst s) a = false ->
  PermissionLevel.eqb (ActionRequest.required_level a) PermissionLevel.READ = false ->
  PermissionLevel.eqb (ActionRequest.required_level a) PermissionLevel.SUGGEST = false ->
  response_of (snd s) = "never" ->
  Fnmatch.fnmatch (ActionRequest.action_type a) (ActionRequest.action_type a) = true ->
  let r := fst (check_permission a false s) in
  let s1 := snd (check_permission a false s) in
  ActionResult.success r = false /\
  ActionResult.status r = "BLACKLISTED" /\
  blacklist (fst s1) = (blacklist (fst s) ++ [ActionRequest.action_type a])%list /\
  auto_approve (fst s1) = auto_approve (fst s) /\
  forall (dry_run : bool) (w : World),
    let r' := fst (check_permission a dry_run (fst s1, w)) in
    ActionResult.success r' = false /\ ActionResult.status r' = "DENIED".
Proof.
  destruct s as [m w]. cbn [fst snd]. intros Hcb Hdeny Hallow Hread Hsug Hnever Hself.
  rewrite check_permission_run. cbv zeta.
  rewrite Hdeny, Hallow, Hread, Hsug. cbn [orb].
  rewrite request_approval_run, Hcb, cli_approval_run. cbv zeta.
  change (response_of (logged w (pending_entry w a))) with (response_of w).
  rewrite Hnever. cbn [String.eqb Ascii.eqb Bool.eqb fst snd].
  rewrite add_to_blacklist_run.
  destruct (mem (ActionRequest.action_type a) (blacklist m)) eqn:Emem.
  { apply mem_iff in Emem.
    rewrite (not_blacklisted_no_match m a _ Hdeny Emem) in Hself. discriminate. }
  cbn [fst snd with_blacklist blacklist auto_approve].
  split; [reflexivity|]. split; [reflexivity|]. split; [reflexivity|].
  split; [reflexivity|]. intros dry_run w'. cbv zeta.
  rewrite blacklisted_is_denied; [split; reflexivity|].
  apply (blacklisted_by_true _ a (ActionRequest.action_type a)); [|exact Hself].
  cbn [blacklist]. apply in_or_app. right. left. reflexivity.
Qed.

Example never_blacklists_write_file :
  let s := (Sample.manager, Sample.world ["never"]) in
  let s1 := snd (check_permission Sample.write_file false s) in
  ActionResult.status (fst (check_permission Sample.write_file false s)) = "BLACKLISTED" /\
  forall w : World,
    ActionResult.status (fst (check_permission Sample.write_file true (fst s1, w))) = "DENIED".
Proof.
  destruct (never_blacklists_self_matching_type
              (Sample.manager, Sample.world ["never"]) Sample.write_file)
    as (_ & H1 & _ & _ & H2).
  1-7: vm_compute; reflexivity.
  split; [exact H1|]. intros w. apply (H2 true w).
Qed.

(** An action type in which no bracket opens is such a type. *)
Lemma never_blacklists_bracket_free_type (s : state) (a : ActionRequest.t) :
  _approval_callback (fst s) = None ->
  _is_blacklisted (fst s) a = false ->
  _is_auto_approved (fst s) a = false ->
  PermissionLevel.eqb (ActionRequest.required_level a) PermissionLevel.READ = false ->
  PermissionLevel.eqb (ActionRequest.required_level a) PermissionLevel.SUGGEST = false ->
  response_of (snd s) = "never" ->
  bracket_free (ActionRequest.action_type a) ->
  let s1 := snd (check_permission a false s) in
  ActionResult.status (fst (check_permission a false s)) = "BLACKLISTED" /\
  forall (dry_run : bool) (w : World),
    ActionResult.status (fst (check_permission a dry_run (fst s1, w))) = "DENIED".
Proof.
  intros Hcb Hdeny Hallow Hread Hsug Hnever Hfree.
  destruct (never_blacklists_self_matching_type s a Hcb Hdeny Hallow Hread Hsug Hnever
              (fnmatch_self _ Hfree)) as (_ & H1 & _ & _ & H2).
  split; [exact H1|]. intros dry_run w. apply (H2 dry_run w).
Qed.

(** C4.  The action type [delete_[tmp]] does not match itself as a shell
    pattern.  With no callback registered, the answer [Never] to its
    check returns [BLACKLISTED] and puts the type on the deny-list, and
    the allow-list stays as it was; yet the same check run again is not
    denied: it asks once more, and the answer [yes] approves it. *)
Theorem never_is_forgotten_for_bracket_type :
  let s0 := (Sample.manager, Sample.world [" Never "; "yes"]) in
  let r1 := fst (check_permission Sample.delete_tmp false s0) in
  let s1 := snd (check_permission Sample.delete_tmp false s0) in
  let r2 := fst (check_permission Sample.delete_tmp false s1) in
  Fnmatch.fnmatch "delete_[tmp]" "delete_[tmp]" = false /\
  ActionResult.success r1 = false /\
  ActionResult.status r1 = "BLACKLISTED" /\
  blacklist (fst s1) = (default_blacklist ++ ["delete_[tmp]"])%list /\
  auto_approve (fst s1) = auto_approve Sample.manager /\
  ActionResult.success r2 = true /\
  ActionResult.status r2 = "approved".
Proof. vm_compute. repeat split. Qed.

(** C9, as the code has it.  [add_to_whitelist] sets the pattern and logs
    an [executed] entry at the level it was given.  [add_to_blacklist]
    changes nothing when the pattern is listed, and otherwise appends it
    and logs an [executed] entry at [ADMIN]; done twice it is as done
    once.  [remove_from_blacklist] returns whether the pattern is listed;
    when it is, the first occurrence goes and an [executed] entry at
    [ADMIN] is logged, and when it is not nothing changes. *)
Theorem policy_mutations_are_logged
    (s : state) (pattern : string) (level : PermissionLevel.t) :
  (let s' := snd (add_to_whitelist pattern level s) in
   let e := policy_entry (snd s) ("Added to whitelist: " ++ pattern)
                         (PermissionLevel.value level) in
   whitelist (fst s') = PyDict.set (whitelist (fst s)) pattern level /\
   log_file (snd s') = write_all (log_file (snd s)) [e] /\
   AuditEntry.status e = Json.Str "executed" /\
   AuditEntry.permission_level e = Json.Int (PermissionLevel.value level)) /\
  (let s' := snd (add_to_blacklist pattern s) in
   let e := policy_entry (snd s) ("Added to blacklist: " ++ pattern)
                         (PermissionLevel.value PermissionLevel.ADMIN) in
   (In pattern (blacklist (fst s)) -> s' = s) /\
   (~ In pattern (blacklist (fst s)) ->
    blacklist (fst s') = (blacklist (fst s) ++ [pattern])%list /\
    log_file (snd s') = write_all (log_file (snd s)) [e] /\
    AuditEntry.status e = Json.Str "executed" /\
    AuditEntry.permission_level e = Json.Int 5) /\
   snd (add_to_blacklist pattern s') = s') /\
  (let found := fst (remove_from_blacklist pattern s) in
   let s' := snd (remove_from_blacklist pattern s) in
   let e := policy_entry (snd s) ("Removed from blacklist: " ++ pattern)
                         (PermissionLevel.value PermissionLevel.ADMIN) in
   (found = true <-> In pattern (blacklist (fst s))) /\
   (found = false -> s' = s) /\
   (found = true ->
    blacklist (fst s') = remove_first pattern (blacklist (fst s)) /\
    log_file (snd s') = write_all (log_file (snd s)) [e] /\
    AuditEntry.status e = Json.Str "executed" /\
    AuditEntry.permission_level e = Json.Int 5)).
Proof.
  destruct s as [m w]. cbn [fst snd]. split; [|split].
  - rewrite add_to_whitelist_run. repeat split.
  - cbv zeta. rewrite add_to_blacklist_run.
    destruct (mem pattern (blacklist m)) eqn:E.
    + split; [reflexivity|]. split.
      * intros H. apply mem_iff in E. contradiction.
      * cbn [snd]. rewrite add_to_blacklist_run, E. reflexivity.
    + split.
      * intros H. apply mem_iff in H. congruence.
      * split; [intros _; repeat split|].
        cbn [snd]. rewrite add_to_blacklist_run. cbn [with_blacklist blacklist].
        rewrite mem_app_self. reflexivity.
  - cbv zeta. rewrite remove_from_blacklist_run.
    destruct (mem pattern (blacklist m)) eqn:E; cbn [fst snd].
    + split; [split; [intros _; apply mem_iff; exact E | reflexivity]|].
      split; [discriminate|]. intros _. repeat split.
    + split.
      * split; [discriminate|]. intros H. apply mem_iff in H. congruence.
      * split; [reflexivity | discriminate].
Qed.

(** A pattern is whitelisted at [SAFE_WRITE], a new pattern is
    blacklisted, and a listed pattern is removed. *)
Lemma policy_mutations_are_logged_witness :
  let s := (Sample.manager, Sample.world []) in
  AuditEntry.permission_level
    (policy_entry (snd s) "Added to whitelist: safe_action" 2) = Json.Int 2 /\
  blacklist (fst (snd (add_to_blacklist "dangerous_action" s))) =
    (default_blacklist ++ ["dangerous_action"])%list /\
  snd (add_to_blacklist "format_disk" s) = s /\
  fst (remove_from_blacklist "format_disk" s) = true /\
  blacklist (fst (snd (remove_from_blacklist "format_disk" s))) =
    ["rm -rf /"; "rm -rf /*"; "del /f /s /q *"; "format c:"].
Proof.
  cbv zeta.
  destruct (policy_mutations_are_logged (Sample.manager, Sample.world [])
              "safe_action" PermissionLevel.SAFE_WRITE) as ((_ & _ & _ & W) & _ & _).
  destruct (policy_mutations_are_logged (Sample.manager, Sample.world [])
              "dangerous_action" PermissionLevel.ADMIN) as (_ & (_ & B & _) & _).
  destruct (policy_mutations_are_logged (Sample.manager, Sample.world [])
              "format_disk" PermissionLevel.ADMIN) as (_ & (B' & _ & _) & (F & _ & R)).
  split; [exact W|]. split.
  - apply B. intros [H|[H|[H|[H|[H|[]]]]]]; discriminate H.
  - split; [apply B'; left; reflexivity|].
    assert (Hf : fst (remove_from_blacklist "format_disk"
                        (Sample.manager, Sample.world [])) = true)
      by (apply F; left; reflexivity).
    split; [exact Hf|]. apply (R Hf).
Defined.

(** C9 does not hold as it is worded: the entry that [add_to_whitelist]
    logs for the level [SAFE_WRITE] is at level 2, not at [ADMIN], and
    [add_to_blacklist] logs nothing for a pattern that is listed. *)
Lemma whitelist_entry_is_not_at_admin :
  let s := (Sample.manager, Sample.world []) in
  let s' := snd (add_to_whitelist "safe_action" PermissionLevel.SAFE_WRITE s) in
  ~ (exists e,
       AuditLogger.get_recent (log_file (snd s')) 1 = Return [e] /\
       AuditEntry.status e = Json.Str "executed" /\
       AuditEntry.permission_level e =
         Json.Int (PermissionLevel.value PermissionLevel.ADMIN)).
Proof.
  cbv zeta. intros (e & Hrecent & _ & Hlevel).
  vm_compute in Hrecent. injection Hrecent as <-.
  discriminate Hlevel.
Qed.

End GateProperties.

(** ** The audit trail *)

Module TrailFacts.

Import Json JsonFacts AuditLogger Trail.

Lemma truthy_strip_blank (line : string) :
  PyStr.strip line = "" -> PyStr.truthy (PyStr.strip line) = false.
Proof. intros ->. reflexivity. Qed.

(** [get_recent] passes over a blank or undecodable line. *)
Lemma collect_passes (line : string) (rest : list string) (acc : list AuditEntry.t) :
  passed_over line -> collect (line :: rest) acc = collect rest acc.
Proof.
  intros [H | H]; cbn [collect].
  - rewrite (truthy_strip_blank _ H). reflexivity.
  - rewrite H. destruct (PyStr.truthy (PyStr.strip line)); reflexivity.
Qed.

(** So does [get_by_date]. *)
Lemma scan_date_passes (d line : string) (rest : list string) (acc : list AuditEntry.t) :
  passed_over line -> scan_date d (line :: rest) acc = scan_date d rest acc.
Proof.
  intros [H | H]; cbn [scan_date].
  - rewrite (truthy_strip_blank _ H). reflexivity.
  - rewrite H. destruct (PyStr.truthy (PyStr.strip line) && _); reflexivity.
Qed.

Lemma scan_filter_full (keep : AuditEntry.t -> bool) (limit : Z) (lines : list string)
    (acc : list AuditEntry.t) :
  (Z.of_nat (List.length acc) >=? limit)%Z = true ->
  scan_filter keep limit lines acc = Return acc.
Proof. intros H. destruct lines; cbn [scan_filter]; [|rewrite H]; reflexivity. Qed.

(** So do [get_by_action_type] and [get_denied_actions]. *)
Lemma scan_filter_passes (keep : AuditEntry.t -> bool) (limit : Z) (line : string)
    (rest : list string) (acc : list AuditEntry.t) :
  passed_over line ->
  scan_filter keep limit (line :: rest) acc = scan_filter keep limit rest acc.
Proof.
  intros H. cbn [scan_filter].
  destruct (Z.of_nat (List.length acc) >=? limit)%Z eqn:E.
  { rewrite scan_filter_full by exact E. reflexivity. }
  destruct H as [H | H].
  - rewrite (truthy_strip_blank _ H). reflexivity.
  - rewrite H. destruct (PyStr.truthy (PyStr.strip line)); reflexivity.
Qed.

(** Lines passed over at the end of the trail change nothing for the scans
    that start at its head. *)
Lemma scan_date_trailing (d : string) (good bad : list string) (acc : list AuditEntry.t) :
  Forall passed_over bad ->
  scan_date d (good ++ bad) acc = scan_date d good acc.
Proof.
  intros Hbad. revert acc. induction good as [|l good IH]; intros acc.
  - cbn [app]. induction Hbad as [|b bad Hb _ IH]; [reflexivity|].
    rewrite scan_date_passes by exact Hb. exact IH.
  - cbn [app scan_date].
    destruct (PyStr.truthy (PyStr.strip l) && _); [|apply IH].
    destruct (AuditEntry.from_json (PyStr.strip l)) as [e | []]; try reflexivity; [|apply IH].
    destruct (timestamp_startswith e d) as [[] | ?]; try reflexivity; apply IH.
Qed.

Lemma scan_filter_trailing (keep : AuditEntry.t -> bool) (limit : Z)
    (good bad : list string) (acc : list AuditEntry.t) :
  Forall passed_over bad ->
  scan_filter keep limit (good ++ bad) acc = scan_filter keep limit good acc.
Proof.
  intros Hbad. revert acc. induction good as [|l good IH]; intros acc.
  - cbn [app]. induction Hbad as [|b bad Hb _ IH].
    + reflexivity.
    + rewrite scan_filter_passes by exact Hb. rewrite IH. reflexivity.
  - cbn [app scan_filter].
    destruct (Z.of_nat (List.length acc) >=? limit)%Z; [reflexivity|].
    destruct (PyStr.truthy (PyStr.strip l)); [|apply IH].
    destruct (AuditEntry.from_json (PyStr.strip l)) as [e | []]; try reflexivity; apply IH.
Qed.

(** And for [get_recent], which starts at the end, they are read first and
    leave the list of entries empty. *)
Lemma collect_trailing (good bad : list string) :
  Forall passed_over bad ->
  collect (rev (good ++ bad)) [] = collect (rev good) [].
Proof.
  intros Hbad. rewrite rev_app_distr.
  apply Forall_rev in Hbad. induction Hbad as [|b bad' Hb _ IH]; [reflexivity|].
  cbn [app]. rewrite collect_passes by exact Hb. exact IH.
Qed.

Lemma collect_length (lines : list string) (acc l : list AuditEntry.t) :
  collect lines acc = Return l ->
  (List.length l <= List.length acc + List.length lines)%nat.
Proof.
  revert acc. induction lines as [|line rest IH]; intros acc H; cbn [collect] in H.
  - injection H as <-. lia.
  - cbn [List.length].
    destruct (PyStr.truthy (PyStr.strip line)).
    + destruct (AuditEntry.from_json (PyStr.strip line)) as [e | []]; try discriminate.
      * apply IH in H. rewrite length_app in H. cbn [List.length] in H. lia.
      * apply IH in H. lia.
    + apply IH in H. lia.
Qed.

Lemma slice_from_tail_length {A : Type} (l : list A) (limit : Z) :
  (0 < limit)%Z ->
  (Z.of_nat (List.length (slice_from l (- limit))) <= limit)%Z.
Proof.
  intros H. unfold slice_from.
  destruct (- limit <? 0)%Z eqn:E; [|apply Z.ltb_ge in E; lia].
  rewrite length_skipn. lia.
Qed.

(** For a limit of one or more, [get_recent] returns no more entries than
    the limit. *)
Lemma get_recent_at_most (f : option string) (limit : Z) (l : list AuditEntry.t) :
  (0 < limit)%Z ->
  get_recent f limit = Return l ->
  (Z.of_nat (List.length l) <= limit)%Z.
Proof.
  intros Hpos H. destruct f as [text|]; cbn [get_recent] in H.
  - apply collect_length in H. rewrite length_rev in H. cbn [List.length] in H.
    pose proof (slice_from_tail_length (readlines text) limit Hpos). lia.
  - injection H as <-. cbn [List.length]. lia.
Qed.

(** For the limit zero the slice is the whole list: [get_recent] reads
    every line of the file. *)
Lemma get_recent_zero (text : string) :
  get_recent (Some text) 0 = collect (rev (readlines text)) [].
Proof.
  cbn [get_recent]. unfold slice_from. cbn [Z.opp Z.ltb Z.compare].
  rewrite Z.min_l by lia. reflexivity.
Qed.

(** With no file, every reader returns the empty list. *)
Lemma missing_file_reads_empty (d : string) (a : ActionType.t) (limit : Z) :
  get_recent None limit = Return [] /\
  get_by_date None d = Return [] /\
  get_by_action_type None a limit = Return [] /\
  get_denied_actions None limit = Return [].
Proof. repeat split. Qed.

(** Lines that each hold an entry are read in their order. *)
Lemma collect_held (lines : list string) (es acc : list AuditEntry.t) :
  Forall2 holds lines es -> collect lines acc = Return (acc ++ es)%list.
Proof.
  intros H. revert acc. induction H as [|line e lines es [Ht Hj] _ IH]; intros acc.
  - rewrite app_nil_r. reflexivity.
  - cbn [collect]. rewrite Ht, Hj, IH, <- app_assoc. reflexivity.
Qed.

Lemma Forall2_skipn {A B : Type} (R : A -> B -> Prop) (k : nat) (l : list A) (m : list B) :
  Forall2 R l m -> Forall2 R (skipn k l) (skipn k m).
Proof.
  intros H. revert k. induction H as [|a b l m Hab Hlm IH]; intros [|k]; cbn [skipn].
  - constructor.
  - constructor.
  - constructor; assumption.
  - apply IH.
Qed.

Lemma Forall2_rev {A B : Type} (R : A -> B -> Prop) (l : list A) (m : list B) :
  Forall2 R l m -> Forall2 R (rev l) (rev m).
Proof.
  induction 1 as [|a b l m Hab _ IH]; [constructor|].
  cbn [rev]. apply Forall2_app; [exact IH | constructor; [exact Hab | constructor]].
Qed.

(** When every line of the file holds an entry, [get_recent] with a limit
    of one or more returns the entries of the last [limit] lines, the last
    line first. *)
Lemma get_recent_of_held (text : string) (es : list AuditEntry.t) (limit : Z) :
  Forall2 holds (readlines text) es ->
  (0 < limit)%Z ->
  get_recent (Some text) limit =
  Return (rev (skipn (List.length es - Z.to_nat limit) es)).
Proof.
  intros H Hpos. cbn [get_recent].
  assert (Hs : slice_from (readlines text) (- limit) =
               skipn (List.length es - Z.to_nat limit) (readlines text)).
  { unfold slice_from. rewrite (Forall2_length H).
    destruct (- limit <? 0)%Z eqn:E; [|apply Z.ltb_ge in E; lia].
    f_equal. lia. }
  rewrite Hs.
  apply (collect_held _ _ []), Forall2_rev, Forall2_skipn, H.
Qed.

Lemma of_data_asdict (e : AuditEntry.t) : AuditEntry.of_data (AuditEntry.asdict e) = Return e.
Proof. destruct e. reflexivity. Qed.

(** An entry whose fields are plain values is read back from its text. *)
Lemma from_json_to_json (e : AuditEntry.t) :
  plain_entry e ->
  AuditEntry.from_json (AuditEntry.to_json e) = Return e.
Proof.
  intros Hp. unfold AuditEntry.from_json, AuditEntry.to_json.
  rewrite loads_dumps by exact Hp. apply of_data_asdict.
Qed.

(** Every entry that [create] builds from plain metadata has plain fields. *)
Lemma create_plain now ty de lv ua st re (me : option (PyDict.dict value)) :
  match me with Some d => is_plain (Obj d) | None => true end = true ->
  plain_entry (AuditEntry.create now ty de lv ua st re me).
Proof.
  intros H. unfold plain_entry, AuditEntry.create, AuditEntry.asdict.
  cbn [is_plain map fst unique existsb forallb AuditEntry.timestamp AuditEntry.action_type
       AuditEntry.action_description AuditEntry.permission_level AuditEntry.user_approved
       AuditEntry.status AuditEntry.result AuditEntry.metadata].
  assert (Hk : unique ["timestamp"; "action_type"; "action_description"; "permission_level";
                       "user_approved"; "status"; "result"; "metadata"] = true) by reflexivity.
  cbn [unique existsb] in Hk. rewrite Hk. cbn [andb].
  destruct ua as [[]|]; destruct re; destruct me; cbn [AuditEntry.of_option_bool AuditEntry.of_option_str is_plain andb]; try reflexivity; cbn [is_plain] in H; rewrite ?H; reflexivity.
Qed.

(** A line that stays on one line and its terminator are read as one
    line. *)
Lemma readlines_line (t more : string) :
  inline t = true ->
  readlines (t ++ newline ++ more) = (t ++ newline) :: readlines more.
Proof.
  induction t as [|c t IH]; intros H; [reflexivity|].
  cbn [inline] in H. apply andb_true_iff in H. destruct H as [Hc Ht].
  unfold inline_char in Hc. apply negb_true_iff, orb_false_iff in Hc.
  destruct Hc as [Hl Hr].
  cbn [String.append readlines]. rewrite Hl, Hr, (IH Ht). reflexivity.
Qed.

Lemma rstrip_closing (body : string) (c : ascii) :
  PyStr.isspace c = false ->
  PyStr.rstrip (body ++ String c newline) = body ++ String c "" /\
  PyStr.rstrip (body ++ String c "") = body ++ String c "".
Proof.
  intros Hc. induction body as [|a body [IH1 IH2]].
  - cbn. rewrite Hc. split; reflexivity.
  - cbn [String.append PyStr.rstrip]. rewrite IH1, IH2.
    destruct body; split; reflexivity.
Qed.

(** The line written for an entry, stripped, is the text of the entry. *)
Lemma strip_line_of (e : AuditEntry.t) :
  PyStr.strip (Gate.line_of e) = AuditEntry.to_json e /\
  PyStr.truthy (AuditEntry.to_json e) = true.
Proof.
  unfold Gate.line_of, AuditEntry.to_json, AuditEntry.asdict. cbn [dumps].
  set (body := PyStr.join ", " _).
  split; [|reflexivity].
  unfold PyStr.strip.
  change (("{" ++ body ++ "}") ++ newline) with (String "{" ((body ++ "}") ++ newline)).
  cbn [PyStr.lstrip]. change (PyStr.isspace "{") with false. cbv iota.
  change (String "{" ((body ++ "}") ++ newline)) with (("{" ++ body ++ "}") ++ newline).
  replace (("{" ++ body ++ "}") ++ newline) with (("{" ++ body) ++ String "}" newline).
  - replace ("{" ++ body ++ "}") with (("{" ++ body) ++ String "}" "") by reflexivity.
    apply rstrip_closing. reflexivity.
  - cbn [String.append]. f_equal. induction body as [|a body IH]; [reflexivity|].
    cbn [String.append]. rewrite IH. reflexivity.
Qed.

(** An entry with plain fields is held by the line written for it. *)
Lemma line_of_holds (e : AuditEntry.t) :
  plain_entry e -> holds (Gate.line_of e) e.
Proof.
  intros Hp. destruct (strip_line_of e) as [Hs Ht]. unfold holds.
  rewrite Hs. split; [exact Ht | apply from_json_to_json, Hp].
Qed.

Lemma append_assoc (a b c : string) : (a ++ b) ++ c = a ++ (b ++ c).
Proof. induction a as [|x a IH]; [reflexivity|]. cbn. rewrite IH. reflexivity. Qed.

Lemma append_empty_r (a : string) : a ++ "" = a.
Proof. induction a as [|x a IH]; [reflexivity|]. cbn. rewrite IH. reflexivity. Qed.

Lemma write_all_text (text : string) (es : list AuditEntry.t) :
  Gate.write_all (Some text) es = Some (text ++ lines_text es).
Proof.
  revert text. induction es as [|e es IH]; intros text.
  - cbn. rewrite append_empty_r. reflexivity.
  - cbn [Gate.write_all fold_left append_text lines_text].
    change (fold_left _ es ?x) with (Gate.write_all x es).
    rewrite IH, append_assoc. reflexivity.
Qed.

Lemma readlines_lines_text (es : list AuditEntry.t) :
  Forall plain_entry es ->
  readlines (lines_text es) = map Gate.line_of es.
Proof.
  induction 1 as [|e es He _ IH]; [reflexivity|].
  cbn [lines_text map]. unfold Gate.line_of at 1. rewrite append_assoc.
  rewrite readlines_line, IH; [reflexivity|].
  apply inline_dumps, He.
Qed.

Lemma lines_hold (es : list AuditEntry.t) :
  Forall plain_entry es ->
  Forall2 holds (map Gate.line_of es) es.
Proof.
  induction 1 as [|e es He _ IH]; constructor; [apply line_of_holds, He | exact IH].
Qed.

(** Entries with plain fields, logged to an empty trail: for a limit of one
    or more, [get_recent] returns the last [limit] of them, the last one
    logged first. *)
Lemma get_recent_of_logged (es : list AuditEntry.t) (limit : Z) :
  Forall plain_entry es ->
  (0 < limit)%Z ->
  get_recent (Gate.write_all (Some "") es) limit =
  Return (rev (skipn (List.length es - Z.to_nat limit) es)).
Proof.
  intros Hp Hpos. rewrite write_all_text. cbn [String.append].
  apply TrailFacts.get_recent_of_held; [|exact Hpos].
  rewrite readlines_lines_text by exact Hp. apply lines_hold, Hp.
Qed.

(** Any hundred and fifty entries with plain fields are logged to an empty
    trail: [get_recent] with limit 100 returns exactly the last hundred,
    the last one logged first. *)
Lemma recent_hundred_of_hundred_fifty_logged (es : list AuditEntry.t) :
  Forall plain_entry es ->
  List.length es = 150%nat ->
  get_recent (Gate.write_all (Some "") es) 100 = Return (rev (skipn 50 es)) /\
  List.length (rev (skipn 50 es)) = 100%nat.
Proof.
  intros Hp Hlen. split.
  - rewrite get_recent_of_logged by (exact Hp || lia). rewrite Hlen. reflexivity.
  - rewrite length_rev, length_skipn. lia.
Qed.

Lemma readlines_lines_text_app (es : list AuditEntry.t) (more : string) :
  Forall plain_entry es ->
  readlines (lines_text es ++ more) = (map Gate.line_of es ++ readlines more)%list.
Proof.
  induction 1 as [|e es He _ IH]; [reflexivity|].
  cbn [lines_text map app]. unfold Gate.line_of at 1. rewrite !append_assoc.
  rewrite readlines_line, IH; [reflexivity|].
  apply inline_dumps, He.
Qed.

(** For the limit zero [get_recent] returns every entry that was logged. *)
Lemma get_recent_zero_of_logged (es : list AuditEntry.t) :
  Forall plain_entry es ->
  get_recent (Gate.write_all (Some "") es) 0 = Return (rev es).
Proof.
  intros Hp. rewrite write_all_text. cbn [String.append].
  rewrite get_recent_zero, readlines_lines_text by exact Hp.
  apply (collect_held _ _ []), Forall2_rev, lines_hold, Hp.
Qed.

Lemma collect_misshapen (line : string) (rest : list string) (acc : list AuditEntry.t) :
  misshapen line -> collect (line :: rest) acc = Raise TypeError.
Proof. intros [Ht Hj]. cbn [collect]. rewrite Ht, Hj. reflexivity. Qed.

Lemma slice_from_last {A : Type} (l : list A) (x : A) (limit : Z) :
  (0 < limit)%Z ->
  exists l', slice_from (l ++ [x]) (- limit) = (l' ++ [x])%list.
Proof.
  intros H. unfold slice_from.
  destruct (- limit <? 0)%Z eqn:E; [|apply Z.ltb_ge in E; lia].
  rewrite length_app. cbn [List.length].
  set (k := Z.to_nat (Z.max 0 (Z.of_nat (List.length l + 1) + - limit))).
  assert (Hk : (k <= List.length l)%nat) by (unfold k; lia).
  exists (skipn k l). rewrite skipn_app.
  replace (k - List.length l)%nat with 0%nat by lia. reflexivity.
Qed.

(** Entries are logged and then one misshapen line is written: for a limit
    of one or more [get_recent] reads that line first and fails. *)
Lemma get_recent_fails_on_misshapen_line (es : list AuditEntry.t) (t : string) (limit : Z) :
  Forall plain_entry es ->
  inline t = true ->
  misshapen (t ++ newline) ->
  (0 < limit)%Z ->
  get_recent (append_text (Gate.write_all (Some "") es) (t ++ newline)) limit =
  Raise TypeError.
Proof.
  intros Hp Ht Hm Hpos. rewrite write_all_text. cbn [String.append append_text get_recent].
  rewrite readlines_lines_text_app by exact Hp.
  pose proof (readlines_line t "" Ht) as Hl. cbn [readlines] in Hl.
  change (newline ++ "") with newline in Hl.
  rewrite Hl.
  destruct (slice_from_last (map Gate.line_of es) (t ++ newline) limit Hpos) as (l' & ->).
  rewrite rev_app_distr. cbn [rev app]. apply collect_misshapen, Hm.
Qed.

End TrailFacts.

Section TrailProperties.

Import AuditLogger Trail TrailFacts.

(** The entries [Action 0] to [Action 149] are logged by [log_action]:
    the hundred most recent come back, the last one logged first. *)
Example recent_hundred_of_hundred_fifty :
  let entries := fst (Sample.log_actions 150 0 (Sample.world [])) in
  let w := snd (Sample.log_actions 150 0 (Sample.world [])) in
  get_recent (log_file w) 100 = Return (rev (skipn 50 entries)) /\
  List.length (rev (skipn 50 entries)) = 100%nat.
Proof. vm_compute. split; reflexivity. Qed.

(** C7.  The limit of [get_recent] is documented as the greatest number of
    entries to return, and for a limit of zero the code returns every
    entry of the trail: five entries are logged to an empty trail, and
    [get_recent] with limit 0 returns all five, the last one logged
    first. *)
Theorem get_recent_zero_returns_every_entry :
  let entries := fst (Sample.log_actions 5 0 (Sample.world [])) in
  let w := snd (Sample.log_actions 5 0 (Sample.world [])) in
  get_recent (log_file w) 0 = Return (rev entries) /\
  List.length (rev entries) = 5%nat.
Proof. vm_compute. split; reflexivity. Qed.

(** A line cut short at the end of the trail is passed over: the entry
    before it is still read. *)
Example truncated_line_is_passed_over :
  let f := append_text (log_file Sample.one_denied) Sample.truncated_line in
  passed_over Sample.truncated_line /\
  exists e, get_recent f 10 = Return [e] /\
            get_by_date f "2026-11-03" = Return [e] /\
            get_by_action_type f ActionType.EXECUTE 10 = Return [e] /\
            get_denied_actions f 10 = Return [e].
Proof.
  split; [right; vm_compute; reflexivity|].
  eexists. vm_compute. repeat split.
Qed.

(** C8.  The readers pass over a line only when [json] cannot decode it.
    A trail holds one entry and then a line that is well-formed JSON but
    not a record, an object with a timestamp and nothing else: reading
    that line raises [TypeError], which no reader catches, and each of
    the four readers fails instead of returning the entry before it. *)
Theorem record_of_wrong_shape_fails_every_reader :
  let f := append_text (log_file Sample.one_denied) Sample.foreign_line in
  AuditEntry.from_json (PyStr.strip Sample.foreign_line) = Raise TypeError /\
  get_recent f 10 = Raise TypeError /\
  get_by_date f "2026-11-03" = Raise TypeError /\
  get_by_action_type f ActionType.EXECUTE 10 = Raise TypeError /\
  get_denied_actions f 10 = Raise TypeError.
Proof. vm_compute. repeat split. Qed.

End TrailProperties.

(** ** More about the gate *)

Section PolicyProperties.

Import PermissionManager Gate GateFacts TextFacts Policy.

Lemma asks_run (m : t) (w : World) (a : ActionRequest.t) (d : bool) :
  asks m a d = true ->
  check_permission a d (m, w) =
  _request_approval a d (m, logged w (pending_entry w a)).
Proof.
  unfold asks. intros H.
  repeat (apply andb_true_iff in H; destruct H as [H ?]).
  rewrite check_permission_run. cbv zeta.
  apply negb_true_iff in H, H0, H1, H2, H3.
  rewrite H, H3, H2, H1, H0. reflexivity.
Qed.

(** The answer of a check depends on the world through the waiting input
    only. *)
Lemma answer_of_stdin (m : t) (w w' : World) (a : ActionRequest.t) (d : bool) :
  stdin w = stdin w' ->
  fst (check_permission a d (m, w)) = fst (check_permission a d (m, w')).
Proof.
  intros Hin. rewrite !check_permission_run. cbv zeta.
  destruct (_is_blacklisted m a); [reflexivity|].
  destruct (_is_auto_approved m a); [reflexivity|].
  destruct (PermissionLevel.eqb _ PermissionLevel.READ); [reflexivity|].
  destruct (_ || d); [reflexivity|].
  rewrite !request_approval_run.
  destruct (_approval_callback m) as [callback|]; [reflexivity|].
  rewrite !cli_approval_run. cbv zeta.
  assert (Hr : response_of (logged w (pending_entry w a)) =
               response_of (logged w' (pending_entry w' a))).
  { unfold response_of. cbn [logged stdin]. rewrite Hin. reflexivity. }
  rewrite Hr.
  destruct (String.eqb _ "never"); reflexivity.
Qed.

Lemma answer_of_lists (m m' : t) (w : World) (a : ActionRequest.t) (d : bool) :
  blacklist m = blacklist m' ->
  auto_approve m = auto_approve m' ->
  _approval_callback m = _approval_callback m' ->
  fst (check_permission a d (m, w)) = fst (check_permission a d (m', w)).
Proof.
  intros Hb Ha Hc. rewrite !check_permission_run. cbv zeta.
  unfold _is_blacklisted, _is_auto_approved. rewrite Hb, Ha.
  destruct (blacklisted_by _ a); [reflexivity|].
  destruct (approved_by _ a); [reflexivity|].
  destruct (PermissionLevel.eqb _ PermissionLevel.READ); [reflexivity|].
  destruct (_ || d); [reflexivity|].
  rewrite !request_approval_run, Hc.
  destruct (_approval_callback m') as [callback|]; [reflexivity|].
  rewrite !cli_approval_run. cbv zeta.
  destruct (String.eqb _ "never"); reflexivity.
Qed.

(** X1.  [add_to_whitelist] changes neither the deny-list nor the auto-
    approve list, and it changes no answer of [check_permission]: a
    request checked after a pattern was whitelisted gets the result it
    would have got without it. *)
Theorem whitelisting_changes_no_answer
    (s : state) (pattern : string) (level : PermissionLevel.t)
    (a : ActionRequest.t) (dry_run : bool) :
  let s' := snd (add_to_whitelist pattern level s) in
  blacklist (fst s') = blacklist (fst s) /\
  auto_approve (fst s') = auto_approve (fst s) /\
  fst (check_permission a dry_run s') = fst (check_permission a dry_run s).
Proof.
  destruct s as [m w]. cbv zeta. rewrite add_to_whitelist_run. cbn [fst snd].
  split; [reflexivity|]. split; [reflexivity|].
  rewrite (answer_of_lists (with_whitelist m _) m) by reflexivity.
  apply answer_of_stdin. reflexivity.
Qed.


(** X2.  Once [set_approval_callback] has registered a callback, a
    request that is put to the user is decided by the callback alone: it
    is called once, with the description and the preview, success is its
    answer and the status is [approved] or [denied]; the terminal is
    neither written nor read, the manager stays as it is, and the log
    gets the pending entry and then the verdict entry that holds the
    preview. *)
Theorem callback_decides
    (m : t) (w : World) (a : ActionRequest.t) (callback : string -> string -> bool) :
  asks m a false = true ->
  let s1 := snd (set_approval_callback callback (m, w)) in
  let run := check_permission a false s1 in
  let preview := _generate_preview a in
  let approved := callback (ActionRequest.description a) preview in
  let w1 := logged w (pending_entry w a) in
  ActionResult.success (fst run) = approved /\
  ActionResult.status (fst run) = (if approved then "approved" else "denied") /\
  fst (snd run) = fst s1 /\
  stdin (snd (snd run)) = stdin w /\
  stdout (snd (snd run)) = stdout w /\
  callback_calls (snd (snd run)) =
    (callback_calls w ++ [(ActionRequest.description a, preview)])%list /\
  log_file (snd (snd run)) =
    write_all (log_file w)
      [pending_entry w a;
       verdict_entry (called w1 a) "User" a approved (Some [("preview", Json.Str preview)])].
Proof.
  intros Hasks. cbv zeta.
  unfold set_approval_callback, modify. cbn [fst snd].
  set (m1 := {| whitelist := whitelist m; blacklist := blacklist m;
                auto_approve := auto_approve m; _approval_callback := Some callback |}).
  assert (Hasks1 : asks m1 a false = true) by exact Hasks.
  rewrite (asks_run _ _ _ _ Hasks1), request_approval_run.
  cbn [m1 _approval_callback]. cbv zeta.
  cbn [fst snd]. unfold verdict. cbn [ActionResult.success ActionResult.status].
  split; [reflexivity|].
  split; [destruct (callback _ _); reflexivity|].
  repeat split; reflexivity.
Qed.

(** X3.  With no callback registered, a request that is put to the user
    succeeds exactly when the next line of input, stripped and in lower
    case, is [y] or [yes]; at the end of input it is denied.  The prompt
    writes its banner, reads one line and calls no callback. *)
Theorem cli_grants_only_on_yes (m : t) (w : World) (a : ActionRequest.t) :
  _approval_callback m = None ->
  asks m a false = true ->
  let run := check_permission a false (m, w) in
  (ActionResult.success (fst run) = true <->
   response_of w = "y" \/ response_of w = "yes") /\
  (stdin w = [] ->
   ActionResult.success (fst run) = false /\ ActionResult.status (fst run) = "denied") /\
  stdin (snd (snd run)) = tl (stdin w) /\
  stdout (snd (snd run)) = (stdout w ++ banner a)%list /\
  callback_calls (snd (snd run)) = callback_calls w.
Proof.
  intros Hcb Hasks. cbv zeta.
  rewrite (asks_run _ _ _ _ Hasks), request_approval_run, Hcb, cli_approval_run. cbv zeta.
  change (response_of (logged w (pending_entry w a))) with (response_of w).
  destruct (String.eqb (response_of w) "never") eqn:En.
  - apply String.eqb_eq in En. rewrite add_to_blacklist_run.
    split; [|split].
    + cbn [fst blacklisted_result ActionResult.success]. rewrite En.
      split; [discriminate | intros [H | H]; discriminate H].
    + intros Hin. unfold response_of in En. rewrite Hin in En. discriminate En.
    + destruct (mem _ _); repeat split; reflexivity.
  - cbn [fst snd verdict ActionResult.success ActionResult.status].
    split; [|split; [|repeat split; reflexivity]].
    + rewrite orb_true_iff, !String.eqb_eq. reflexivity.
    + intros Hin. unfold response_of. rewrite Hin. split; reflexivity.
Qed.

Lemma blacklisted_by_app (l l' : list string) (a : ActionRequest.t) :
  blacklisted_by l a = true -> blacklisted_by (l ++ l') a = true.
Proof.
  induction l as [|p l IH]; [discriminate|].
  cbn [blacklisted_by app].
  destruct (ActionRequest.matches_pattern a p); [reflexivity|].
  destruct (match ActionRequest.target a with Some _ => _ | None => _ end); [reflexivity|].
  destruct (PyStr.contains _ _); [reflexivity | exact IH].
Qed.

(** X4.  A check never changes the auto-approve list, the whitelist or
    the callback; the deny-list stays as it is or, with the status
    [BLACKLISTED], gets the action type appended.  Every request the
    deny-list caught before a check is caught after it. *)
Theorem check_never_weakens_policy (s : state) (a : ActionRequest.t) (dry_run : bool) :
  let run := check_permission a dry_run s in
  let m := fst s in
  let m' := fst (snd run) in
  auto_approve m' = auto_approve m /\
  whitelist m' = whitelist m /\
  _approval_callback m' = _approval_callback m /\
  (blacklist m' = blacklist m \/
   ActionResult.status (fst run) = "BLACKLISTED" /\
   blacklist m' = (blacklist m ++ [ActionRequest.action_type a])%list) /\
  forall a' : ActionRequest.t,
    _is_blacklisted m a' = true -> _is_blacklisted m' a' = true.
Proof.
  destruct s as [m w]. cbv zeta. cbn [fst].
  assert (Hsame : forall r w', 
    let run := (r, (m, w')) : ActionResult.t * state in
    auto_approve (fst (snd run)) = auto_approve m /\
    whitelist (fst (snd run)) = whitelist m /\
    _approval_callback (fst (snd run)) = _approval_callback m /\
    (blacklist (fst (snd run)) = blacklist m \/
     ActionResult.status (fst run) = "BLACKLISTED" /\
     blacklist (fst (snd run)) = (blacklist m ++ [ActionRequest.action_type a])%list) /\
    forall a' : ActionRequest.t,
      _is_blacklisted m a' = true -> _is_blacklisted (fst (snd run)) a' = true).
  { intros r w'. cbv zeta. cbn [fst snd]. repeat split; auto. }
  rewrite check_permission_run. cbv zeta.
  destruct (_is_blacklisted m a); [apply Hsame|].
  destruct (_is_auto_approved m a); [apply Hsame|].
  destruct (PermissionLevel.eqb _ PermissionLevel.READ); [apply Hsame|].
  destruct (_ || dry_run); [apply Hsame|].
  rewrite request_approval_run.
  destruct (_approval_callback m) as [callback|] eqn:Hcb.
  { cbv zeta. apply Hsame. }
  rewrite cli_approval_run. cbv zeta.
  destruct (String.eqb _ "never"); [|apply Hsame].
  rewrite add_to_blacklist_run.
  destruct (mem _ _); [apply Hsame|].
  cbn [fst snd with_blacklist auto_approve whitelist _approval_callback blacklist].
  split; [reflexivity|]. split; [reflexivity|]. split; [exact Hcb|].
  split; [right; split; reflexivity|].
  intros a' H. unfold _is_blacklisted in *. cbn [blacklist].
  apply blacklisted_by_app, H.
Qed.

(** X5.  Every answer of [check_permission] has one of six statuses, and
    its success is true exactly when the status is [APPROVED], [DRY_RUN]
    or [approved]; a message is always set and data never. *)
Theorem success_matches_status (s : state) (a : ActionRequest.t) (dry_run : bool) :
  let r := fst (check_permission a dry_run s) in
  In (ActionResult.status r) statuses /\
  (ActionResult.success r = true <-> In (ActionResult.status r) granting) /\
  ActionResult.message r <> None /\
  ActionResult.data r = None.
Proof.
  destruct s as [m w]. cbv zeta.
  assert (Hno : forall x : string, In x granting -> x = "APPROVED" \/ x = "DRY_RUN" \/ x = "approved").
  { intros x [H | [H | [H | []]]]; auto. }
  rewrite check_permission_run. cbv zeta.
  destruct (_is_blacklisted m a).
  { cbn [fst ActionResult.status ActionResult.success ActionResult.message ActionResult.data].
    split; [left; reflexivity|]. split; [|split; [discriminate | reflexivity]].
    split; [discriminate|]. intros H. apply Hno in H. destruct H as [H | [H | H]]; discriminate H. }
  destruct (_is_auto_approved m a).
  { cbn [fst ActionResult.status ActionResult.success ActionResult.message ActionResult.data].
    split; [right; left; reflexivity|]. split; [|split; [discriminate | reflexivity]].
    split; [intros _; left; reflexivity | reflexivity]. }
  destruct (PermissionLevel.eqb _ PermissionLevel.READ).
  { cbn [fst ActionResult.status ActionResult.success ActionResult.message ActionResult.data].
    split; [right; left; reflexivity|]. split; [|split; [discriminate | reflexivity]].
    split; [intros _; left; reflexivity | reflexivity]. }
  destruct (_ || dry_run).
  { cbn [fst ActionResult.status ActionResult.success ActionResult.message ActionResult.data].
    split; [right; right; left; reflexivity|]. split; [|split; [discriminate | reflexivity]].
    split; [intros _; right; left; reflexivity | reflexivity]. }
  rewrite request_approval_run.
  assert (Hv : forall approved yes no w',
    let r := fst (verdict approved dry_run yes no, (m, w') : state) in
    In (ActionResult.status r) statuses /\
    (ActionResult.success r = true <-> In (ActionResult.status r) granting) /\
    ActionResult.message r <> None /\ ActionResult.data r = None).
  { intros approved yes no w'. cbv zeta.
    cbn [fst verdict ActionResult.status ActionResult.success ActionResult.message
         ActionResult.data].
    destruct approved; cbn [ActionStatus.value].
    - split; [do 4 right; left; reflexivity|]. split; [|split; [discriminate | reflexivity]].
      split; [intros _; right; right; left; reflexivity | reflexivity].
    - split; [do 5 right; left; reflexivity|]. split; [|split; [discriminate | reflexivity]].
      split; [discriminate|]. intros H. apply Hno in H.
      destruct H as [H | [H | H]]; discriminate H. }
  destruct (_approval_callback m) as [callback|]; [apply Hv|].
  rewrite cli_approval_run. cbv zeta.
  destruct (String.eqb _ "never"); [|apply Hv].
  cbn [fst blacklisted_result ActionResult.status ActionResult.success ActionResult.message
       ActionResult.data].
  split; [do 3 right; left; reflexivity|]. split; [|split; [discriminate | reflexivity]].
  split; [discriminate|]. intros H. apply Hno in H.
  destruct H as [H | [H | H]]; discriminate H.
Qed.

(** X6.  A request that neither list catches and that is at [READ] or
    [SUGGEST], or is checked as a dry run, succeeds; the check leaves
    the manager and the terminal as they are, calls no callback and logs
    the pending entry only: no entry records the approval.  At [READ]
    the status is [APPROVED] and the dry-run flag is the caller's. *)
Theorem shortcuts_log_no_verdict (s : state) (a : ActionRequest.t) (dry_run : bool) :
  _is_blacklisted (fst s) a = false ->
  _is_auto_approved (fst s) a = false ->
  ActionRequest.required_level a = PermissionLevel.READ \/
  ActionRequest.required_level a = PermissionLevel.SUGGEST \/ dry_run = true ->
  let run := check_permission a dry_run s in
  ActionResult.success (fst run) = true /\
  (ActionRequest.required_level a = PermissionLevel.READ ->
   ActionResult.status (fst run) = "APPROVED" /\ ActionResult.dry_run (fst run) = dry_run) /\
  snd run = (fst s, logged (snd s) (pending_entry (snd s) a)) /\
  log_file (snd (snd run)) = write_all (log_file (snd s)) [pending_entry (snd s) a] /\
  interaction (snd (snd run)) = interaction (snd s).
Proof.
  destruct s as [m w]. cbn [fst snd]. intros Hdeny Hallow Hlevel. cbv zeta.
  rewrite check_permission_run. cbv zeta. rewrite Hdeny, Hallow.
  destruct (PermissionLevel.eqb _ PermissionLevel.READ) eqn:E.
  { repeat split; reflexivity. }
  assert (Hb : PermissionLevel.eqb (ActionRequest.required_level a) PermissionLevel.SUGGEST
               || dry_run = true).
  { destruct Hlevel as [H | [H | H]].
    - rewrite H in E. discriminate E.
    - rewrite H. reflexivity.
    - rewrite H. apply orb_true_r. }
  rewrite Hb. cbn [fst snd].
  split; [reflexivity|]. split; [|repeat split; reflexivity].
  intros H. rewrite H in E. discriminate E.
Qed.

Lemma remove_first_app_self (pattern : string) (l : list string) :
  ~ In pattern l -> remove_first pattern (l ++ [pattern]) = l.
Proof.
  induction l as [|y l IH]; intros Hn.
  - cbn. rewrite String.eqb_refl. reflexivity.
  - cbn [app remove_first].
    destruct (String.eqb y pattern) eqn:E.
    + apply String.eqb_eq in E. exfalso. apply Hn. left. exact E.
    + rewrite IH; [reflexivity|]. intros H. apply Hn. right. exact H.
Qed.

(** X7.  Adding a pattern that the deny-list does not hold and then
    removing it returns [True] and gives back the manager as it was; the
    log has gained the entry of the addition and the entry of the
    removal. *)
Theorem add_then_remove_restores (s : state) (pattern : string) :
  ~ In pattern (blacklist (fst s)) ->
  let s1 := snd (add_to_blacklist pattern s) in
  let run := remove_from_blacklist pattern s1 in
  let e1 := policy_entry (snd s) ("Added to blacklist: " ++ pattern) 5 in
  let e2 := policy_entry (snd s1) ("Removed from blacklist: " ++ pattern) 5 in
  fst run = true /\
  fst (snd run) = fst s /\
  log_file (snd (snd run)) = write_all (log_file (snd s)) [e1; e2].
Proof.
  destruct s as [m w]. cbn [fst snd]. intros Hn. cbv zeta.
  assert (Hm : mem pattern (blacklist m) = false).
  { destruct (mem pattern (blacklist m)) eqn:E; [|reflexivity].
    apply mem_iff in E. contradiction. }
  rewrite add_to_blacklist_run, Hm. cbn [snd].
  rewrite remove_from_blacklist_run. cbn [with_blacklist blacklist].
  rewrite mem_app_self. cbn [fst snd blacklist].
  rewrite (remove_first_app_self _ _ Hn).
  split; [reflexivity|]. split; [destruct m; reflexivity | reflexivity].
Qed.

Lemma remove_first_in (x y : string) (l : list string) :
  In y (remove_first x l) -> In y l.
Proof.
  induction l as [|z l IH]; [intros []|].
  cbn [remove_first]. destruct (String.eqb z x).
  - intros H. right. exact H.
  - intros [H | H]; [left; exact H | right; apply IH, H].
Qed.

Lemma remove_first_NoDup (x : string) (l : list string) :
  NoDup l -> NoDup (remove_first x l) /\ ~ In x (remove_first x l).
Proof.
  induction 1 as [|z l Hz Hl [IH1 IH2]].
  - split; [constructor | intros []].
  - cbn [remove_first]. destruct (String.eqb z x) eqn:E.
    + apply String.eqb_eq in E. subst z. split; assumption.
    + split.
      * constructor; [|exact IH1]. intros H. apply Hz. apply (remove_first_in x), H.
      * intros [H | H]; [|exact (IH2 H)].
        apply String.eqb_neq in E. contradiction.
Qed.

(** X8.  A deny-list that holds no pattern twice holds none twice after
    [check_permission], [add_to_blacklist], [add_to_whitelist] and
    [remove_from_blacklist], and after [remove_from_blacklist] the
    pattern removed is no longer on it. *)
Theorem deny_list_stays_duplicate_free
    (s : state) (a : ActionRequest.t) (dry_run : bool)
    (pattern : string) (level : PermissionLevel.t) :
  NoDup (blacklist (fst s)) ->
  NoDup (blacklist (fst (snd (check_permission a dry_run s)))) /\
  NoDup (blacklist (fst (snd (add_to_blacklist pattern s)))) /\
  NoDup (blacklist (fst (snd (add_to_whitelist pattern level s)))) /\
  NoDup (blacklist (fst (snd (remove_from_blacklist pattern s)))) /\
  ~ In pattern (blacklist (fst (snd (remove_from_blacklist pattern s)))).
Proof.
  destruct s as [m w]. cbn [fst]. intros Hnd.
  assert (Hadd : forall p w', NoDup (blacklist (fst (snd (add_to_blacklist p (m, w')))))).
  { intros p w'. rewrite add_to_blacklist_run.
    destruct (mem p (blacklist m)) eqn:E; [exact Hnd|].
    cbn [fst snd with_blacklist blacklist].
    apply NoDup_app; [exact Hnd | constructor; [intros [] | constructor] |].
    intros x Hx [<- | []].
    assert (H : mem p (blacklist m) = true) by (apply mem_iff, Hx).
    rewrite H in E. discriminate E. }
  split; [|split; [apply Hadd | split]].
  - rewrite check_permission_run. cbv zeta.
    destruct (_is_blacklisted m a); [exact Hnd|].
    destruct (_is_auto_approved m a); [exact Hnd|].
    destruct (PermissionLevel.eqb _ PermissionLevel.READ); [exact Hnd|].
    destruct (_ || dry_run); [exact Hnd|].
    rewrite request_approval_run.
    destruct (_approval_callback m) as [callback|]; [exact Hnd|].
    rewrite cli_approval_run. cbv zeta.
    destruct (String.eqb _ "never"); [|exact Hnd].
    cbn [snd]. apply Hadd.
  - rewrite add_to_whitelist_run. exact Hnd.
  - rewrite remove_from_blacklist_run.
    destruct (mem pattern (blacklist m)) eqn:E; cbn [fst snd with_blacklist blacklist].
    + apply remove_first_NoDup, Hnd.
    + split; [exact Hnd|]. intros H. apply mem_iff in H. rewrite H in E. discriminate E.
Qed.

Lemma blacklisted_by_caught (l : list string) (a : ActionRequest.t) (pattern : string) :
  In pattern l -> caught_by pattern a -> blacklisted_by l a = true.
Proof.
  induction l as [|p l IH]; [intros []|].
  intros [-> | Hin] Hc; apply caught_by_one.
  - left. exact Hc.
  - right. apply IH; assumption.
Qed.

Lemma blacklisted_by_iff (l : list string) (a : ActionRequest.t) :
  blacklisted_by l a = true <-> exists pattern, In pattern l /\ caught_by pattern a.
Proof.
  split.
  - induction l as [|p l IH]; [discriminate|].
    intros H. apply caught_by_one in H. destruct H as [H | H].
    + exists p. split; [left; reflexivity | exact H].
    + destruct (IH H) as (pattern & Hin & Hc). exists pattern. split; [right; exact Hin | exact Hc].
  - intros (pattern & Hin & Hc). apply (blacklisted_by_caught _ _ _ Hin Hc).
Qed.

Lemma matches_only_star (n : list ascii) : Fnmatch.matches [Fnmatch.Star] n = true.
Proof.
  induction n as [|c n IH]; [reflexivity|].
  rewrite matches_star. rewrite IH. apply orb_true_r.
Qed.

Lemma fnmatch_star (name : string) : Fnmatch.fnmatch name "*" = true.
Proof. unfold Fnmatch.fnmatch. apply matches_only_star. Qed.

(** X9.  After [add_to_blacklist] of the empty pattern every request is
    denied, for every description contains the empty text; after
    [add_to_blacklist] of the lone star every request is denied as well,
    for the star matches every action type. *)
Theorem catch_all_patterns_deny_everything
    (s : state) (a : ActionRequest.t) (dry_run : bool) :
  (let s1 := snd (add_to_blacklist "" s) in
   let r := fst (check_permission a dry_run s1) in
   ActionResult.success r = false /\ ActionResult.status r = "DENIED") /\
  (let s1 := snd (add_to_blacklist "*" s) in
   let r := fst (check_permission a dry_run s1) in
   ActionResult.success r = false /\ ActionResult.status r = "DENIED").
Proof.
  destruct s as [m w].
  assert (Hin : forall p, In p (blacklist (fst (snd (add_to_blacklist p (m, w)))))).
  { intros p. rewrite add_to_blacklist_run.
    destruct (mem p (blacklist m)) eqn:E; cbn [fst snd with_blacklist blacklist].
    - apply mem_iff, E.
    - apply in_or_app. right. left. reflexivity. }
  split; cbv zeta.
  - destruct (snd (add_to_blacklist "" (m, w))) as [m1 w1] eqn:E1.
    rewrite blacklisted_is_denied; [split; reflexivity|].
    apply (blacklisted_by_caught _ _ "").
    + specialize (Hin ""). rewrite E1 in Hin. exact Hin.
    + right. right. exists "", (PyStr.lower (ActionRequest.description a)). reflexivity.
  - destruct (snd (add_to_blacklist "*" (m, w))) as [m1 w1] eqn:E1.
    rewrite blacklisted_is_denied; [split; reflexivity|].
    apply (blacklisted_by_true _ _ "*").
    + specialize (Hin "*"). rewrite E1 in Hin. exact Hin.
    + apply fnmatch_star.
Qed.


Lemma item_of_literal (l : list ascii) :
  forallb (fun c => negb (special c)) l = true ->
  map item_of l = map Fnmatch.Lit l /\ ~ In "["%char l.
Proof.
  induction l as [|c l IH]; [intros _; split; [reflexivity | intros []]|].
  cbn [forallb]. intros H. apply andb_true_iff in H. destruct H as [Hc Hl].
  destruct (IH Hl) as [IH1 IH2].
  unfold special in Hc. apply negb_true_iff in Hc.
  apply orb_false_iff in Hc. destruct Hc as [Hc Hb].
  apply orb_false_iff in Hc. destruct Hc as [Hs Hq].
  split.
  - cbn [map]. rewrite IH1. unfold item_of. rewrite Hs, Hq. reflexivity.
  - intros [H | H]; [|exact (IH2 H)]. subst c. discriminate Hb.
Qed.

Lemma matches_lits (l n : list ascii) :
  Fnmatch.matches (map Fnmatch.Lit l) n = true <-> n = l.
Proof.
  revert n. induction l as [|c l IH]; intros n.
  - destruct n; cbn; split; intros H; (reflexivity || discriminate H).
  - destruct n as [|d n]; cbn [map Fnmatch.matches Fnmatch.accepts].
    + split; intros H; discriminate H.
    + rewrite andb_true_iff, IH, Ascii.eqb_eq. split.
      * intros [-> ->]. reflexivity.
      * intros H. injection H as -> ->. split; reflexivity.
Qed.

Lemma matches_lits_star (l n : list ascii) :
  Fnmatch.matches (map Fnmatch.Lit l ++ [Fnmatch.Star]) n =
  PyStr.startswith (string_of_list_ascii n) (string_of_list_ascii l).
Proof.
  revert n. induction l as [|c l IH]; intros n.
  - cbn [map app string_of_list_ascii]. rewrite matches_only_star.
    destruct n; reflexivity.
  - destruct n as [|d n]; cbn [map app Fnmatch.matches Fnmatch.accepts string_of_list_ascii
                                 PyStr.startswith]; [reflexivity|].
    rewrite IH. reflexivity.
Qed.

(** X10.  For a pattern without star, question mark and bracket,
    [matches_pattern] holds exactly when the action type is the pattern,
    letter case included; with a star appended to the pattern, exactly
    when the action type starts with it. *)
Theorem plain_patterns_match_by_text (a : ActionRequest.t) (pattern : string) :
  literal pattern = true ->
  (ActionRequest.matches_pattern a pattern = true <->
   ActionRequest.action_type a = pattern) /\
  ActionRequest.matches_pattern a (pattern ++ "*") =
    PyStr.startswith (ActionRequest.action_type a) pattern.
Proof.
  intros Hl. unfold literal in Hl. destruct (item_of_literal _ Hl) as [Hmap Hfree].
  unfold ActionRequest.matches_pattern, Fnmatch.fnmatch, Fnmatch.translate. split.
  - rewrite translate_bracket_free by (exact Hfree || apply le_n).
    rewrite Hmap, matches_lits. split.
    + intros H. rewrite <- (string_of_list_ascii_of_string (ActionRequest.action_type a)), H.
      apply string_of_list_ascii_of_string.
    + intros ->. reflexivity.
  - rewrite translate_bracket_free.
    + rewrite JsonFacts.la_app, map_app, Hmap. cbn [list_ascii_of_string map].
      change (item_of "*") with Fnmatch.Star.
      rewrite matches_lits_star, !string_of_list_ascii_of_string. reflexivity.
    + rewrite JsonFacts.la_app. intros H. apply in_app_or in H.
      destruct H as [H | [H | []]]; [exact (Hfree H) | discriminate H].
    + apply le_n.
Qed.

End PolicyProperties.

(** *** Cases *)

Section PolicyCases.

Import PermissionManager Gate Policy Reading Trail AuditLogger.

Lemma callback_decides_witness :
  asks Sample.manager Sample.write_file false = true /\
  let s1 := snd (set_approval_callback (fun _ _ => true) (Sample.manager, Sample.world ["no"])) in
  let run := check_permission Sample.write_file false s1 in
  ActionResult.success (fst run) = true /\
  ActionResult.status (fst run) = "approved" /\
  stdin (snd (snd run)) = ["no"].
Proof.
  split; [reflexivity|].
  destruct (callback_decides Sample.manager (Sample.world ["no"]) Sample.write_file
              (fun _ _ => true) eq_refl) as (H1 & H2 & _ & H4 & _).
  split; [exact H1|]. split; [exact H2 | exact H4].
Defined.

Lemma cli_grants_only_on_yes_witness :
  response_of (Sample.world [" YES "; "n"]) = "yes" /\
  ActionResult.success
    (fst (check_permission Sample.write_file false
            (Sample.manager, Sample.world [" YES "; "n"]))) = true.
Proof.
  split; [reflexivity|].
  destruct (cli_grants_only_on_yes Sample.manager (Sample.world [" YES "; "n"])
              Sample.write_file eq_refl eq_refl) as (H1 & _).
  apply H1. right. reflexivity.
Defined.


Lemma shortcuts_log_no_verdict_witness :
  let s := (Sample.manager, Sample.world ["yes"]) in
  let run := check_permission Fixture.list_directory false s in
  _is_auto_approved Sample.manager Fixture.list_directory = false /\
  ActionResult.status (fst run) = "APPROVED" /\
  log_file (snd (snd run)) =
    write_all (Some "") [pending_entry (snd s) Fixture.list_directory] /\
  stdin (snd (snd run)) = ["yes"].
Proof.
  cbv zeta. split; [reflexivity|].
  destruct (shortcuts_log_no_verdict (Sample.manager, Sample.world ["yes"])
              Fixture.list_directory false eq_refl eq_refl (or_introl eq_refl))
    as (_ & H2 & H3 & H4 & _).
  split; [apply (H2 eq_refl)|]. split; [exact H4|].
  rewrite H3. reflexivity.
Defined.

Lemma add_then_remove_restores_witness :
  let s := (Sample.manager, Sample.world []) in
  let s1 := snd (add_to_blacklist "dangerous_action" s) in
  blacklist (fst s1) = (default_blacklist ++ ["dangerous_action"])%list /\
  fst (remove_from_blacklist "dangerous_action" s1) = true /\
  fst (snd (remove_from_blacklist "dangerous_action" s1)) = Sample.manager.
Proof.
  cbv zeta. split; [reflexivity|].
  destruct (add_then_remove_restores (Sample.manager, Sample.world []) "dangerous_action")
    as (H1 & H2 & _).
  - intros [H|[H|[H|[H|[H|[]]]]]]; discriminate H.
  - split; [exact H1 | exact H2].
Defined.

Lemma deny_list_stays_duplicate_free_witness :
  NoDup default_blacklist /\
  ~ In "format_disk"
      (blacklist (fst (snd (remove_from_blacklist "format_disk"
                              (Sample.manager, Sample.world []))))).
Proof.
  assert (H : NoDup default_blacklist) by (apply JsonFacts.unique_NoDup; reflexivity).
  split; [exact H|].
  apply (deny_list_stays_duplicate_free (Sample.manager, Sample.world [])
           Sample.write_file false "format_disk" PermissionLevel.READ H).
Defined.

Lemma plain_patterns_match_by_text_witness :
  literal "write_" = true /\
  ActionRequest.matches_pattern Sample.write_file ("write_" ++ "*") = true /\
  ActionRequest.matches_pattern Sample.write_file "write_" = false.
Proof.
  split; [reflexivity|].
  destruct (plain_patterns_match_by_text Sample.write_file "write_" eq_refl) as [H1 H2].
  split; [rewrite H2; reflexivity|].
  apply not_true_is_false. intros E. apply H1 in E. discriminate E.
Defined.

End PolicyCases.

(** ** UTF-8 text *)

Module Utf8Facts.

Import Utf8.

Lemma single_not_between (lo hi : nat) (c : ascii) :
  single c = true -> (128 <= lo)%nat -> between lo hi c = false.
Proof.
  unfold single, between. intros H Hlo. apply Nat.ltb_lt in H.
  apply andb_false_iff. left. apply Nat.leb_gt. lia.
Qed.

Lemma single_not_continuation (c : ascii) : single c = true -> continuation c = false.
Proof. intros H. apply single_not_between; [exact H | lia]. Qed.

Lemma single_not_three (c1 c : ascii) : single c = true -> three c1 c = false.
Proof.
  intros H. unfold three.
  rewrite (single_not_continuation c H), !(single_not_between _ _ c H) by lia.
  rewrite !andb_false_r. reflexivity.
Qed.

Lemma single_not_four (c1 c : ascii) : single c = true -> four c1 c = false.
Proof.
  intros H. unfold four.
  rewrite (single_not_continuation c H), !(single_not_between _ _ c H) by lia.
  rewrite !andb_false_r. reflexivity.
Qed.

Lemma valid_single (c : ascii) (s : string) : single c = true -> valid (String c s) = valid s.
Proof. intros H. unfold single in H. cbn [valid]. rewrite H. reflexivity. Qed.

Lemma valid_app_fuel (n : nat) (a b : string) :
  (String.length a <= n)%nat -> valid a = true -> valid (a ++ b) = valid b.
Proof.
  revert a. induction n as [|n IH]; intros a Hn Ha.
  - destruct a; [reflexivity | cbn in Hn; lia].
  - destruct a as [|c1 r1]; [reflexivity|].
    cbn [String.append]. cbn [valid] in Ha |- *.
    destruct (PyStr.code c1 <? 128)%nat; [apply IH; [cbn in Hn; lia | exact Ha]|].
    destruct r1 as [|c2 r2]; [discriminate Ha|]. cbn [String.append].
    destruct (between 194 223 c1).
    { apply andb_true_iff in Ha. destruct Ha as [-> Ha]. cbn [andb].
      apply IH; [cbn in Hn; lia | exact Ha]. }
    destruct r2 as [|c3 r3]; [discriminate Ha|]. cbn [String.append].
    destruct (three c1 c2).
    { apply andb_true_iff in Ha. destruct Ha as [-> Ha]. cbn [andb].
      apply IH; [cbn in Hn; lia | exact Ha]. }
    destruct r3 as [|c4 r4]; [discriminate Ha|]. cbn [String.append].
    apply andb_true_iff in Ha. destruct Ha as [Ha1 Ha].
    rewrite Ha1. cbn [andb]. apply IH; [cbn in Hn; lia | exact Ha].
Qed.

Lemma valid_app (a b : string) : valid a = true -> valid (a ++ b) = valid b.
Proof. apply (valid_app_fuel (String.length a)), le_n. Qed.

Lemma valid_before_single_fuel (n : nat) (a : string) (c : ascii) (b : string) :
  (String.length a <= n)%nat -> single c = true ->
  valid (a ++ String c b) = true -> valid a = true.
Proof.
  intros Hn Hc. revert a Hn. induction n as [|n IH]; intros a Hn H.
  - destruct a; [reflexivity | cbn in Hn; lia].
  - destruct a as [|c1 r1]; [reflexivity|].
    cbn [String.append] in H. cbn [valid] in H |- *.
    destruct (PyStr.code c1 <? 128)%nat; [apply IH; [cbn in Hn; lia | exact H]|].
    destruct r1 as [|c2 r2]; cbn [String.append] in H.
    { exfalso. rewrite (single_not_continuation c Hc), (single_not_three c1 c Hc),
                 (single_not_four c1 c Hc) in H.
      destruct (between 194 223 c1); [discriminate H|].
      destruct b as [|c3 r3]; [discriminate H|].
      destruct r3; discriminate H. }
    destruct (between 194 223 c1).
    { apply andb_true_iff in H. destruct H as [-> H]. cbn [andb].
      apply IH; [cbn in Hn; lia | exact H]. }
    destruct r2 as [|c3 r3]; cbn [String.append] in H.
    { exfalso. rewrite (single_not_continuation c Hc) in H.
      destruct (three c1 c2); [discriminate H|].
      destruct b as [|c4 r4]; [discriminate H|].
      rewrite andb_false_r in H. discriminate H. }
    destruct (three c1 c2).
    { apply andb_true_iff in H. destruct H as [-> H]. cbn [andb].
      apply IH; [cbn in Hn; lia | exact H]. }
    destruct r3 as [|c4 r4]; cbn [String.append] in H.
    { exfalso. rewrite (single_not_continuation c Hc), andb_false_r in H. discriminate H. }
    apply andb_true_iff in H. destruct H as [H1 H].
    rewrite H1. cbn [andb]. apply IH; [cbn in Hn; lia | exact H].
Qed.

Lemma valid_before_single (a : string) (c : ascii) (b : string) :
  single c = true -> valid (a ++ String c b) = true -> valid a = true.
Proof. apply (valid_before_single_fuel (String.length a)), le_n. Qed.


Lemma valid_isascii_app (a b : string) : isascii a = true -> valid (a ++ b) = valid b.
Proof.
  induction a as [|c a IH]; [reflexivity|]. cbn [isascii String.append]. intros H.
  apply andb_true_iff in H. destruct H as [Hc H]. rewrite (valid_single _ _ Hc). apply IH, H.
Qed.

Lemma valid_isascii (a : string) : isascii a = true -> valid a = true.
Proof.
  intros H. rewrite <- (TrailFacts.append_empty_r a). rewrite (valid_isascii_app _ _ H). reflexivity.
Qed.

Lemma valid_both (a b : string) : valid a = true -> valid b = true -> valid (a ++ b) = true.
Proof. intros Ha Hb. rewrite (valid_app _ _ Ha). exact Hb. Qed.

Lemma escape_char_single (c : ascii) : single c = true -> isascii (Json.escape_char c) = true.
Proof. destruct c as [[] [] [] [] [] [] [] []]; intros H; try discriminate H; reflexivity. Qed.

Lemma escape_char_other (c : ascii) : single c = false -> Json.escape_char c = String c "".
Proof. destruct c as [[] [] [] [] [] [] [] []]; intros H; try discriminate H; reflexivity. Qed.

Lemma valid_escape_fuel (n : nat) (s : string) :
  (String.length s <= n)%nat -> valid s = true -> valid (Json.escape s) = true.
Proof.
  revert s. induction n as [|n IH]; intros s Hn H.
  - destruct s; [reflexivity | cbn in Hn; lia].
  - destruct s as [|c1 r1]; [reflexivity|].
    cbn [Json.escape]. cbn [valid] in H.
    destruct (PyStr.code c1 <? 128)%nat eqn:E1.
    { rewrite valid_isascii_app by (apply escape_char_single, E1). apply IH; [cbn in Hn; lia | exact H]. }
    rewrite (escape_char_other c1 E1).
    destruct r1 as [|c2 r2]; [discriminate H|].
    assert (E2 : single c2 = false).
    { destruct (single c2) eqn:E; [|reflexivity]. exfalso.
      rewrite (single_not_continuation c2 E), (single_not_three c1 c2 E), (single_not_four c1 c2 E) in H.
      destruct (between 194 223 c1); [discriminate H|].
      destruct r2 as [|c3 r3]; [discriminate H|]. destruct r3; discriminate H. }
    cbn [Json.escape]. rewrite (escape_char_other c2 E2).
    cbn [String.append valid]. rewrite E1.
    destruct (between 194 223 c1).
    { apply andb_true_iff in H. destruct H as [-> H]. cbn [andb].
      apply IH; [cbn in Hn; lia | exact H]. }
    destruct r2 as [|c3 r3]; [discriminate H|].
    assert (E3 : single c3 = false).
    { destruct (single c3) eqn:E; [|reflexivity]. exfalso.
      rewrite (single_not_continuation c3 E) in H.
      destruct (three c1 c2); [discriminate H|].
      destruct r3; [discriminate H|]. rewrite andb_false_r in H. discriminate H. }
    cbn [Json.escape]. rewrite (escape_char_other c3 E3). cbn [String.append].
    destruct (three c1 c2).
    { apply andb_true_iff in H. destruct H as [-> H]. cbn [andb].
      apply IH; [cbn in Hn; lia | exact H]. }
    destruct r3 as [|c4 r4]; [discriminate H|].
    assert (E4 : single c4 = false).
    { destruct (single c4) eqn:E; [|reflexivity]. exfalso.
      rewrite (single_not_continuation c4 E), !andb_false_r in H. discriminate H. }
    cbn [Json.escape]. rewrite (escape_char_other c4 E4). cbn [String.append].
    apply andb_true_iff in H. destruct H as [H1 H].
    rewrite H1. cbn [andb]. apply IH; [cbn in Hn; lia | exact H].
Qed.

Lemma valid_encode_string (s : string) : valid s = true -> valid (Json.encode_string s) = true.
Proof.
  intros H. unfold Json.encode_string.
  rewrite (valid_single Json.dquote) by reflexivity.
  apply valid_both; [apply (valid_escape_fuel (String.length s)), H; apply le_n | reflexivity].
Qed.

Lemma isascii_uint (d : Decimal.uint) : isascii (DecimalString.NilEmpty.string_of_uint d) = true.
Proof. induction d; cbn [DecimalString.NilEmpty.string_of_uint isascii]; rewrite ?IHd; reflexivity. Qed.

Lemma valid_of_int (n : Z) : valid (PyStr.of_int n) = true.
Proof.
  apply valid_isascii.
  unfold PyStr.of_int, DecimalString.NilZero.string_of_int, DecimalString.NilZero.string_of_uint.
  destruct (Z.to_int n) as [d | d]; destruct d; cbn [isascii];
    rewrite ?isascii_uint; reflexivity.
Qed.

Lemma valid_join (sep : string) (parts : list string) :
  valid sep = true -> Forall (fun p => valid p = true) parts ->
  valid (PyStr.join sep parts) = true.
Proof.
  intros Hs H. induction H as [|p parts Hp _ IH]; [reflexivity|].
  destruct parts as [|q parts]; [exact Hp|].
  cbn [PyStr.join] in *. apply valid_both; [exact Hp|]. apply valid_both; [exact Hs | exact IH].
Qed.

(** What [dumps] writes for a value whose strings are text is text. *)
Lemma valid_dumps (v : Json.value) : Reading.text v = true -> valid (Json.dumps v) = true.
Proof.
  induction v as [| [] | n | x | s | items IH | members IH] using JsonFacts.value_ind';
    intros Ht; try reflexivity.
  - apply valid_of_int.
  - exact Ht.
  - apply valid_encode_string, Ht.
  - cbn [Json.dumps]. cbn [String.append]. rewrite (valid_single "[") by reflexivity.
    apply valid_both; [|reflexivity].
    apply valid_join; [reflexivity|].
    cbn [Reading.text] in Ht. rewrite forallb_forall in Ht.
    apply Forall_map. rewrite Forall_forall in *. intros x Hx. apply IH; auto.
  - cbn [Json.dumps]. cbn [String.append]. rewrite (valid_single "{") by reflexivity.
    apply valid_both; [|reflexivity].
    apply valid_join; [reflexivity|].
    cbn [Reading.text] in Ht. rewrite forallb_forall in Ht.
    apply Forall_map. rewrite Forall_forall in *. intros [k x] Hx.
    pose proof (Ht (k, x) Hx) as Hkx. cbn beta iota in Hkx.
    apply andb_true_iff in Hkx. destruct Hkx as [Hk Hx'].
    apply valid_both; [apply valid_encode_string, Hk|].
    rewrite !valid_single by reflexivity. apply (IH (k, x) Hx), Hx'.
Qed.

End Utf8Facts.

(** ** More about the trail *)

Section ReadingProperties.

Import Json JsonFacts AuditLogger Trail TrailFacts Reading.

Lemma readlines_nil (s : string) : readlines s = [] -> s = "".
Proof.
  destruct s as [|c r]; [reflexivity|]. cbn [readlines].
  destruct (Ascii.eqb c LF); [discriminate|].
  destruct (Ascii.eqb c CR).
  - destruct r as [|c2 r2]; [discriminate|]. destruct (Ascii.eqb c2 LF); discriminate.
  - destruct (readlines r); discriminate.
Qed.

Lemma readlines_complete_fuel (n : nat) (body more : string) :
  (String.length body <= n)%nat ->
  readlines ((body ++ newline) ++ more) =
  (readlines (body ++ newline) ++ readlines more)%list.
Proof.
  revert body. induction n as [|n IH]; intros body Hn.
  - destruct body; [reflexivity | cbn in Hn; lia].
  - destruct body as [|c r]; [reflexivity|].
    cbn [String.length] in Hn.
    cbn [String.append readlines].
    destruct (Ascii.eqb c LF).
    { rewrite IH by lia. reflexivity. }
    destruct (Ascii.eqb c CR).
    { destruct r as [|c2 r2].
      - reflexivity.
      - cbn [String.append]. cbn [String.length] in Hn.
        destruct (Ascii.eqb c2 LF).
        + rewrite IH by lia. reflexivity.
        + change (String c2 ((r2 ++ newline) ++ more))
            with ((String c2 r2 ++ newline) ++ more).
          change (String c2 (r2 ++ newline)) with (String c2 r2 ++ newline).
          rewrite IH by (cbn [String.length]; lia). reflexivity. }
    rewrite IH by lia.
    destruct (readlines (r ++ newline)) as [|l ls] eqn:E.
    + apply readlines_nil in E. destruct r; discriminate E.
    + reflexivity.
Qed.

(** What is written after a complete text is read as lines of its own. *)
Lemma readlines_after_complete (text more : string) :
  complete (Some text) ->
  readlines (text ++ more) = (readlines text ++ readlines more)%list.
Proof.
  intros [-> | (body & ->)]; [reflexivity|].
  apply (readlines_complete_fuel (String.length body)), le_n.
Qed.

Lemma slice_from_one {A : Type} (l : list A) (x : A) :
  slice_from (l ++ [x]) (- 1) = [x].
Proof.
  unfold slice_from. cbn [Z.ltb Z.compare Z.opp]. rewrite length_app. cbn [List.length].
  replace (Z.to_nat (Z.max 0 (Z.of_nat (List.length l + 1) + -1))) with (List.length l) by lia.
  rewrite skipn_app, skipn_all, Nat.sub_diag. reflexivity.
Qed.

Lemma readlines_one_line (t : string) :
  inline t = true -> readlines (t ++ newline) = [t ++ newline].
Proof.
  intros H. pose proof (readlines_line t "" H) as Hl.
  cbn [String.append readlines] in Hl. exact Hl.
Qed.

(** X11.  An entry whose fields are plain values is read back from its
    text: [from_json] of [to_json] returns the entry. *)
Theorem entry_round_trip (e : AuditEntry.t) :
  plain_entry e ->
  AuditEntry.from_json (AuditEntry.to_json e) = Return e.
Proof.
  intros Hp. unfold AuditEntry.from_json, AuditEntry.to_json.
  rewrite (loads_dumps _ Hp). destruct e. reflexivity.
Qed.

(** X12.  When the log file is missing, is empty or ends with a line
    feed, and what it holds once [log_action] has written its line is
    UTF-8 text, the entry [log_action] returns is what [get_recent] with
    limit 1 returns right after it. *)
Theorem logged_entry_is_read_back (w : World)
    (ty : ActionType.t) (de : string) (lv : Z) (ua : option bool)
    (st : ActionStatus.t) (re : option string) (me : option (PyDict.dict Json.value)) :
  complete (log_file w) ->
  match me with Some d => is_plain (Obj d) | None => true end = true ->
  let run := log_action ty de lv ua st re me w in
  decodes (log_file (snd run)) ->
  get_recent (log_file (snd run)) 1 = Return [fst run].
Proof.
  intros Hc Hme. cbv zeta. intros _.
  pose proof (GateFacts.log_action_run (PermissionManager._apply_config [] []) w
                ty de lv ua st re me) as Hrun.
  unfold PermissionManager.logger in Hrun. cbn [fst snd] in Hrun.
  destruct (log_action ty de lv ua st re me w) as [e w1].
  injection Hrun as He Hw. subst e w1. cbn [fst snd Gate.logged log_file].
  set (e := AuditEntry.create _ _ _ _ _ _ _ _).
  assert (Hp : plain_entry e) by (apply create_plain, Hme).
  assert (Hl : readlines (Gate.line_of e) = [Gate.line_of e]).
  { apply readlines_one_line, inline_dumps, Hp. }
  assert (Hone : collect [Gate.line_of e] [] = Return [e]).
  { apply (collect_held [Gate.line_of e] [e] []).
    constructor; [apply line_of_holds, Hp | constructor]. }
  destruct (log_file w) as [text|]; cbn [append_text get_recent].
  - rewrite (readlines_after_complete _ _ Hc), Hl, slice_from_one. exact Hone.
  - rewrite Hl. exact Hone.
Qed.

(** X13.  Entries with plain fields are logged to an empty log: for a
    limit of one or more, [get_recent] returns the first [limit] entries
    of the reversed list, the entry logged last first. *)
Theorem recent_is_newest_first (es : list AuditEntry.t) (limit : Z) :
  Forall plain_entry es ->
  (0 < limit)%Z ->
  get_recent (Gate.write_all (Some "") es) limit =
  Return (firstn (Z.to_nat limit) (rev es)).
Proof.
  intros Hp Hpos. rewrite (get_recent_of_logged es limit Hp Hpos).
  rewrite firstn_rev. reflexivity.
Qed.

Lemma slice_from_snoc {A : Type} (l : list A) (x : A) (limit : Z) :
  (0 < limit)%Z ->
  slice_from (l ++ [x]) (- limit) =
  (skipn (List.length l - (Z.to_nat limit - 1)) l ++ [x])%list.
Proof.
  intros H. unfold slice_from.
  destruct (- limit <? 0)%Z eqn:E; [|apply Z.ltb_ge in E; lia].
  rewrite length_app. cbn [List.length].
  replace (Z.to_nat (Z.max 0 (Z.of_nat (List.length l + 1) + - limit)))
    with (List.length l - (Z.to_nat limit - 1))%nat by lia.
  rewrite skipn_app.
  replace (List.length l - (Z.to_nat limit - 1) - List.length l)%nat with 0%nat by lia.
  reflexivity.
Qed.

Lemma readlines_inline (t : string) :
  inline t = true -> t <> "" -> readlines t = [t].
Proof.
  induction t as [|c t IH]; intros H Hne; [contradiction|].
  cbn [inline] in H. apply andb_true_iff in H. destruct H as [Hc Ht].
  unfold inline_char in Hc. apply negb_true_iff, orb_false_iff in Hc.
  destruct Hc as [Hl Hr]. cbn [readlines]. rewrite Hl, Hr.
  destruct t as [|c2 t2]; [reflexivity|].
  rewrite IH by (exact Ht || discriminate). reflexivity.
Qed.

(** X14.  [get_recent] takes the last [limit] lines before it passes
    over any: when the log is UTF-8 text and ends with a line that is
    blank or that [json] cannot decode, a limit of one or more returns
    one entry less, and the limit 1 returns none. *)
Theorem passed_over_line_uses_a_place (es : list AuditEntry.t) (t : string) (limit : Z) :
  Forall plain_entry es ->
  inline t = true ->
  t <> "" ->
  passed_over t ->
  decodes (append_text (Gate.write_all (Some "") es) t) ->
  (0 < limit)%Z ->
  get_recent (append_text (Gate.write_all (Some "") es) t) limit =
  Return (firstn (Z.to_nat limit - 1) (rev es)).
Proof.
  intros Hp Ht Hne Hover _ Hpos. rewrite write_all_text.
  cbn [String.append append_text get_recent].
  rewrite readlines_lines_text_app by exact Hp.
  rewrite (readlines_inline t Ht Hne), slice_from_snoc by exact Hpos.
  rewrite rev_app_distr. cbn [rev app]. rewrite collect_passes by exact Hover.
  rewrite length_map, firstn_rev.
  apply (collect_held _ _ []), Forall2_rev, Forall2_skipn, lines_hold, Hp.
Qed.


Lemma scan_filter_held (keep : AuditEntry.t -> bool) (limit : Z)
    (lines : list string) (es acc : list AuditEntry.t) :
  Forall2 holds lines es ->
  (List.length acc <= Z.to_nat limit)%nat ->
  scan_filter keep limit lines acc =
  Return (acc ++ firstn (Z.to_nat limit - List.length acc) (filter keep es))%list.
Proof.
  intros H. revert acc. induction H as [|line e lines es [Ht Hj] _ IH]; intros acc Hacc.
  - cbn [scan_filter filter]. rewrite firstn_nil, app_nil_r. reflexivity.
  - cbn [scan_filter filter].
    destruct (Z.of_nat (List.length acc) >=? limit)%Z eqn:E.
    + rewrite Z.geb_leb in E. apply Z.leb_le in E.
      replace (Z.to_nat limit - List.length acc)%nat with 0%nat by lia.
      cbn [firstn]. rewrite app_nil_r. reflexivity.
    + rewrite Z.geb_leb in E. apply Z.leb_gt in E.
      rewrite Ht, Hj. destruct (keep e).
      * rewrite IH by (rewrite length_app; cbn [List.length]; lia).
        rewrite length_app. cbn [List.length].
        replace (Z.to_nat limit - List.length acc)%nat
          with (S (Z.to_nat limit - (List.length acc + 1)))%nat by lia.
        cbn [firstn]. rewrite <- app_assoc. reflexivity.
      * apply IH, Hacc.
Qed.

Lemma logged_lines (es : list AuditEntry.t) :
  Forall plain_entry es ->
  Gate.write_all (Some "") es = Some (lines_text es) /\
  Forall2 holds (readlines (lines_text es)) es.
Proof.
  intros Hp. split; [apply write_all_text|].
  rewrite readlines_lines_text by exact Hp. apply lines_hold, Hp.
Qed.

(** X15.  On entries logged to an empty log, [get_by_action_type]
    returns the first [limit] entries of the type asked for, in the
    order they were logged, and [get_denied_actions] the first [limit]
    entries of status [denied]; a limit of zero or less returns none. *)
Theorem filtered_scans_of_logged (es : list AuditEntry.t) (a : ActionType.t) (limit : Z) :
  Forall plain_entry es ->
  get_by_action_type (Gate.write_all (Some "") es) a limit =
    Return (firstn (Z.to_nat limit) (filter (of_type a) es)) /\
  get_denied_actions (Gate.write_all (Some "") es) limit =
    Return (firstn (Z.to_nat limit) (filter denied es)).
Proof.
  intros Hp. destruct (logged_lines es Hp) as [-> Hh].
  cbn [get_by_action_type get_denied_actions].
  rewrite !(scan_filter_held _ limit _ es [] Hh) by (cbn; lia).
  cbn [app List.length]. rewrite Nat.sub_0_r. split; reflexivity.
Qed.

Lemma escape_app (a b : string) : escape (a ++ b) = escape a ++ escape b.
Proof.
  induction a as [|c a IH]; [reflexivity|].
  cbn [String.append escape]. rewrite IH, append_assoc. reflexivity.
Qed.

Lemma escape_char_date (c : ascii) :
  is_digit c || Ascii.eqb c "-" = true -> escape_char c = String c "".
Proof.
  destruct c as [[] [] [] [] [] [] [] []]; intros H; try discriminate H; reflexivity.
Qed.

Lemma escape_date (d : string) : date_text d = true -> escape d = d.
Proof.
  unfold date_text. induction d as [|c d IH]; [reflexivity|].
  cbn [list_ascii_of_string forallb escape]. intros H.
  apply andb_true_iff in H. destruct H as [Hc Hd].
  rewrite (escape_char_date c Hc), (IH Hd). reflexivity.
Qed.

Lemma to_json_holds_date (e : AuditEntry.t) (ts d : string) :
  AuditEntry.timestamp e = Str ts ->
  date_text d = true ->
  PyStr.startswith ts d = true ->
  PyStr.contains (AuditEntry.to_json e) d = true.
Proof.
  intros Hts Hd Hs. apply TextFacts.startswith_iff in Hs. destruct Hs as (rest & ->).
  apply TextFacts.contains_iff.
  destruct e as [t0 ty de le ua st re me]. cbn [AuditEntry.timestamp] in Hts. subst t0.
  unfold AuditEntry.to_json, AuditEntry.asdict.
  cbn [dumps map AuditEntry.timestamp AuditEntry.action_type AuditEntry.action_description
       AuditEntry.permission_level AuditEntry.user_approved AuditEntry.status
       AuditEntry.result AuditEntry.metadata PyStr.join].
  set (others := (encode_string "action_type" ++ _) ++ _).
  unfold encode_string at 2. rewrite escape_app, (escape_date d Hd).
  exists ("{" ++ encode_string "timestamp" ++ ": " ++ String dquote ""),
         (escape rest ++ String dquote "" ++ ", " ++ others ++ "}").
  rewrite !append_assoc. cbn [String.append]. rewrite !append_assoc. reflexivity.
Qed.

Lemma scan_date_logged (d : string) (es acc : list AuditEntry.t) :
  date_text d = true ->
  Forall plain_entry es ->
  Forall stamped es ->
  scan_date d (map Gate.line_of es) acc = Return (acc ++ filter (dated d) es)%list.
Proof.
  intros Hd Hp. revert acc. induction Hp as [|e es He _ IH]; intros acc Hst.
  - cbn. rewrite app_nil_r. reflexivity.
  - inversion Hst as [|? ? (ts & Hts) Hst']; subst.
    cbn [map scan_date filter].
    destruct (strip_line_of e) as [Hs Ht]. rewrite Hs, Ht. cbn [andb].
    unfold dated at 1. rewrite Hts.
    destruct (PyStr.contains (AuditEntry.to_json e) d) eqn:Ec.
    + rewrite (from_json_to_json e He). unfold timestamp_startswith. rewrite Hts.
      destruct (PyStr.startswith ts d).
      * rewrite (IH _ Hst'), <- app_assoc. reflexivity.
      * apply IH, Hst'.
    + destruct (PyStr.startswith ts d) eqn:Es.
      * rewrite (to_json_holds_date e ts d Hts Hd Es) in Ec. discriminate Ec.
      * apply IH, Hst'.
Qed.

(** X16.  On entries logged to an empty log whose timestamps are texts,
    [get_by_date] returns, in the order they were logged, exactly the
    entries whose timestamp starts with the date, the date being a text
    of digits and dashes. *)
Theorem by_date_of_logged (es : list AuditEntry.t) (date_str : string) :
  date_text date_str = true ->
  Forall plain_entry es ->
  Forall stamped es ->
  get_by_date (Gate.write_all (Some "") es) date_str = Return (filter (dated date_str) es).
Proof.
  intros Hd Hp Hst. rewrite write_all_text. cbn [String.append get_by_date].
  rewrite readlines_lines_text by exact Hp.
  apply (scan_date_logged date_str es [] Hd Hp Hst).
Qed.

Lemma scan_filter_sound (keep : AuditEntry.t -> bool) (limit : Z)
    (lines : list string) (acc l : list AuditEntry.t) :
  scan_filter keep limit lines acc = Return l ->
  Forall (fun e => keep e = true) acc ->
  Forall (fun e => keep e = true) l /\
  (List.length l <= Nat.max (List.length acc) (Z.to_nat limit))%nat.
Proof.
  revert acc. induction lines as [|line rest IH]; intros acc H Hacc.
  - injection H as <-. split; [exact Hacc | lia].
  - cbn [scan_filter] in H.
    destruct (Z.of_nat (List.length acc) >=? limit)%Z eqn:E.
    { injection H as <-. split; [exact Hacc | lia]. }
    rewrite Z.geb_leb in E. apply Z.leb_gt in E.
    destruct (PyStr.truthy (PyStr.strip line)).
    + destruct (AuditEntry.from_json (PyStr.strip line)) as [e|[]]; try discriminate H.
      * destruct (keep e) eqn:Ek.
        -- apply IH in H.
           ++ destruct H as [H1 H2]. split; [exact H1|].
              rewrite length_app in H2. cbn [List.length] in H2. lia.
           ++ apply Forall_app. split; [exact Hacc | constructor; [exact Ek | constructor]].
        -- destruct (IH _ H Hacc) as [H1 H2]. split; [exact H1 | lia].
      * destruct (IH _ H Hacc) as [H1 H2]. split; [exact H1 | lia].
    + destruct (IH _ H Hacc) as [H1 H2]. split; [exact H1 | lia].
Qed.

Lemma scan_date_sound (d : string) (lines : list string) (acc l : list AuditEntry.t) :
  scan_date d lines acc = Return l ->
  Forall (fun e => dated d e = true) acc ->
  Forall (fun e => dated d e = true) l.
Proof.
  revert acc. induction lines as [|line rest IH]; intros acc H Hacc.
  - injection H as <-. exact Hacc.
  - cbn [scan_date] in H.
    destruct (PyStr.truthy (PyStr.strip line) && PyStr.contains (PyStr.strip line) d).
    + destruct (AuditEntry.from_json (PyStr.strip line)) as [e|[]]; try discriminate H.
      * unfold timestamp_startswith in H.
        destruct (AuditEntry.timestamp e) as [| | | |ts| |] eqn:Ets; try discriminate H.
        destruct (PyStr.startswith ts d) eqn:Es.
        -- apply IH in H; [exact H|]. apply Forall_app. split; [exact Hacc|].
           constructor; [|constructor]. unfold dated. rewrite Ets. exact Es.
        -- apply (IH _ H Hacc).
      * apply (IH _ H Hacc).
    + apply (IH _ H Hacc).
Qed.

Lemma eq_str_eq (x : value) (s : string) : eq_str x s = true -> x = Str s.
Proof.
  destruct x; cbn; intros H; try discriminate H.
  apply String.eqb_eq in H. subst. reflexivity.
Qed.

(** X17.  Whatever the log file holds, when [get_by_action_type] or
    [get_denied_actions] returns, it returns no more entries than the
    limit and each has the action type asked for, or the status
    [denied]; when [get_by_date] returns, every entry has a timestamp
    that is a text starting with the date. *)
Theorem filtering_readers_keep_to_their_filter
    (f : option string) (a : ActionType.t) (date_str : string) (limit : Z)
    (l : list AuditEntry.t) :
  (get_by_action_type f a limit = Return l ->
   (List.length l <= Z.to_nat limit)%nat /\
   Forall (fun e => AuditEntry.action_type e = Str (ActionType.value a)) l) /\
  (get_denied_actions f limit = Return l ->
   (List.length l <= Z.to_nat limit)%nat /\
   Forall (fun e => AuditEntry.status e = Str "denied") l) /\
  (get_by_date f date_str = Return l ->
   Forall (fun e => exists rest, AuditEntry.timestamp e = Str (date_str ++ rest)) l).
Proof.
  destruct f as [text|]; cbn [get_by_action_type get_denied_actions get_by_date].
  2:{ split; [|split]; intros H; injection H as <-; [split; [apply Nat.le_0_l | constructor] ..| constructor]. }
  split; [|split]; intros H.
  - apply scan_filter_sound in H; [|constructor]. destruct H as [H1 H2].
    split; [cbn [List.length] in H2; lia|].
    revert H1. apply Forall_impl. intros e. apply eq_str_eq.
  - apply scan_filter_sound in H; [|constructor]. destruct H as [H1 H2].
    split; [cbn [List.length] in H2; lia|].
    revert H1. apply Forall_impl. intros e. apply eq_str_eq.
  - apply scan_date_sound in H; [|constructor].
    revert H. apply Forall_impl. intros e. unfold dated.
    destruct (AuditEntry.timestamp e) as [| | | |ts| |]; try discriminate.
    intros Hs. apply TextFacts.startswith_iff in Hs. destruct Hs as (rest & ->).
    exists rest. reflexivity.
Qed.


Lemma scan_filter_skip (keep : AuditEntry.t -> bool) (limit : Z)
    (l1 : list string) (bad : string) (l2 : list string) (acc : list AuditEntry.t) :
  passed_over bad ->
  scan_filter keep limit (l1 ++ bad :: l2) acc = scan_filter keep limit (l1 ++ l2) acc.
Proof.
  intros Hbad. revert acc. induction l1 as [|l l1 IH]; intros acc.
  - apply scan_filter_passes, Hbad.
  - cbn [app scan_filter].
    destruct (Z.of_nat (List.length acc) >=? limit)%Z; [reflexivity|].
    destruct (PyStr.truthy (PyStr.strip l)); [|apply IH].
    destruct (AuditEntry.from_json (PyStr.strip l)) as [e|[]]; try reflexivity; apply IH.
Qed.

Lemma scan_date_skip (d : string) (l1 : list string) (bad : string) (l2 : list string)
    (acc : list AuditEntry.t) :
  passed_over bad ->
  scan_date d (l1 ++ bad :: l2) acc = scan_date d (l1 ++ l2) acc.
Proof.
  intros Hbad. revert acc. induction l1 as [|l l1 IH]; intros acc.
  - apply scan_date_passes, Hbad.
  - cbn [app scan_date].
    destruct (PyStr.truthy (PyStr.strip l) && PyStr.contains (PyStr.strip l) d); [|apply IH].
    destruct (AuditEntry.from_json (PyStr.strip l)) as [e|[]]; try reflexivity; [|apply IH].
    destruct (timestamp_startswith e d) as [[|]|]; try reflexivity; apply IH.
Qed.

Lemma lines_text_app (es1 es2 : list AuditEntry.t) :
  lines_text (es1 ++ es2) = lines_text es1 ++ lines_text es2.
Proof.
  induction es1 as [|e es1 IH]; [reflexivity|].
  cbn [app lines_text]. rewrite IH, !append_assoc. reflexivity.
Qed.

(** X18.  A line that is blank or that [json] cannot decode, written
    between logged entries in a log that is UTF-8 text, changes nothing
    for [get_by_action_type], [get_denied_actions] and [get_by_date]:
    they return what they return for the log without that line. *)
Theorem filtering_readers_skip_a_line
    (es1 es2 : list AuditEntry.t) (t : string)
    (a : ActionType.t) (date_str : string) (limit : Z) :
  Forall plain_entry es1 ->
  Forall plain_entry es2 ->
  inline t = true ->
  passed_over (t ++ newline) ->
  let torn :=
    Gate.write_all (append_text (Gate.write_all (Some "") es1) (t ++ newline)) es2 in
  let clean := Gate.write_all (Some "") (es1 ++ es2) in
  decodes torn ->
  get_by_action_type torn a limit = get_by_action_type clean a limit /\
  get_denied_actions torn limit = get_denied_actions clean limit /\
  get_by_date torn date_str = get_by_date clean date_str.
Proof.
  intros Hp1 Hp2 Ht Hbad. cbv zeta. intros _.
  rewrite (write_all_text "" es1), (write_all_text "" (es1 ++ es2)).
  cbn [String.append append_text]. rewrite write_all_text.
  cbn [get_by_action_type get_denied_actions get_by_date].
  assert (Htorn : readlines ((lines_text es1 ++ t ++ newline) ++ lines_text es2) =
                  (map Gate.line_of es1 ++ (t ++ newline)%string :: map Gate.line_of es2)%list).
  { rewrite !append_assoc, readlines_lines_text_app by exact Hp1.
    rewrite readlines_line by exact Ht.
    rewrite readlines_lines_text by exact Hp2. reflexivity. }
  assert (Hclean : readlines (lines_text (es1 ++ es2)) =
                   (map Gate.line_of es1 ++ map Gate.line_of es2)%list).
  { rewrite readlines_lines_text by (apply Forall_app; split; assumption).
    apply map_app. }
  rewrite Htorn, Hclean.
  rewrite !(scan_filter_skip _ _ _ _ _ _ Hbad), (scan_date_skip _ _ _ _ _ Hbad).
  repeat split; reflexivity.
Qed.

(** X30.  The logger keeps the log readable: when the strings of the
    entry are text, the file that [log] leaves is UTF-8 text exactly when
    the file it found was.  A log that only the logger wrote decodes, and
    a log that holds a byte that does not decode still holds it after
    every later entry. *)
Theorem logging_keeps_the_log_text (w : World) (entry : AuditEntry.t) :
  text_entry entry ->
  (decodes (log_file (snd (log entry w))) <-> decodes (log_file w)).
Proof.
  intros Ht.
  assert (Hl : Utf8.valid (AuditEntry.to_json entry ++ newline) = true).
  { apply Utf8Facts.valid_both; [apply Utf8Facts.valid_dumps, Ht | reflexivity]. }
  assert (Hh : exists rest, AuditEntry.to_json entry ++ newline = String "{" rest).
  { eexists. reflexivity. }
  destruct Hh as [rest Hh].
  cbn [log modify snd log_file]. destruct (log_file w) as [old|]; cbn [append_text decodes].
  - split; intros H.
    + rewrite Hh in H.
      apply (Utf8Facts.valid_before_single old "{" rest); [reflexivity | exact H].
    + apply Utf8Facts.valid_both; assumption.
  - split; [trivial | intros _; exact Hl].
Qed.

End ReadingProperties.

(** *** Cases *)

Section ReadingCases.

Import PermissionManager Gate Policy Reading Trail AuditLogger.

Lemma plain_entries : Forall plain_entry Fixture.entries.
Proof. repeat (constructor; [vm_compute; reflexivity|]). constructor. Qed.

Lemma entry_round_trip_witness :
  plain_entry Fixture.denied_entry /\
  AuditEntry.from_json (AuditEntry.to_json Fixture.denied_entry) = Return Fixture.denied_entry.
Proof.
  assert (H : plain_entry Fixture.denied_entry) by (vm_compute; reflexivity).
  split; [exact H | apply (entry_round_trip _ H)].
Defined.

Lemma logged_entry_is_read_back_witness :
  let run := log_action ActionType.WRITE "Write notes" 2 (Some true) ActionStatus.EXECUTED
               (Some "done") None Sample.one_denied in
  complete (log_file Sample.one_denied) /\
  log_file Sample.one_denied <> Some "" /\
  decodes (log_file (snd run)) /\
  get_recent (log_file (snd run)) 1 = Return [fst run].
Proof.
  cbv zeta.
  assert (H : complete (log_file Sample.one_denied)).
  { right.
    exists (AuditEntry.to_json
              (AuditEntry.create "2026-11-03T10:00:00.000000" ActionType.EXECUTE
                 "Denied action" 4 (Some false) ActionStatus.DENIED None None)).
    vm_compute. reflexivity. }
  split; [exact H|]. split; [vm_compute; discriminate|].
  assert (D : decodes (log_file (snd (log_action ActionType.WRITE "Write notes" 2 (Some true)
                                        ActionStatus.EXECUTED (Some "done") None
                                        Sample.one_denied))))
    by (vm_compute; reflexivity).
  split; [exact D|].
  apply (logged_entry_is_read_back Sample.one_denied ActionType.WRITE "Write notes" 2
           (Some true) ActionStatus.EXECUTED (Some "done") None H eq_refl D).
Defined.

Lemma recent_is_newest_first_witness :
  get_recent (write_all (Some "") Fixture.entries) 2 =
  Return [Fixture.write_entry; Fixture.denied_entry].
Proof.
  apply (recent_is_newest_first Fixture.entries 2 plain_entries eq_refl).
Defined.

Lemma truncated_is_passed_over : passed_over Sample.truncated_line.
Proof. right. vm_compute. reflexivity. Qed.

Lemma passed_over_line_uses_a_place_witness :
  decodes (append_text (write_all (Some "") Fixture.entries) Sample.truncated_line) /\
  get_recent (append_text (write_all (Some "") Fixture.entries) Sample.truncated_line) 1 =
    Return [] /\
  get_recent (append_text (write_all (Some "") Fixture.entries) Sample.truncated_line) 2 =
    Return [Fixture.write_entry].
Proof.
  assert (D : decodes (append_text (write_all (Some "") Fixture.entries)
                                   Sample.truncated_line))
    by (vm_compute; reflexivity).
  split; [exact D|]. split.
  - apply (passed_over_line_uses_a_place Fixture.entries Sample.truncated_line 1
             plain_entries eq_refl);
      [discriminate | exact truncated_is_passed_over | exact D | reflexivity].
  - apply (passed_over_line_uses_a_place Fixture.entries Sample.truncated_line 2
             plain_entries eq_refl);
      [discriminate | exact truncated_is_passed_over | exact D | reflexivity].
Defined.

Lemma filtered_scans_of_logged_witness :
  get_by_action_type (write_all (Some "") Fixture.entries) ActionType.WRITE 10 =
    Return [Fixture.write_entry] /\
  get_denied_actions (write_all (Some "") Fixture.entries) 10 =
    Return [Fixture.denied_entry] /\
  get_denied_actions (write_all (Some "") Fixture.entries) 0 = Return [].
Proof.
  destruct (filtered_scans_of_logged Fixture.entries ActionType.WRITE 10 plain_entries)
    as [H1 H2].
  split; [exact H1|]. split; [exact H2|].
  apply (filtered_scans_of_logged Fixture.entries ActionType.WRITE 0 plain_entries).
Defined.

Lemma by_date_of_logged_witness :
  date_text "2026-11-03" = true /\
  get_by_date (write_all (Some "") Fixture.entries) "2026-11-03" =
    Return [Fixture.denied_entry; Fixture.write_entry].
Proof.
  split; [reflexivity|].
  apply (by_date_of_logged Fixture.entries "2026-11-03" eq_refl plain_entries).
  repeat (constructor; [eexists; reflexivity|]). constructor.
Defined.

Lemma filtering_readers_keep_to_their_filter_witness :
  get_denied_actions (write_all (Some "") Fixture.entries) 1 = Return [Fixture.denied_entry] /\
  Forall (fun e => AuditEntry.status e = Json.Str "denied") [Fixture.denied_entry].
Proof.
  assert (H : get_denied_actions (write_all (Some "") Fixture.entries) 1 =
              Return [Fixture.denied_entry]) by (vm_compute; reflexivity).
  split; [exact H|].
  apply (proj1 (proj2 (filtering_readers_keep_to_their_filter
                         (write_all (Some "") Fixture.entries) ActionType.READ ""
                         1 [Fixture.denied_entry]))), H.
Defined.

Lemma filtering_readers_skip_a_line_witness :
  passed_over (Sample.truncated_line ++ newline) /\
  decodes (write_all (append_text (write_all (Some "") [Fixture.read_entry])
                                  (Sample.truncated_line ++ newline))
                     [Fixture.denied_entry; Fixture.write_entry]) /\
  get_denied_actions
    (write_all (append_text (write_all (Some "") [Fixture.read_entry])
                            (Sample.truncated_line ++ newline))
               [Fixture.denied_entry; Fixture.write_entry]) 10 =
  get_denied_actions (write_all (Some "") Fixture.entries) 10.
Proof.
  assert (H : passed_over (Sample.truncated_line ++ newline)) by (right; vm_compute; reflexivity).
  assert (D : decodes (write_all (append_text (write_all (Some "") [Fixture.read_entry])
                                              (Sample.truncated_line ++ newline))
                                 [Fixture.denied_entry; Fixture.write_entry]))
    by (vm_compute; reflexivity).
  split; [exact H|]. split; [exact D|].
  apply (filtering_readers_skip_a_line [Fixture.read_entry]
           [Fixture.denied_entry; Fixture.write_entry] Sample.truncated_line
           ActionType.READ "2026-11-03" 10).
  - repeat (constructor; [vm_compute; reflexivity|]). constructor.
  - repeat (constructor; [vm_compute; reflexivity|]). constructor.
  - reflexivity.
  - exact H.
  - exact D.
Defined.

Lemma logging_keeps_the_log_text_witness :
  text_entry Fixture.denied_entry /\
  (decodes (log_file (snd (log Fixture.denied_entry Sample.one_denied))) <->
   decodes (log_file Sample.one_denied)).
Proof.
  assert (H : text_entry Fixture.denied_entry) by (vm_compute; reflexivity).
  split; [exact H|].
  apply (logging_keeps_the_log_text Sample.one_denied Fixture.denied_entry H).
Defined.

End ReadingCases.

(** ** The file operator *)

Module OperatorFacts.

Import PermissionManager FileOperator GateFacts TextFacts.

Section Facts.

Context {FS : Type} (os : OS FS).

Lemma gated_run {A : Type} (c : M PermissionManager.state A) (h : host FS) :
  gated c h = (fst (c (gate h)), checked h (snd (c (gate h)))).
Proof. unfold gated, checked. destruct (c (gate h)). reflexivity. Qed.

Lemma operator_log_action_run (h : host FS) ty de lv ua st re me :
  FileOperator.log_action ty de lv ua st re me h =
  (AuditEntry.create (Gate.now_of (snd (gate h))) ty de lv ua st re me,
   logged h (AuditEntry.create (Gate.now_of (snd (gate h))) ty de lv ua st re me)).
Proof.
  unfold FileOperator.log_action, logged. destruct (own_trail h); reflexivity.
Qed.

Lemma bind_log_action {B : Type} (h : host FS) ty de lv ua st re me
    (k : AuditEntry.t -> M (host FS) B) :
  bind (FileOperator.log_action ty de lv ua st re me) k h =
  k (AuditEntry.create (Gate.now_of (snd (gate h))) ty de lv ua st re me)
    (logged h (AuditEntry.create (Gate.now_of (snd (gate h))) ty de lv ua st re me)).
Proof. rewrite bind_run, operator_log_action_run. reflexivity. Qed.

Lemma bind_gated {A B : Type} (c : M PermissionManager.state A) (k : A -> M (host FS) B)
    (h : host FS) :
  bind (gated c) k h = k (fst (c (gate h))) (checked h (snd (c (gate h)))).
Proof. rewrite bind_run, gated_run. reflexivity. Qed.

Lemma bind_gets_disk {B : Type} (k : FS -> M (host FS) B) (h : host FS) :
  bind (gets disk) k h = k (disk h) h.
Proof. reflexivity. Qed.

(** Logging leaves the file system, the manager and the terminal as they
    are, and adds one line to the operator's trail. *)
Lemma logged_keeps (h : host FS) (e : AuditEntry.t) :
  disk (logged h e) = disk h /\
  fst (gate (logged h e)) = fst (gate h) /\
  Gate.interaction (snd (gate (logged h e))) = Gate.interaction (snd (gate h)) /\
  trail_file (logged h e) = AuditLogger.append_text (trail_file h) (Gate.line_of e).
Proof.
  unfold logged, trail_file. destruct (own_trail h); repeat split; reflexivity.
Qed.

Lemma startswith_app (s p q : string) :
  PyStr.startswith s (p ++ q) = true -> PyStr.startswith s p = true.
Proof.
  revert s. induction p as [|c p IH]; intros s H; [destruct s; reflexivity|].
  destruct s as [|d s]; [discriminate H|].
  cbn [String.append PyStr.startswith] in *.
  apply andb_true_iff in H. destruct H as [Hc Hs].
  rewrite Hc. cbn [andb]. apply IH, Hs.
Qed.

Lemma joinpath_extends (h name : string) :
  h <> "." -> exists more, joinpath h name = h ++ more.
Proof.
  intros Hh. unfold joinpath.
  destruct (String.eqb h ".") eqn:E; [apply String.eqb_eq in E; contradiction|].
  destruct (ends_with "/" h); eexists; reflexivity.
Qed.

Lemma starts_with_any_home (real : string) (paths : list string) (h : string) :
  Forall (fun p => exists more, p = h ++ more) paths ->
  starts_with_any real paths = true -> PyStr.startswith real h = true.
Proof.
  induction 1 as [|p paths (more & ->) _ IH]; [discriminate|].
  cbn [starts_with_any].
  destruct (PyStr.startswith real (h ++ more)) eqn:E; [|exact IH].
  intros _. apply (startswith_app _ _ _ E).
Qed.

Lemma untouched_logged (h h1 : host FS) (e : AuditEntry.t) :
  untouched h h1 -> untouched h (logged h1 e).
Proof.
  intros (H1 & H2 & H3). destruct (logged_keeps h1 e) as (K1 & K2 & K3 & _).
  unfold untouched. rewrite K1, K2, K3. repeat split; assumption.
Qed.

(** A check that is a dry run leaves the manager and the terminal as they
    are. *)
Lemma dry_check (m : PermissionManager.t) (w : World) (a : ActionRequest.t) :
  exists r w', check_permission a true (m, w) = (r, (m, w')) /\
               Gate.interaction w' = Gate.interaction w.
Proof.
  rewrite check_permission_run. cbv zeta.
  destruct (_is_blacklisted m a); [eexists _, _; split; reflexivity|].
  destruct (_is_auto_approved m a); [eexists _, _; split; reflexivity|].
  destruct (PermissionLevel.eqb _ PermissionLevel.READ); [eexists _, _; split; reflexivity|].
  rewrite orb_true_r. eexists _, _; split; reflexivity.
Qed.

Lemma dry_gated {B : Type} (h : host FS) (a : ActionRequest.t)
    (k : ActionResult.t -> M (host FS) B) :
  exists r h1, bind (gated (check_permission a true)) k h = k r h1 /\
               untouched h h1 /\ own_trail h1 = own_trail h.
Proof.
  rewrite bind_gated. destruct h as [[m w] tr fs]. cbn [gate].
  destruct (dry_check m w a) as (r & w' & E & Hi). rewrite E.
  exists r, (checked {| gate := (m, w); own_trail := tr; disk := fs |} (m, w')).
  split; [reflexivity|]. repeat split. exact Hi.
Qed.

Lemma create_file_refused (h : host FS) (path content : string) (dry_run : bool) :
  let level := _get_write_level os (disk h) path in
  let check := check_permission (create_request level path content) dry_run (gate h) in
  ActionResult.success (fst check) = false ->
  create_file os path content dry_run h =
  (Returns false,
   logged (checked h (snd check))
          (refusal_entry (checked h (snd check)) ("Create " ++ path) level)).
Proof.
  cbv zeta. intros Hno.
  unfold create_file. rewrite bind_gets_disk, bind_gated, Hno. cbn [negb].
  rewrite bind_log_action. reflexivity.
Qed.

(** The run of a check that the deny-list settles. *)
Lemma blacklisted_run (m : PermissionManager.t) (w : World) (a : ActionRequest.t)
    (d : bool) :
  _is_blacklisted m a = true ->
  ActionResult.success (fst (check_permission a d (m, w))) = false /\
  fst (snd (check_permission a d (m, w))) = m /\
  Gate.interaction (snd (snd (check_permission a d (m, w)))) = Gate.interaction w.
Proof.
  intros H. rewrite check_permission_run. cbv zeta. rewrite H. repeat split; reflexivity.
Qed.

End Facts.

End OperatorFacts.

Section OperatorProperties.

Import PermissionManager FileOperator GateFacts TextFacts OperatorFacts.

Context {FS : Type} (os : OS FS).

(** X19.  When the home directory is not the current directory, a path
    is safe exactly when the text of its resolved form starts with the
    text of the home directory: the six folders of [safe_paths] add
    nothing, and the test is on characters, not on the components of the
    path.  [_get_write_level] is [SAFE_WRITE] exactly for these paths. *)
Theorem safe_path_is_a_text_prefix (fs : FS) (path : string) :
  home os <> "." ->
  (_is_safe_path os fs path = true <->
   exists rest, resolve os fs path = Ok (home os ++ rest)) /\
  (_get_write_level os fs path = PermissionLevel.SAFE_WRITE <->
   _is_safe_path os fs path = true).
Proof.
  intros Hh. split.
  - unfold _is_safe_path. destruct (resolve os fs path) as [real|e].
    + split.
      * intros H. apply (starts_with_any_home real _ (home os)) in H.
        -- apply startswith_iff in H. destruct H as (rest & ->). exists rest. reflexivity.
        -- unfold safe_paths.
           repeat (constructor; [first [exists ""; symmetry; apply TrailFacts.append_empty_r
                                       | apply joinpath_extends, Hh]|]).
           constructor.
      * intros (rest & H). injection H as ->.
        unfold safe_paths. cbn [starts_with_any].
        assert (E : PyStr.startswith (home os ++ rest) (home os) = true).
        { apply startswith_iff. exists rest. reflexivity. }
        rewrite E. reflexivity.
    + split; [discriminate | intros (rest & H); discriminate H].
  - unfold _get_write_level. destruct (_is_safe_path os fs path); split; intros H;
      (reflexivity || discriminate H).
Qed.


Lemma lower_app (x y : string) : PyStr.lower (x ++ y) = PyStr.lower x ++ PyStr.lower y.
Proof. induction x as [|c x IH]; [reflexivity|]. cbn. rewrite IH. reflexivity. Qed.

Lemma read_request_caught (pattern path : string) :
  Gate.caught_by pattern (read_request path) <->
  Fnmatch.fnmatch "read_file" pattern = true \/
  Gate.substring (PyStr.lower pattern) (PyStr.lower ("Read file: " ++ path)).
Proof.
  unfold Gate.caught_by, read_request.
  cbn [ActionRequest.action_type ActionRequest.target ActionRequest.description].
  split.
  - intros [H | [(tg & Htg & before & after & H) | H]]; [left; exact H | | right; exact H].
    right. injection Htg as <-.
    exists (PyStr.lower "Read file: " ++ before), after.
    rewrite lower_app, H, !TrailFacts.append_assoc. reflexivity.
  - intros [H | H]; [left; exact H | right; right; exact H].
Qed.

(** X20.  [read_file] writes nothing to the terminal, reads nothing from
    it, calls no callback and leaves the manager and the file system as
    they are.  It raises [PermissionError] exactly when a pattern of the
    deny-list matches the action type [read_file] or occurs, letter case
    aside, in the description [Read file: path]; otherwise it returns
    the text of the file, or raises [FileNotFoundError] or [IOError] as
    [read_text] fails. *)
Theorem read_file_asks_nobody (h : host FS) (path encoding : string) :
  let m := fst (gate h) in
  let run := read_file os path encoding h in
  let refused :=
    exists pattern, In pattern (blacklist m) /\
      (Fnmatch.fnmatch "read_file" pattern = true \/
       Gate.substring (PyStr.lower pattern) (PyStr.lower ("Read file: " ++ path))) in
  (refused ->
   fst run = Raises (PermissionError
     "Permission denied: This action is blacklisted and cannot be executed.")) /\
  (~ refused ->
   fst run = match read_text os (disk h) path encoding with
             | Ok text => Returns text
             | Err (NotFound _) => Raises (FileNotFoundError ("File not found: " ++ path))
             | Err (OtherError text) => Raises (IOError ("Error reading file: " ++ text))
             end) /\
  fst (gate (snd run)) = m /\
  Gate.interaction (snd (gate (snd run))) = Gate.interaction (snd (gate h)) /\
  disk (snd run) = disk h.
Proof.
  cbv zeta. unfold read_file. rewrite bind_gated.
  destruct h as [[m w] tr fs]. cbn [gate fst snd disk].
  rewrite check_permission_run. cbv zeta.
  assert (Hiff : _is_blacklisted m (read_request path) = true <->
                 exists pattern, In pattern (blacklist m) /\
                   (Fnmatch.fnmatch "read_file" pattern = true \/
                    Gate.substring (PyStr.lower pattern)
                                   (PyStr.lower ("Read file: " ++ path)))).
  { unfold _is_blacklisted. rewrite blacklisted_by_iff. split.
    - intros (p & Hin & Hc). exists p. split; [exact Hin | apply read_request_caught, Hc].
    - intros (p & Hin & Hc). exists p. split; [exact Hin | apply read_request_caught, Hc]. }
  destruct (_is_blacklisted m (read_request path)).
  { cbn [fst snd negb ActionResult.success ActionResult.message str_of_target ret
         checked gate disk].
    split; [intros _; reflexivity|].
    split; [intros Hn; exfalso; apply Hn, Hiff; reflexivity|].
    repeat split; reflexivity. }
  assert (Hnot : ~ (exists pattern, In pattern (blacklist m) /\
                   (Fnmatch.fnmatch "read_file" pattern = true \/
                    Gate.substring (PyStr.lower pattern)
                                   (PyStr.lower ("Read file: " ++ path))))).
  { intros H. apply Hiff in H. discriminate H. }
  assert (Hread : forall r w',
    ActionResult.success r = true ->
    Gate.interaction w' = Gate.interaction w ->
    let run := (if negb (ActionResult.success r)
                then ret (Raises (PermissionError
                       ("Permission denied: " ++ str_of_target (ActionResult.message r))))
                else fs0 <- gets disk ;;
                     match read_text os fs0 path encoding with
                     | Ok text => ret (Returns text)
                     | Err (NotFound _) =>
                         ret (Raises (FileNotFoundError ("File not found: " ++ path)))
                     | Err (OtherError text) =>
                         ret (Raises (IOError ("Error reading file: " ++ text)))
                     end)
                 (checked {| gate := (m, w); own_trail := tr; disk := fs |} (m, w')) in
    ((exists pattern, In pattern (blacklist m) /\
        (Fnmatch.fnmatch "read_file" pattern = true \/
         Gate.substring (PyStr.lower pattern) (PyStr.lower ("Read file: " ++ path)))) ->
     fst run = Raises (PermissionError
       "Permission denied: This action is blacklisted and cannot be executed.")) /\
    (~ (exists pattern, In pattern (blacklist m) /\
        (Fnmatch.fnmatch "read_file" pattern = true \/
         Gate.substring (PyStr.lower pattern) (PyStr.lower ("Read file: " ++ path)))) ->
     fst run = match read_text os fs path encoding with
               | Ok text => Returns text
               | Err (NotFound _) => Raises (FileNotFoundError ("File not found: " ++ path))
               | Err (OtherError text) => Raises (IOError ("Error reading file: " ++ text))
               end) /\
    fst (gate (snd run)) = m /\
    Gate.interaction (snd (gate (snd run))) = Gate.interaction w /\
    disk (snd run) = fs).
  { intros r w' Hr Hi. cbv zeta. rewrite Hr. cbn [negb]. rewrite bind_gets_disk.
    cbn [checked disk gate own_trail].
    split; [intros H; contradiction|].
    destruct (read_text os fs path encoding) as [text|[text|text]];
      (split; [intros _; reflexivity | repeat split; exact Hi]). }
  destruct (_is_auto_approved m (read_request path)); [apply Hread; reflexivity|].
  cbn [read_request ActionRequest.required_level].
  change (PermissionLevel.eqb PermissionLevel.READ PermissionLevel.READ) with true.
  cbv iota. apply Hread; reflexivity.
Qed.


Ltac settle H :=
  repeat first
    [ rewrite bind_log_action
    | rewrite bind_gets_disk
    | progress cbn [ret snd]
    | apply untouched_logged
    | exact H
    | match goal with
      | |- context [match ?x with Ok _ => _ | Err _ => _ end] => destruct x as [[|]|]
      | |- context [match ?x with Ok _ => _ | Err _ => _ end] => destruct x as [|]
      | |- context [if negb ?b then _ else _] => destruct b; cbn [negb]
      end ].

Ltac dry :=
  cbv beta zeta;
  match goal with
  | |- context [bind (gated (check_permission ?a true)) ?k ?h] =>
      let r := fresh "r" in
      let h1 := fresh "h1" in
      let E := fresh "E" in
      let Hu := fresh "Hu" in
      destruct (dry_gated h a k) as (r & h1 & E & Hu & _); rewrite E; settle Hu
  end.

(** X21.  As a dry run, [create_file], [delete_file], [copy_file] and
    [move_file] leave the file system, the manager and the terminal as
    they are and call no callback, whatever they return or raise. *)
Theorem dry_run_changes_nothing (h : host FS) (path content src dst : string) :
  untouched h (snd (create_file os path content true h)) /\
  untouched h (snd (delete_file os path true h)) /\
  untouched h (snd (copy_file os src dst true h)) /\
  untouched h (snd (move_file os src dst true h)).
Proof.
  split; [|split; [|split]].
  - unfold create_file. rewrite bind_gets_disk. dry.
  - unfold delete_file. dry.
  - unfold copy_file. rewrite bind_gets_disk. dry.
  - unfold move_file. rewrite bind_gets_disk. dry.
Qed.

(** X22.  When the check of the manager fails, [create_file],
    [delete_file], [copy_file] and [move_file] return [False] and raise
    nothing, leave the file system as it was, and add to the trail of
    the operator's logger the entry of the refusal, at the level of the
    request. *)
Theorem refused_operations_return_false
    (h : host FS) (path content src dst : string) (dry_run : bool) :
  (let level := _get_write_level os (disk h) path in
   let check := check_permission (create_request level path content) dry_run (gate h) in
   ActionResult.success (fst check) = false ->
   turned_down h (checked h (snd check)) ("Create " ++ path) level
     (create_file os path content dry_run h)) /\
  (let check := check_permission (delete_request path) dry_run (gate h) in
   ActionResult.success (fst check) = false ->
   turned_down h (checked h (snd check)) ("Delete " ++ path) PermissionLevel.SYSTEM_WRITE
     (delete_file os path dry_run h)) /\
  (let level := _get_write_level os (disk h) dst in
   let check := check_permission (copy_request level src dst) dry_run (gate h) in
   ActionResult.success (fst check) = false ->
   turned_down h (checked h (snd check)) ("Copy " ++ src ++ " to " ++ dst) level
     (copy_file os src dst dry_run h)) /\
  (let level := max_level (_get_write_level os (disk h) src)
                          (_get_write_level os (disk h) dst) in
   let check := check_permission (move_request level src dst) dry_run (gate h) in
   ActionResult.success (fst check) = false ->
   turned_down h (checked h (snd check)) ("Move " ++ src ++ " to " ++ dst) level
     (move_file os src dst dry_run h)).
Proof.
  assert (Hdown : forall h1 what level,
            disk h1 = disk h ->
            turned_down h h1 what level
              (Returns false, logged h1 (refusal_entry h1 what level))).
  { intros h1 what level Hd. unfold turned_down. cbv zeta. cbn [fst snd].
    destruct (logged_keeps h1 (refusal_entry h1 what level)) as (K1 & _ & _ & K4).
    split; [reflexivity|]. split; [reflexivity|]. split; [rewrite K1; exact Hd | exact K4]. }
  split; [|split; [|split]]; cbv zeta; intros Hno.
  - unfold create_file. rewrite bind_gets_disk, bind_gated, Hno. cbn [negb].
    rewrite bind_log_action. apply Hdown. reflexivity.
  - unfold delete_file. rewrite bind_gated, Hno. cbn [negb].
    rewrite bind_log_action. apply Hdown. reflexivity.
  - unfold copy_file. rewrite bind_gets_disk, bind_gated, Hno. cbn [negb].
    rewrite bind_log_action. apply Hdown. reflexivity.
  - unfold move_file. rewrite bind_gets_disk, bind_gated, Hno. cbn [negb].
    rewrite bind_log_action. apply Hdown. reflexivity.
Qed.


(** X23.  When the prompt of a [create_file] call is answered [never],
    the call returns [False] and the action type [create_file] goes on
    the deny-list; from then on every call of [create_file], whatever
    the path, the content and the dry-run flag, returns [False], asks
    nothing and leaves the file system as it is. *)
Theorem never_disables_create_file (h : host FS) (path content : string) :
  let request := create_request (_get_write_level os (disk h) path) path content in
  _approval_callback (fst (gate h)) = None ->
  Policy.asks (fst (gate h)) request false = true ->
  Gate.response_of (snd (gate h)) = "never" ->
  let run := create_file os path content false h in
  fst run = Returns false /\
  disk (snd run) = disk h /\
  blacklist (fst (gate (snd run))) = (blacklist (fst (gate h)) ++ ["create_file"])%list /\
  forall (h2 : host FS) (path2 content2 : string) (dry_run2 : bool),
    fst (gate h2) = fst (gate (snd run)) ->
    fst (create_file os path2 content2 dry_run2 h2) = Returns false /\
    untouched h2 (snd (create_file os path2 content2 dry_run2 h2)).
Proof.
  destruct h as [[m w] tr fs]. cbn [gate fst snd disk]. cbv zeta.
  set (request := create_request (_get_write_level os fs path) path content).
  intros Hcb Hasks Hnever.
  assert (Hcheck : check_permission request false (m, w) =
                   (Gate.blacklisted_result false,
                    (Gate.with_blacklist m (blacklist m ++ ["create_file"])%list,
                     Gate.logged (Gate.asked (Gate.logged w (Gate.pending_entry w request))
                                             request)
                       (Gate.policy_entry
                          (Gate.asked (Gate.logged w (Gate.pending_entry w request)) request)
                          ("Added to blacklist: " ++ "create_file")
                          (PermissionLevel.value PermissionLevel.ADMIN))))).
  { rewrite (asks_run _ _ _ _ Hasks), request_approval_run, Hcb, cli_approval_run. cbv zeta.
    change (Gate.response_of (Gate.logged w (Gate.pending_entry w request)))
      with (Gate.response_of w).
    rewrite Hnever. cbn [String.eqb Ascii.eqb Bool.eqb].
    rewrite add_to_blacklist_run.
    change (ActionRequest.action_type request) with "create_file".
    destruct (mem "create_file" (blacklist m)) eqn:Emem; [|reflexivity].
    exfalso. apply mem_iff in Emem.
    assert (Hb : _is_blacklisted m request = true).
    { apply (blacklisted_by_true _ _ "create_file" Emem). reflexivity. }
    unfold Policy.asks in Hasks. rewrite Hb in Hasks. discriminate Hasks. }
  pose proof (create_file_refused os {| gate := (m, w); own_trail := tr; disk := fs |}
                path content false) as Hrun.
  cbv zeta in Hrun. cbn [gate disk] in Hrun. fold request in Hrun.
  rewrite Hcheck in Hrun. specialize (Hrun eq_refl). rewrite Hrun.
  match goal with
  | |- context [logged ?h1 ?e] => set (ee := e) in *; set (hh := h1) in *
  end.
  destruct (logged_keeps hh ee) as (K1 & K2 & _ & _).
  cbn [fst snd].
  split; [reflexivity|]. split; [rewrite K1; reflexivity|].
  split; [rewrite K2; reflexivity|].
  intros h2 path2 content2 dry_run2 Hm. rewrite K2 in Hm.
  cbn [hh checked gate fst snd] in Hm.
  destruct h2 as [[m2 w2] tr2 fs2]. cbn [gate fst] in Hm. subst m2.
  set (m1 := Gate.with_blacklist m (blacklist m ++ ["create_file"])%list).
  set (h2 := {| gate := (m1, w2); own_trail := tr2; disk := fs2 |}).
  set (request2 := create_request (_get_write_level os fs2 path2) path2 content2).
  assert (Hb : _is_blacklisted m1 request2 = true).
  { apply (blacklisted_by_true _ _ "create_file"); [|reflexivity].
    cbn [m1 Gate.with_blacklist blacklist]. apply in_or_app. right. left. reflexivity. }
  destruct (blacklisted_run m1 w2 request2 dry_run2 Hb) as (B1 & B2 & B3).
  pose proof (create_file_refused os h2 path2 content2 dry_run2) as Hrun2.
  cbv zeta in Hrun2. cbn [h2 gate disk] in Hrun2. fold request2 in Hrun2.
  specialize (Hrun2 B1). fold h2 in Hrun2. rewrite Hrun2. cbn [fst snd].
  split; [reflexivity|]. apply untouched_logged.
  unfold untouched. cbn [checked h2 gate disk]. repeat split; assumption.
Qed.

End OperatorProperties.

(** *** Cases *)

Section OperatorCases.

Import PermissionManager FileOperator.

Lemma safe_path_is_a_text_prefix_witness :
  home Fixture.os <> "." /\
  _is_safe_path Fixture.os [] "/home/friday2/secrets.txt" = true /\
  _get_write_level Fixture.os [] "/home/friday2/secrets.txt" = PermissionLevel.SAFE_WRITE.
Proof.
  assert (H : home Fixture.os <> ".") by discriminate.
  split; [exact H|].
  destruct (safe_path_is_a_text_prefix Fixture.os [] "/home/friday2/secrets.txt" H)
    as [H1 H2].
  assert (Hs : _is_safe_path Fixture.os [] "/home/friday2/secrets.txt" = true).
  { apply H1. exists "2/secrets.txt". reflexivity. }
  split; [exact Hs | apply H2, Hs].
Defined.

Lemma read_file_asks_nobody_witness :
  fst (read_file Fixture.os "/home/friday/Format C: how-to.txt" "utf-8" (Fixture.host [])) =
    Raises (PermissionError
      "Permission denied: This action is blacklisted and cannot be executed.") /\
  fst (read_file Fixture.os "/home/friday/notes.txt" "utf-8" (Fixture.host [])) =
    Returns "hello".
Proof.
  split.
  - apply (read_file_asks_nobody Fixture.os (Fixture.host [])
             "/home/friday/Format C: how-to.txt" "utf-8").
    exists "format c:". split; [do 4 right; left; reflexivity|].
    right. exists "read file: /home/friday/", " how-to.txt". reflexivity.
  - apply (read_file_asks_nobody Fixture.os (Fixture.host [])
             "/home/friday/notes.txt" "utf-8").
    intros (pattern & Hin & H).
    assert (Hb : _is_blacklisted Sample.manager (read_request "/home/friday/notes.txt") = true).
    { apply (blacklisted_by_caught _ _ pattern Hin).
      destruct H as [H | H]; [left; exact H | right; right; exact H]. }
    discriminate Hb.
Defined.

Lemma refused_operations_return_false_witness :
  fst (create_file Fixture.os "/home/friday/format_disk.txt" "x" false (Fixture.host ["yes"])) =
    Returns false /\
  fst (delete_file Fixture.os "/home/friday/notes.txt" false (Fixture.host ["no"])) =
    Returns false.
Proof.
  destruct (refused_operations_return_false Fixture.os (Fixture.host ["yes"])
              "/home/friday/format_disk.txt" "x" "" "" false) as (H1 & _).
  destruct (refused_operations_return_false Fixture.os (Fixture.host ["no"])
              "/home/friday/notes.txt" "" "" "" false) as (_ & H2 & _).
  split; [apply H1 | apply H2]; vm_compute; reflexivity.
Defined.

Lemma never_disables_create_file_witness :
  fst (create_file Fixture.os "/home/friday/new.txt" "x" false (Fixture.host ["never"])) =
    Returns false /\
  fst (create_file Fixture.os "/tmp/other.txt" "y" true
         (snd (create_file Fixture.os "/home/friday/new.txt" "x" false
                 (Fixture.host ["never"])))) = Returns false.
Proof.
  destruct (never_disables_create_file Fixture.os (Fixture.host ["never"])
              "/home/friday/new.txt" "x" eq_refl) as (H1 & _ & _ & H4).
  - vm_compute. reflexivity.
  - vm_compute. reflexivity.
  - split; [exact H1|]. apply H4. reflexivity.
Defined.

End OperatorCases.

(** ** The Ollama client *)

Module TextMore.

Import TextFacts.

Lemma split_not_nil (sep : ascii) (s : string) : PyText.split sep s <> [].
Proof.
  destruct s as [|c r]; cbn [PyText.split]; [discriminate|].
  destruct (Ascii.eqb c sep); [discriminate|].
  destruct (PyText.split sep r); discriminate.
Qed.

(** A text without the separator is one part, and a first part without
    the separator is split off at the separator that follows it. *)
Lemma split_free (sep : ascii) (p s : string) :
  forallb (fun c => negb (Ascii.eqb c sep)) (list_ascii_of_string p) = true ->
  PyText.split sep p = [p] /\
  PyText.split sep (p ++ String sep s) = p :: PyText.split sep s.
Proof.
  induction p as [|c p IH]; intros H.
  - cbn. rewrite Ascii.eqb_refl. split; reflexivity.
  - cbn [list_ascii_of_string forallb] in H. apply andb_true_iff in H.
    destruct H as [Hc Hp]. apply negb_true_iff in Hc.
    destruct (IH Hp) as [IH1 IH2].
    cbn [String.append PyText.split]. rewrite Hc, IH1, IH2. split; reflexivity.
Qed.

Lemma split_join (sep : ascii) (lines : list string) :
  lines <> [] ->
  Forall (fun l => forallb (fun c => negb (Ascii.eqb c sep)) (list_ascii_of_string l) = true)
         lines ->
  PyText.split sep (PyStr.join (String sep "") lines) = lines.
Proof.
  intros Hne H. induction H as [|l lines Hl Hrest IH]; [contradiction|].
  destruct lines as [|l2 lines].
  - cbn [PyStr.join]. apply (split_free sep l ""), Hl.
  - change (PyStr.join (String sep "") (l :: l2 :: lines))
      with (l ++ String sep (PyStr.join (String sep "") (l2 :: lines))).
    rewrite (proj2 (split_free sep l _ Hl)), IH by discriminate. reflexivity.
Qed.

Lemma rstrip_idem (s : string) : PyStr.rstrip (PyStr.rstrip s) = PyStr.rstrip s.
Proof.
  induction s as [|c r IH]; [reflexivity|].
  cbn [PyStr.rstrip]. destruct (PyStr.rstrip r) as [|d r'] eqn:E.
  - destruct (PyStr.isspace c) eqn:Ec; [reflexivity|]. cbn [PyStr.rstrip]. rewrite Ec.
    reflexivity.
  - cbn [PyStr.rstrip]. cbn [PyStr.rstrip] in IH.
    destruct (PyStr.rstrip r') as [|d' r''] eqn:E'.
    + destruct (PyStr.isspace d); [discriminate IH|]. injection IH as <-. reflexivity.
    + injection IH as <-. reflexivity.
Qed.

Lemma lstrip_head (s : string) :
  PyStr.lstrip s = "" \/
  exists c r, PyStr.lstrip s = String c r /\ PyStr.isspace c = false.
Proof.
  induction s as [|c r IH]; [left; reflexivity|].
  cbn [PyStr.lstrip]. destruct (PyStr.isspace c) eqn:E; [exact IH|].
  right. exists c, r. split; [reflexivity | exact E].
Qed.

Lemma rstrip_head (c : ascii) (r : string) :
  PyStr.isspace c = false -> exists r', PyStr.rstrip (String c r) = String c r'.
Proof.
  intros H. cbn [PyStr.rstrip]. destruct (PyStr.rstrip r); [rewrite H|]; eexists; reflexivity.
Qed.

(** Stripping twice is stripping once. *)
Lemma strip_idem (s : string) : PyStr.strip (PyStr.strip s) = PyStr.strip s.
Proof.
  unfold PyStr.strip. destruct (lstrip_head s) as [-> | (c & r & -> & Hc)]; [reflexivity|].
  destruct (rstrip_head c r Hc) as (r' & E). rewrite E.
  cbn [PyStr.lstrip]. rewrite Hc, <- E. apply rstrip_idem.
Qed.


Lemma lstrip_nil_fields (x : string) : PyStr.lstrip x = "" -> PyText.fields x = [].
Proof.
  induction x as [|c r IH]; [reflexivity|].
  cbn [PyStr.lstrip PyText.fields]. destruct (PyStr.isspace c); [exact IH | discriminate].
Qed.

Lemma blank_no_fields (x : string) :
  PyStr.truthy (PyStr.strip x) = false -> PyText.fields x = [].
Proof.
  intros H. apply lstrip_nil_fields. unfold PyStr.strip in H.
  destruct (lstrip_head x) as [E | (c & r & E & Hc)]; [exact E|].
  rewrite E in H. destruct (rstrip_head c r Hc) as (r' & E'). rewrite E' in H. discriminate H.
Qed.

Lemma fields_head (c : ascii) (r : string) :
  PyStr.isspace c = false -> PyText.fields (String c r) <> [].
Proof.
  intros Hc. cbn [PyText.fields]. rewrite Hc.
  destruct r as [|c2 r2]; [discriminate|].
  destruct (PyStr.isspace c2); [discriminate|].
  destruct (PyText.fields (String c2 r2)); discriminate.
Qed.

(** The words of a text with one more character in front depend on the
    words of the text and on whether it starts a word. *)
Lemma fields_cons (c : ascii) (x x' : string) :
  PyText.fields x' = PyText.fields x ->
  OllamaClient.headspace x' = OllamaClient.headspace x ->
  PyText.fields (String c x') = PyText.fields (String c x).
Proof.
  intros Hf Hh. cbn [PyText.fields]. destruct (PyStr.isspace c); [exact Hf|].
  destruct x as [|d r], x' as [|d' r']; cbn [OllamaClient.headspace] in Hh.
  - reflexivity.
  - rewrite Hh, Hf. reflexivity.
  - rewrite <- Hh, <- Hf. reflexivity.
  - rewrite Hh, Hf. reflexivity.
Qed.

End TextMore.

Section ClientProperties.

Import OllamaClient TextFacts TextMore.

Lemma filter_empty (text : string) : _filter_reasoning text = "" -> text = "".
Proof.
  unfold _filter_reasoning. cbv zeta.
  destruct (PyStr.strip _); cbn [PyStr.truthy negb]; [intros H; exact H | discriminate].
Qed.

(** X24.  [_filter_reasoning] returns the empty text for the empty text
    only, and a blank text for a blank text only; what it returns is the
    text it was given or a text without white space at either end. *)
Theorem filter_keeps_an_answer (text : string) :
  (_filter_reasoning text = "" <-> text = "") /\
  (PyStr.strip (_filter_reasoning text) = "" -> PyStr.strip text = "") /\
  (_filter_reasoning text = text \/
   PyStr.strip (_filter_reasoning text) = _filter_reasoning text).
Proof.
  unfold _filter_reasoning. cbv zeta.
  set (result := PyStr.strip (PyStr.join AuditLogger.newline
                   (filter_lines (PyText.split AuditLogger.LF text) false))).
  assert (Hs : PyStr.strip result = result) by apply strip_idem.
  destruct result as [|c r] eqn:E; cbn [PyStr.truthy negb].
  - split; [reflexivity|]. split; [intros H; exact H | left; reflexivity].
  - split; [|split].
    + split; [discriminate|]. intros ->. cbv in E. discriminate E.
    + rewrite Hs. discriminate.
    + right. exact Hs.
Qed.

Lemma filter_lines_quiet (lines rest : list string) :
  Forall (fun l => quiet l = true) lines ->
  filter_lines (lines ++ rest) false =
  (filter nonblank lines ++ filter_lines rest false)%list.
Proof.
  induction 1 as [|l lines Hl _ IH]; [reflexivity|].
  unfold quiet in Hl. apply andb_true_iff in Hl. destruct Hl as [Ho Hc].
  apply negb_true_iff in Ho, Hc.
  cbn [app filter_lines filter]. rewrite Ho, Hc. unfold nonblank at 1.
  destruct (PyStr.truthy (PyStr.strip l)); rewrite IH; reflexivity.
Qed.

Lemma filter_lines_thinking (mid : list string) (c : string) (post : list string) :
  Forall (fun l => still_thinking l = true) mid ->
  starts_thinking (PyStr.strip (PyStr.lower c)) = false ->
  ends_thinking (PyStr.strip (PyStr.lower c)) = true ->
  filter_lines (mid ++ c :: post) true = filter_lines post false.
Proof.
  intros Hmid Ho Hc. induction Hmid as [|l mid Hl _ IH].
  - cbn [app filter_lines]. rewrite Ho, Hc. reflexivity.
  - cbn [app filter_lines]. unfold still_thinking in Hl.
    destruct (starts_thinking (PyStr.strip (PyStr.lower l))); [exact IH|].
    cbn [orb] in Hl. apply negb_true_iff in Hl. rewrite Hl. exact IH.
Qed.

(** X25.  The text is made of lines without markers, a line that opens
    the thinking, lines that do not close it, a line that closes it, and
    lines without markers again: [_filter_reasoning] returns the lines
    outside the thinking that are not blank, joined by line feeds and
    stripped, when that is not empty. *)
Theorem thinking_block_is_dropped (pre mid post : list string) (o c : string) :
  Forall (fun l => one_line l = true) (pre ++ o :: mid ++ c :: post) ->
  Forall (fun l => quiet l = true) pre ->
  Forall (fun l => quiet l = true) post ->
  starts_thinking (PyStr.strip (PyStr.lower o)) = true ->
  Forall (fun l => still_thinking l = true) mid ->
  starts_thinking (PyStr.strip (PyStr.lower c)) = false ->
  ends_thinking (PyStr.strip (PyStr.lower c)) = true ->
  let answer :=
    PyStr.strip (PyStr.join AuditLogger.newline (filter nonblank (pre ++ post))) in
  answer <> "" ->
  _filter_reasoning (PyStr.join AuditLogger.newline (pre ++ o :: mid ++ c :: post)) = answer.
Proof.
  intros Hlines Hpre Hpost Ho Hmid Hc1 Hc2 answer Hne.
  unfold _filter_reasoning. cbv zeta.
  unfold AuditLogger.newline at 1.
  rewrite (split_join AuditLogger.LF) by (exact Hlines || (destruct pre; discriminate)).
  rewrite (filter_lines_quiet pre _ Hpre).
  cbn [filter_lines]. rewrite Ho.
  rewrite (filter_lines_thinking mid c post Hmid Hc1 Hc2).
  assert (Hp : filter_lines post false = filter nonblank post).
  { pose proof (filter_lines_quiet post [] Hpost) as H.
    rewrite !app_nil_r in H. exact H. }
  rewrite Hp, <- filter_app.
  change (String AuditLogger.LF "") with AuditLogger.newline. fold answer.
  destruct answer; [exfalso; apply Hne; reflexivity | reflexivity].
Qed.

Lemma fields_words (s : string) :
  Forall (fun w => word w = true) (PyText.fields s).
Proof.
  induction s as [|c r IH]; [constructor|].
  cbn [PyText.fields]. destruct (PyStr.isspace c) eqn:Ec; [exact IH|].
  assert (Hc : word (String c "") = true).
  { unfold word. cbn. rewrite Ec. reflexivity. }
  destruct r as [|c2 r2]; [constructor; [exact Hc | constructor]|].
  destruct (PyStr.isspace c2); [constructor; [exact Hc | exact IH]|].
  destruct (PyText.fields (String c2 r2)) as [|w ws]; [constructor; [exact Hc | constructor]|].
  inversion IH as [|? ? Hw Hws]; subst. constructor; [|exact Hws].
  unfold word in *. cbn [PyStr.truthy list_ascii_of_string forallb andb].
  rewrite Ec. cbn [negb andb]. apply andb_true_iff in Hw. apply Hw.
Qed.

Lemma names_of_words (lines : list string) :
  Forall (fun w => word w = true) (names_of lines) /\
  (List.length (names_of lines) <= List.length lines)%nat.
Proof.
  induction lines as [|l lines [IH1 IH2]]; [split; [constructor | apply le_n]|].
  cbn [names_of List.length]. destruct (PyStr.truthy (PyStr.strip l)); [|split; [exact IH1 | lia]].
  pose proof (fields_words l) as Hf.
  destruct (PyText.fields l) as [|name rest]; [split; [exact IH1 | lia]|].
  inversion Hf; subst. split; [constructor; assumption | cbn [List.length]; lia].
Qed.

(** X26.  Every name [list_models] returns is a word: not empty and
    without white space.  There are fewer names than lines in the
    stripped output, and none when the command fails, times out or is
    not found. *)
Theorem listed_models_are_words (listing : run_result) :
  Forall (fun name => word name = true) (list_models listing) /\
  (is_available listing = false -> list_models listing = []) /\
  (forall returncode stdout stderr,
     listing = Completed returncode stdout stderr ->
     (List.length (list_models listing) <
      List.length (PyText.split AuditLogger.LF (PyStr.strip stdout)))%nat).
Proof.
  destruct listing as [rc out err| |]; cbn [list_models is_available].
  2, 3: split; [constructor | split; [reflexivity | intros ? ? ? H; discriminate H]].
  destruct (rc =? 0)%Z; cbn [negb].
  - split; [apply names_of_words|]. split; [discriminate|].
    intros ? ? ? H. injection H as _ <- _.
    pose proof (split_not_nil AuditLogger.LF (PyStr.strip out)) as Hne.
    destruct (PyText.split AuditLogger.LF (PyStr.strip out)) as [|l ls]; [contradiction|].
    cbn [tl List.length]. destruct (names_of_words ls) as [_ H]. lia.
  - split; [constructor|]. split; [reflexivity|].
    intros ? ? ? H. injection H as _ <- _.
    pose proof (split_not_nil AuditLogger.LF (PyStr.strip out)) as Hne.
    destruct (PyText.split AuditLogger.LF (PyStr.strip out)); [contradiction|].
    cbn [List.length]. lia.
Qed.

Lemma any_matches_base (models : list string) (base tag : string) :
  colon_free base = true ->
  any_matches models (base ++ String ":" tag) =
  existsb (fun m => PyStr.startswith m base) models.
Proof.
  intros Hb. induction models as [|m models IH]; [reflexivity|].
  cbn [any_matches existsb].
  rewrite (proj2 (split_free ":" base tag Hb)). cbn [hd]. rewrite IH.
  destruct (PyStr.startswith m base) eqn:Es; [rewrite orb_true_r; reflexivity|].
  destruct (String.eqb m (base ++ String ":" tag)) eqn:Ee; [|reflexivity].
  apply String.eqb_eq in Ee. subst m.
  assert (H : PyStr.startswith (base ++ String ":" tag) base = true).
  { apply startswith_iff. eexists. reflexivity. }
  rewrite H in Es. discriminate Es.
Qed.

(** X27.  For a name made of a base without colon, a colon and a tag,
    [model_exists] holds exactly when a listed model starts with the
    base: the tag is not looked at.  [switch_model] then returns [True]
    and makes the name the current model, and otherwise returns [False]
    and keeps the current one. *)
Theorem model_exists_ignores_the_tag (self : t) (listing : run_result) (base tag : string) :
  colon_free base = true ->
  let wanted := base ++ String ":" tag in
  let found := existsb (fun m => PyStr.startswith m base) (list_models listing) in
  model_exists self listing (Some wanted) = found /\
  fst (switch_model listing wanted self) = found /\
  model (snd (switch_model listing wanted self)) = (if found then wanted else model self).
Proof.
  intros Hb wanted found.
  assert (H : model_exists self listing (Some wanted) = found).
  { unfold model_exists, wanted.
    assert (Ht : PyStr.truthy (base ++ String ":" tag) = true) by (destruct base; reflexivity).
    rewrite Ht. apply any_matches_base, Hb. }
  split; [exact H|]. unfold switch_model. rewrite H.
  destruct found; split; reflexivity.
Qed.


Lemma names_of_fields (line : string) (rest : list string) :
  names_of (line :: rest) =
  match PyText.fields line with
  | name :: _ => name :: names_of rest
  | [] => names_of rest
  end.
Proof.
  cbn [names_of]. destruct (PyStr.truthy (PyStr.strip line)) eqn:E; [reflexivity|].
  rewrite (blank_no_fields _ E). reflexivity.
Qed.

(** Stripping a text on the right changes no name that is read from the
    lines after the first. *)
Lemma split_rstrip (s : string) :
  exists f' t' f t,
    PyText.split AuditLogger.LF (PyStr.rstrip s) = f' :: t' /\
    PyText.split AuditLogger.LF s = f :: t /\
    names_of t' = names_of t /\
    PyText.fields f' = PyText.fields f /\
    headspace f' = headspace f.
Proof.
  induction s as [|c r (f' & t' & f & t & E1 & E2 & N & F & H)].
  - exists "", [], "", []. repeat split; reflexivity.
  - cbn [PyStr.rstrip]. destruct (PyStr.rstrip r) as [|d r''] eqn:Er.
    + cbn [PyText.split] in E1. injection E1 as <- <-.
      cbn [names_of PyText.fields headspace] in N, F, H.
      destruct (PyStr.isspace c) eqn:Ec.
      * destruct (Ascii.eqb c AuditLogger.LF) eqn:El.
        -- exists "", [], "", (f :: t). cbn [PyText.split]. rewrite El, E2.
           repeat split; try reflexivity.
           rewrite names_of_fields, <- F. exact N.
        -- exists "", [], (String c f), t. cbn [PyText.split]. rewrite El, E2.
           repeat split; try reflexivity; [exact N | |].
           ++ cbn [PyText.fields]. rewrite Ec. exact F.
           ++ cbn [headspace]. rewrite Ec. reflexivity.
      * assert (El : Ascii.eqb c AuditLogger.LF = false).
        { destruct (Ascii.eqb c AuditLogger.LF) eqn:El; [|reflexivity].
          apply Ascii.eqb_eq in El. subst c. discriminate Ec. }
        exists (String c ""), [], (String c f), t. cbn [PyText.split]. rewrite El, E2.
        repeat split; try reflexivity; [exact N|].
        apply fields_cons; [exact F | exact H].
    + destruct (Ascii.eqb c AuditLogger.LF) eqn:El.
      * exists "", (f' :: t'), "", (f :: t). cbn [PyText.split]. rewrite El.
        cbn [PyText.split] in E1. rewrite E1, E2.
        repeat split; try reflexivity.
        rewrite !names_of_fields, F, N. reflexivity.
      * exists (String c f'), t', (String c f), t. cbn [PyText.split]. rewrite El.
        cbn [PyText.split] in E1. rewrite E1, E2.
        repeat split; try reflexivity; [exact N|].
        apply fields_cons; [exact F | exact H].
Qed.

Lemma lstrip_nonblank (header rest : string) :
  nonblank header = true ->
  PyStr.lstrip (header ++ rest) = PyStr.lstrip header ++ rest.
Proof.
  unfold nonblank, PyStr.strip. induction header as [|c h IH]; [discriminate|].
  cbn [String.append PyStr.lstrip]. destruct (PyStr.isspace c); [exact IH | reflexivity].
Qed.

Lemma one_line_lstrip (s : string) : one_line s = true -> one_line (PyStr.lstrip s) = true.
Proof.
  unfold one_line. induction s as [|c s IH]; [reflexivity|].
  cbn [PyStr.lstrip]. destruct (PyStr.isspace c); [|intros H; exact H].
  cbn [list_ascii_of_string forallb]. intros H. apply andb_true_iff in H. apply IH, H.
Qed.

Lemma one_line_app (x y : string) :
  one_line x = true -> one_line y = true -> one_line (x ++ y) = true.
Proof.
  unfold one_line. intros Hx Hy. rewrite JsonFacts.la_app, forallb_app, Hx, Hy. reflexivity.
Qed.

Lemma word_one_line (s : string) : word s = true -> one_line s = true.
Proof.
  unfold word, one_line. intros H. apply andb_true_iff in H. destruct H as [_ H].
  induction (list_ascii_of_string s) as [|c l IH]; [reflexivity|].
  cbn [forallb] in *. apply andb_true_iff in H. destruct H as [Hc Hl].
  rewrite (IH Hl), andb_true_r.
  destruct (Ascii.eqb c AuditLogger.LF) eqn:E; [|reflexivity].
  apply Ascii.eqb_eq in E. subst c. discriminate Hc.
Qed.

Lemma fields_word_rest (name rest : string) :
  word name = true -> headspace rest = true ->
  PyText.fields (name ++ rest) = name :: PyText.fields rest.
Proof.
  intros Hw Hr. induction name as [|c n IH]; [discriminate Hw|].
  unfold word in Hw. cbn [PyStr.truthy list_ascii_of_string forallb andb] in Hw.
  apply andb_true_iff in Hw. destruct Hw as [Hc Hn]. apply negb_true_iff in Hc.
  cbn [String.append PyText.fields]. rewrite Hc.
  destruct n as [|c2 n2].
  - cbn [String.append]. destruct rest as [|d rest']; [reflexivity|].
    cbn [headspace] in Hr. rewrite Hr. reflexivity.
  - cbn [String.append].
    assert (Hc2 : PyStr.isspace c2 = false).
    { cbn [list_ascii_of_string forallb] in Hn. apply andb_true_iff in Hn.
      apply negb_true_iff. apply Hn. }
    rewrite Hc2.
    change (String c2 (n2 ++ rest)) with (String c2 n2 ++ rest).
    rewrite IH; [reflexivity|]. unfold word. cbn [PyStr.truthy andb]. exact Hn.
Qed.

Lemma names_of_rows (rows : list (string * string)) :
  Forall (fun r => word (fst r) = true /\ headspace (snd r) = true /\
                   one_line (snd r) = true) rows ->
  names_of (PyText.split AuditLogger.LF (rows_text rows)) = map fst rows.
Proof.
  induction 1 as [|[name rest] rows (Hw & Hh & Hl) _ IH]; [reflexivity|].
  cbn [fst snd] in Hw, Hh, Hl. cbn [rows_text map fst].
  replace ((name ++ rest ++ AuditLogger.newline) ++ rows_text rows)
    with ((name ++ rest) ++ String AuditLogger.LF (rows_text rows)).
  - rewrite (proj2 (split_free AuditLogger.LF (name ++ rest) _
                      (one_line_app _ _ (word_one_line _ Hw) Hl))).
    rewrite names_of_fields, (fields_word_rest _ _ Hw Hh), IH. reflexivity.
  - rewrite !TrailFacts.append_assoc. reflexivity.
Qed.

(** X28.  From an output made of a header line that is not blank and
    then a line for each model, a name that is a word followed by white
    space and the rest of the line, [list_models] returns the names, in
    order. *)
Theorem list_models_reads_the_names
    (header : string) (rows : list (string * string)) (stderr : string) :
  one_line header = true ->
  nonblank header = true ->
  Forall (fun r => word (fst r) = true /\ headspace (snd r) = true /\
                   one_line (snd r) = true) rows ->
  list_models (Completed 0 (header ++ AuditLogger.newline ++ rows_text rows) stderr) =
  map fst rows.
Proof.
  intros Hl Hb Hrows. cbn [list_models Z.eqb negb]. cbv zeta.
  unfold PyStr.strip. rewrite (lstrip_nonblank _ _ Hb).
  destruct (split_rstrip (PyStr.lstrip header ++ AuditLogger.newline ++ rows_text rows))
    as (f' & t' & f & t & E1 & E2 & N & _ & _).
  rewrite E1. cbn [tl]. rewrite N.
  change (AuditLogger.newline ++ rows_text rows)
    with (String AuditLogger.LF (rows_text rows)) in E2.
  rewrite (proj2 (split_free AuditLogger.LF _ _ (one_line_lstrip _ Hl))) in E2.
  injection E2 as _ <-. apply names_of_rows, Hrows.
Qed.


(** X29.  [chat] returns a response that is done and carries the model
    of the client; its content is empty only when the command completed
    with return code 0 and printed white space only.  [generate] returns
    the content of [chat] for the one message of the user, whose prompt
    without a system prompt is [User: prompt], a line feed and
    [Assistant:]. *)
Theorem chat_always_answers (self : t) (messages : list (PyDict.dict string))
    (system_prompt : option string) (run : list string -> run_result) (prompt : string) :
  let reply := chat self messages system_prompt run in
  ChatResponse.model reply = model self /\
  ChatResponse.done reply = true /\
  (ChatResponse.content reply = "" ->
   exists stdout stderr,
     run ["ollama"; "run"; model self; prompt_of messages system_prompt] =
       Completed 0 stdout stderr /\
     PyStr.strip stdout = "") /\
  generate self prompt system_prompt run =
    ChatResponse.content
      (chat self [[("role", "user"); ("content", prompt)]] system_prompt run) /\
  prompt_of [[("role", "user"); ("content", prompt)]] None =
    "User: " ++ prompt ++ AuditLogger.newline ++ "Assistant:".
Proof.
  cbv zeta. unfold chat.
  destruct (run ["ollama"; "run"; model self; prompt_of messages system_prompt])
    as [rc out err| |] eqn:E.
  - destruct (rc =? 0)%Z eqn:Erc; cbn [negb ChatResponse.model ChatResponse.done
                                         ChatResponse.content].
    + apply Z.eqb_eq in Erc. subst rc.
      repeat split; try reflexivity.
      intros H. exists out, err. split; [reflexivity | apply filter_empty, H].
    + repeat split; try reflexivity. discriminate.
  - repeat split; try reflexivity. discriminate.
  - repeat split; try reflexivity. discriminate.
Qed.

End ClientProperties.

(** *** Cases *)

Section ClientCases.

Import OllamaClient.

Lemma thinking_block_is_dropped_witness :
  _filter_reasoning
    (PyStr.join AuditLogger.newline
       ["Hello."; "Thinking..."; "Let me add the numbers."; ""; "...done thinking."; "";
        "The answer is 4."]) =
  "Hello." ++ AuditLogger.newline ++ "The answer is 4.".
Proof.
  apply (thinking_block_is_dropped ["Hello."] ["Let me add the numbers."; ""]
           [""; "The answer is 4."] "Thinking..." "...done thinking.").
  - repeat (constructor; [reflexivity|]). constructor.
  - repeat (constructor; [reflexivity|]). constructor.
  - repeat (constructor; [reflexivity|]). constructor.
  - reflexivity.
  - repeat (constructor; [reflexivity|]). constructor.
  - reflexivity.
  - reflexivity.
  - discriminate.
Defined.

Lemma model_exists_ignores_the_tag_witness :
  colon_free "llama3" = true /\
  ~ In "llama3:8b" (list_models Fixture.listing) /\
  model_exists Fixture.client Fixture.listing (Some "llama3:8b") = true /\
  model (snd (switch_model Fixture.listing "llama3:8b" Fixture.client)) = "llama3:8b".
Proof.
  split; [reflexivity|].
  split; [vm_compute; intros [H|[H|[]]]; discriminate H|].
  destruct (model_exists_ignores_the_tag Fixture.client Fixture.listing "llama3" "8b" eq_refl)
    as (H1 & _ & H3).
  split; (etransitivity; [first [exact H1 | exact H3] | reflexivity]).
Defined.

Lemma list_models_reads_the_names_witness :
  list_models Fixture.listing = ["deepseek-r1:1.5b"; "llama3:latest"].
Proof.
  apply (list_models_reads_the_names
           "NAME                ID              SIZE      MODIFIED" Fixture.table "").
  - reflexivity.
  - reflexivity.
  - repeat (constructor; [repeat split; reflexivity|]). constructor.
Defined.

End ClientCases.
